(** * A movie recommender demo: specification and proofs

    Shallow embedding of [basic_recommender.py]: the catalog loader
    ([extract_year]), the candidate sampler
    ([get_movies_by_genre_and_year]), the rating collector
    ([get_user_ratings]), the dataset merger ([append_user_data]) and the
    recommendation engine ([train_and_recommend]).

    Conventions of the embedding.
    - Python [int] is [Z]. Python [str] is the [string] of its UTF-8
      bytes: [.], [\d] and [int] read whole code points, and a decimal
      digit is any digit of Unicode. Case folding only knows the letters
      A-Z.
    - A pandas [DataFrame] is the list of its rows, each with its index
      label; [read_csv] and [pd.DataFrame] label rows 0, 1, 2, ... A
      cell of a column of text is [Some] string, or [None] when it holds
      something else (a missing value, a number). The identifiers of a
      ratings table are integers, in a column of dtype int64, uint64 or
      object as their sizes require.
    - A computation that may raise returns an [outcome]; one that also
      reads or writes the console is a function on [console].
    - The external libraries are modelled by what the program uses of
      them: the [re] module on the pattern language of module [Re], the
      matrix-factorisation model as an interface ([Algo]) with the
      prediction rule of [surprise] as one instance ([SVD]). *)

From Stdlib Require Import ZArith QArith List String Ascii Bool Lia.
From Stdlib Require Import DecimalString DecimalZ DecimalPos.
From Stdlib Require Import Sorting.Sorted Sorting.Permutation.
From stdpp Require Import gmap strings.
Import ListNotations.

(** ** Outcomes *)

Inductive exn : Type :=
| ValueError (msg : string)
| TypeError
| AttributeError
| EOFError
| IndexError.

(** [Unsupported] is not a Python behaviour: it marks an input on which
    this model of a library function is silent (for instance a regular
    expression using operators the model does not interpret). *)
Inductive outcome (A : Type) : Type :=
| Return (a : A)
| Raise (e : exn)
| Unsupported.
Arguments Return {A} a.
Arguments Raise {A} e.
Arguments Unsupported {A}.

Definition obind {A B} (f : A -> outcome B) (c : outcome A) : outcome B :=
  match c with
  | Return a => f a
  | Raise e => Raise e
  | Unsupported => Unsupported
  end.

#[global] Instance outcome_ret : MRet outcome := fun A a => Return a.
#[global] Instance outcome_bind : MBind outcome := fun A B f c => obind f c.

Fixpoint traverse {A B} (f : A -> outcome B) (l : list A) : outcome (list B) :=
  match l with
  | [] => Return []
  | a :: l' => b ← f a; bs ← traverse f l'; Return (b :: bs)
  end.

(** ** Characters and strings *)

Definition is_upper (c : ascii) : bool :=
  let n := N_of_ascii c in ((65 <=? n) && (n <=? 90))%N.

Definition lower (c : ascii) : ascii :=
  if is_upper c then ascii_of_N (N_of_ascii c + 32) else c.

Fixpoint casefold (s : string) : string :=
  match s with
  | EmptyString => EmptyString
  | String c s' => String (lower c) (casefold s')
  end.

(** *** Code points and decimal digits *)

(** The payload of a continuation byte [10xxxxxx]. *)
Definition continuation (c : ascii) : option N :=
  let n := N_of_ascii c in
  if ((128 <=? n) && (n <? 192))%N then Some (n - 128)%N else None.

(** The code point at the front of a UTF-8 text, with the bytes that
    write it and the text after them. Overlong forms, surrogates and
    numbers beyond U+10FFFF are no code points. *)
Definition code_point (s : string) : option (N * string * string) :=
  match s with
  | EmptyString => None
  | String b0 s1 =>
      let n0 := N_of_ascii b0 in
      if (n0 <? 128)%N then Some (n0, String b0 EmptyString, s1)
      else if (n0 <? 194)%N then None
      else if (n0 <? 224)%N then
        match s1 with
        | String b1 s2 =>
            x1 ← continuation b1;
            Some (((n0 - 192) * 64 + x1)%N, String b0 (String b1 EmptyString), s2)
        | _ => None
        end
      else if (n0 <? 240)%N then
        match s1 with
        | String b1 (String b2 s3) =>
            x1 ← continuation b1;
            x2 ← continuation b2;
            let cp := ((n0 - 224) * 4096 + x1 * 64 + x2)%N in
            if ((2048 <=? cp) && negb ((55296 <=? cp) && (cp <? 57344)))%N
            then Some (cp, String b0 (String b1 (String b2 EmptyString)), s3)
            else None
        | _ => None
        end
      else if (n0 <? 245)%N then
        match s1 with
        | String b1 (String b2 (String b3 s4)) =>
            x1 ← continuation b1;
            x2 ← continuation b2;
            x3 ← continuation b3;
            let cp := ((n0 - 240) * 262144 + x1 * 4096 + x2 * 64 + x3)%N in
            if ((65536 <=? cp) && (cp <? 1114112))%N
            then Some (cp, String b0 (String b1 (String b2 (String b3 EmptyString))), s4)
            else None
        | _ => None
        end
      else None
  end.

(** The decimal digits of Unicode 14 (general category Nd) come in runs
    of ten, zero to nine; these are the code points of the zeros. They
    are the characters that [\d] matches and that [int] reads. *)
Definition decimal_zeros : list N :=
  [48; 1632; 1776; 1984; 2406; 2534; 2662; 2790; 2918; 3046; 3174; 3302;
   3430; 3558; 3664; 3792; 3872; 4160; 4240; 6112; 6160; 6470; 6608; 6784;
   6800; 6992; 7088; 7232; 7248; 42528; 43216; 43264; 43472; 43504; 43600;
   44016; 65296; 66720; 68912; 69734; 69872; 69942; 70096; 70384; 70736;
   70864; 71248; 71360; 71472; 71904; 72016; 72784; 73040; 73120; 92768;
   92864; 93008; 120782; 120792; 120802; 120812; 120822; 123200; 123632;
   125264; 130032]%N.

(** The value of a code point that is a decimal digit. *)
Definition decimal (cp : N) : option Z :=
  match List.find (fun zero => (zero <=? cp) && (cp <? zero + 10))%N decimal_zeros with
  | Some zero => Some (Z.of_N (cp - zero))
  | None => None
  end.

(** The decimal digit at the front of a text: its value, the bytes
    that write it and the text after them. *)
Definition decimal_digit (s : string) : option (Z * string * string) :=
  match code_point s with
  | Some (cp, w, rest) =>
      match decimal cp with
      | Some v => Some (v, w, rest)
      | None => None
      end
  | None => None
  end.

(** *** Numerals *)

(** [str(z)] and [int(s)] on decimal numerals. [py_int] reads an
    optional minus sign followed by decimal digits; on any other string
    Python either raises [ValueError] or accepts a spelling (a plus
    sign, blanks, underscores) that is not modelled. *)
Definition py_str (z : Z) : string := NilZero.string_of_int (Z.to_int z).

(** The number that the digits of [s] write after those read into
    [acc]; [None] when [s] has something else than digits. A digit takes
    at least one byte, so the length of [s] is fuel enough. *)
Fixpoint read_digits (fuel : nat) (s : string) (acc : Z) : option Z :=
  match s, fuel with
  | EmptyString, _ => Some acc
  | _, O => None
  | _, S fuel' =>
      match decimal_digit s with
      | Some (v, _, rest) => read_digits fuel' rest (10 * acc + v)
      | None => None
      end
  end.

Definition py_int (s : string) : outcome Z :=
  let (negative, body) :=
    match s with
    | String c s' => if Ascii.eqb c "-" then (true, s') else (false, s)
    | EmptyString => (false, s)
    end in
  match body with
  | EmptyString => Unsupported
  | _ =>
      match read_digits (String.length body) body 0 with
      | Some n => Return (if negative : bool then - n else n)%Z
      | None => Unsupported
      end
  end.

(** ** The [re] module, on a fragment of its pattern language *)

Module Re.

(** A pattern is an alternation of sequences of atoms. An ordinary
    character of the pattern gives one literal for each of its bytes;
    [.] and [\d] stand for one character of the subject. *)
Inductive atom : Type :=
| Lit (c : ascii)     (* a byte of an ordinary character *)
| Dot                 (* [.]: any character but a newline *)
| Digit.              (* [\d]: a decimal digit *)

Definition regex : Type := list (list atom).

(** Characters with a meaning in patterns that the model does not
    interpret. The two it does interpret are [.] and [|]. *)
Definition uninterpreted (c : ascii) : bool :=
  existsb (Ascii.eqb c)
    ["\"; "^"; "$"; "*"; "+"; "?"; "{"; "}"; "["; "]"; "("; ")"]%char.

Definition push (a : atom) (alts : regex) : regex :=
  match alts with
  | [] => [[a]]
  | r :: rest => (a :: r) :: rest
  end.

(** [re.compile(pat)]; [None] when [pat] leaves the fragment. *)
Fixpoint compile (pat : string) : option regex :=
  match pat with
  | EmptyString => Some [[]]
  | String c pat' =>
      match compile pat' with
      | None => None
      | Some alts =>
          if Ascii.eqb c "|" then Some ([] :: alts)
          else if Ascii.eqb c "." then Some (push Dot alts)
          else if uninterpreted c then None
          else Some (push (Lit c) alts)
      end
  end.

(** One atom at the front of [s]: the text it matches and the text
    after it. [icase] is the flag [re.IGNORECASE]. *)
Definition step (icase : bool) (a : atom) (s : string) : option (string * string) :=
  match a with
  | Lit x =>
      match s with
      | String c s' =>
          if (if icase then Ascii.eqb (lower x) (lower c) else Ascii.eqb x c)
          then Some (String c EmptyString, s')
          else None
      | EmptyString => None
      end
  | Dot =>
      match code_point s with
      | Some (cp, w, rest) => if (cp =? 10)%N then None else Some (w, rest)
      | None => None
      end
  | Digit =>
      match decimal_digit s with
      | Some (_, w, rest) => Some (w, rest)
      | None => None
      end
  end.

(** The prefix of [s] that the sequence matches. *)
Fixpoint match_here (icase : bool) (r : list atom) (s : string) : option string :=
  match r with
  | [] => Some EmptyString
  | a :: r' =>
      match step icase a s with
      | Some (w, s') =>
          match match_here icase r' s' with
          | Some ws => Some (w +:+ ws)
          | None => None
          end
      | None => None
      end
  end.

(** The alternatives are tried in order. *)
Fixpoint match_at (icase : bool) (re : regex) (s : string) : option string :=
  match re with
  | [] => None
  | r :: re' =>
      match match_here icase r s with
      | Some w => Some w
      | None => match_at icase re' s
      end
  end.

(** [re.search]: the leftmost match, scanning from offset [i] of the
    subject, of which [s] is what remains. The result is the offset
    where the match starts (in bytes) and the text matched,
    [m.group()]. *)
Fixpoint search_from (icase : bool) (re : regex) (s : string) (i : nat)
  : option (nat * string) :=
  match match_at icase re s with
  | Some w => Some (i, w)
  | None =>
      match s with
      | EmptyString => None
      | String _ s' => search_from icase re s' (S i)
      end
  end.

Definition search (icase : bool) (re : regex) (s : string)
  : option (nat * string) :=
  search_from icase re s 0.

End Re.

(** ** 1. Load data *)

(** The compiled form of the pattern [\((\d{4})\)]. Group 1 is the
    match without the parentheses around it. *)
Definition year_re : Re.regex :=
  [[Re.Lit "("; Re.Digit; Re.Digit; Re.Digit; Re.Digit; Re.Lit ")"]]%char.

Definition group_1 (m : string) : string := substring 1 (String.length m - 2) m.

Definition extract_year (title : string) : outcome (option Z) :=
  match Re.search false year_re title with
  | Some (_, m) => y ← py_int (group_1 m); Return (Some y)
  | None => Return None
  end.

(** ** Floating-point values

    A Python [float] is a finite value, one of the two infinities or
    NaN. Finite values are only compared here, never computed with, so
    they are carried as the rationals they denote. *)
Inductive pyfloat : Type :=
| Finite (q : Q)
| PosInf
| NegInf
| NaN.

Definition Qlt_bool (a b : Q) : bool := negb (Qle_bool b a).

(** [x >= y] *)
Definition float_ge (x y : pyfloat) : bool :=
  match x, y with
  | NaN, _ | _, NaN => false
  | PosInf, _ => true
  | _, NegInf => true
  | _, PosInf => false
  | NegInf, _ => false
  | Finite a, Finite b => Qle_bool b a
  end.

(** ** Data frames *)

(** Rows paired with their index labels. *)
Definition DataFrame (A : Type) : Type := list (nat * A).

Definition index {A} (df : DataFrame A) : list nat := map fst df.
Definition values {A} (df : DataFrame A) : list A := map snd df.

(** The default index 0, 1, 2, ... given by [read_csv], [pd.DataFrame]
    and [ignore_index=True]. *)
Definition range_index {A} (rows : list A) : DataFrame A :=
  combine (seq 0 (length rows)) rows.

(** [df[mask]] for a mask computed row by row. *)
Definition select {A} (p : A -> bool) (df : DataFrame A) : DataFrame A :=
  List.filter (fun r => p (snd r)) df.

(** [df.empty] *)
Definition empty {A} (df : DataFrame A) : bool :=
  match df with [] => true | _ :: _ => false end.

(** [pd.concat(frames, ignore_index=True)] *)
Definition concat_ignore_index {A} (frames : list (DataFrame A)) : DataFrame A :=
  range_index (flat_map values frames).

(** [rs.choice(len(pool), size=k, replace=False)] followed by [take]:
    [k] rows at distinct positions, in the order drawn. The generator is
    represented by the numbers it yields; each draw picks among the
    rows not yet taken. *)
Fixpoint draw {A} (rng : list nat) (k : nat) (pool : list A) : list A :=
  match k with
  | O => []
  | S k' =>
      match pool !! (hd 0 rng mod length pool) with
      | Some x => x :: draw (tl rng) k' (delete (hd 0 rng mod length pool) pool)
      | None => []
      end
  end.

(** [df.sample(n)] *)
Definition sample {A} (rng : list nat) (df : DataFrame A) (n : Z)
  : outcome (DataFrame A) :=
  if (n <? 0)%Z then
    Raise (ValueError "A negative number of rows requested. Please provide `n` >= 0.")
  else if (Z.of_nat (length df) <? n)%Z then
    Raise (ValueError "Cannot take a larger sample than population when 'replace=False'")
  else Return (draw rng (Z.to_nat n) df).

(** [Series.str] on a column of cells. pandas grants the accessor to a
    column that holds a string, and to one of dtype object without a
    value. A column with rows and no string among them is read by
    [read_csv] as numbers (float64 when every cell is missing), and on
    it the accessor raises [AttributeError]. Selecting rows keeps the
    dtype, so the column to look at is the one that was read. *)
Definition str_accessor (column : list (option string)) : outcome unit :=
  match column with
  | [] => Return tt
  | _ :: _ =>
      if existsb (fun cell => match cell with Some _ => true | None => false end) column
      then Return tt
      else Raise AttributeError
  end.

(** [Series.str.contains(pat, case=False, na=na)] on one cell, for a
    compiled pattern. pandas passes [pat] to [re.compile] (its [regex]
    argument defaults to [True]) with the flag [re.IGNORECASE], and
    tests each cell with [search]. *)
Definition str_contains (re : Re.regex) (na : bool) (cell : option string) : bool :=
  match cell with
  | Some s => match Re.search true re s with Some _ => true | None => false end
  | None => na
  end.

Definition compile_pattern (pat : string) : outcome Re.regex :=
  match Re.compile pat with
  | Some re => Return re
  | None => Unsupported
  end.

(** ** The tables *)

(** A row of [movies.csv] as [read_csv] returns it. A cell of [title]
    or [genres] that is not a string is [None]. *)
Record MovieRow : Type := {
  csv_movieId : Z;
  csv_title : option string;
  csv_genres : option string
}.

(** A row of [movies] once the column [year] is added. *)
Record Movie : Type := {
  movieId : Z;
  title : string;
  genres : option string;
  year : option Z
}.

Record Rating : Type := {
  userId : Z;
  r_movieId : Z;
  rating : pyfloat
}.

Definition read_csv {A} (rows : list A) : DataFrame A := range_index rows.

(** [movies["year"] = movies["title"].apply(extract_year)]. On a cell
    that is not a string, [re.search] raises [TypeError]. *)
Definition add_year (r : nat * MovieRow) : outcome (nat * Movie) :=
  match csv_title r.2 with
  | Some t =>
      y ← extract_year t;
      Return (r.1, {| movieId := csv_movieId r.2; title := t;
                      genres := csv_genres r.2; year := y |})
  | None => Raise TypeError
  end.

Definition load_movies (csv : list MovieRow) : outcome (DataFrame Movie) :=
  traverse add_year (read_csv csv).

(** [movies["year"] >= min_year] and [movies["year"] > min_year]; a
    missing year compares false. *)
Definition year_ge (y : option Z) (min_year : Z) : bool :=
  match y with Some y => (min_year <=? y)%Z | None => false end.

Definition year_gt (y : option Z) (min_year : Z) : bool :=
  match y with Some y => (min_year <? y)%Z | None => false end.

(** ** 2. Helper functions *)

(** Filter movies by genre and year, and return a random sample. *)
Definition get_movies_by_genre_and_year (movies : DataFrame Movie)
    (rng : list nat) (genre : string) (min_year : Z) (n : Z)
  : outcome (DataFrame Movie) :=
  _ ← str_accessor (map genres (values movies));
  re ← compile_pattern genre;
  let pool :=
    select (fun m => str_contains re false (genres m) && year_ge (year m) min_year)
           movies in
  if empty pool then
    Raise (ValueError "No movies match that genre/year combination.")
  else sample rng pool (Z.min n (Z.of_nat (length pool))).

(** *** Columns of integers

    pandas keeps a column of integers as int64 when every value fits,
    as uint64 when no value is negative and every value fits 64 bits
    without sign, and as Python integers (dtype object) otherwise. *)
Inductive dtype : Type :=
| int64
| uint64
| object.

Definition dtype_of (column : list Z) : dtype :=
  if forallb (fun z => (- 2 ^ 63 <=? z) && (z <? 2 ^ 63))%Z column then int64
  else if forallb (fun z => (0 <=? z) && (z <? 2 ^ 64))%Z column then uint64
  else object.

(** [pd.concat] casts the columns it puts together to a common dtype.
    For int64 with uint64 that is float64 (the promotion of NumPy); in
    the other cases here the values stay as they are. A frame without
    rows has no part in the choice. *)
Definition cast_to_float64 (a b : list Z) : bool :=
  match a, b with
  | [], _ | _, [] => false
  | _ :: _, _ :: _ =>
      match dtype_of a, dtype_of b with
      | int64, uint64 | uint64, int64 => true
      | _, _ => false
      end
  end.

(** The float64 nearest to an integer, as the integer it is: 53 bits
    are kept, and a tie goes to the even neighbour. *)
Definition float64_of_int (z : Z) : Z :=
  let a := Z.abs z in
  if (a <? 2 ^ 53)%Z then z
  else
    let ulp := (2 ^ (Z.log2 a - 52))%Z in
    let q := (a / ulp)%Z in
    let r := (a mod ulp)%Z in
    let q' :=
      match (2 * r ?= ulp)%Z with
      | Lt => q
      | Gt => (q + 1)%Z
      | Eq => if Z.even q then q else (q + 1)%Z
      end in
    (Z.sgn z * (q' * ulp))%Z.

Definition users (df : DataFrame Rating) : list Z := map userId (values df).
Definition items (df : DataFrame Rating) : list Z := map r_movieId (values df).

(** The frame with its identifiers cast where asked. *)
Definition astype_float64 (cast_users cast_items : bool) (df : DataFrame Rating)
  : DataFrame Rating :=
  map (fun r =>
         (r.1, {| userId := if cast_users then float64_of_int (userId r.2)
                            else userId r.2;
                  r_movieId := if cast_items then float64_of_int (r_movieId r.2)
                               else r_movieId r.2;
                  rating := rating r.2 |}))
      df.

(** Add new ratings from user to existing ratings DataFrame. *)
Definition append_user_data (existing_ratings user_ratings : DataFrame Rating)
  : DataFrame Rating :=
  let cast_users := cast_to_float64 (users existing_ratings) (users user_ratings) in
  let cast_items := cast_to_float64 (items existing_ratings) (items user_ratings) in
  concat_ignore_index [astype_float64 cast_users cast_items existing_ratings;
                       astype_float64 cast_users cast_items user_ratings].

(** ** The console *)

Record console : Type := {
  stdin : list string;     (* the lines still to be read *)
  stdout : list string     (* what was written, oldest first *)
}.

Definition io (A : Type) : Type := console -> outcome A * console.

#[global] Instance io_ret : MRet io := fun A a c => (Return a, c).
#[global] Instance io_bind : MBind io := fun A B f m c =>
  match m c with
  | (Return a, c') => f a c'
  | (Raise e, c') => (Raise e, c')
  | (Unsupported, c') => (Unsupported, c')
  end.

Definition lift {A} (o : outcome A) : io A := fun c => (o, c).

Definition write (s : string) : io unit := fun c =>
  (Return tt, {| stdin := stdin c; stdout := stdout c ++ [s] |}).

Definition newline : string := String "010" EmptyString.

Definition print (s : string) : io unit := write (s +:+ newline).

(** [input(prompt)]: writes the prompt, then reads a line; [EOFError]
    when the input is exhausted. *)
Definition input (prompt : string) : io string := fun c =>
  match stdin c with
  | [] => (Raise EOFError, {| stdin := []; stdout := stdout c ++ [prompt] |})
  | line :: rest => (Return line, {| stdin := rest; stdout := stdout c ++ [prompt] |})
  end.

(** [try: body / except ValueError: handler] *)
Definition try_except_ValueError {A} (body handler : io A) : io A := fun c =>
  match body c with
  | (Raise (ValueError _), c') => handler c'
  | r => r
  end.

Section Collector.

(** The built-in [float] on strings: [None] where it raises
    [ValueError]. Its reading of numerals is left open, so that what is
    proved holds of Python's. *)
Variable float_of_string : string -> option pyfloat.

Definition py_float (s : string) : io pyfloat :=
  lift (match float_of_string s with
        | Some x => Return x
        | None => Raise (ValueError "could not convert string to float")
        end).

(** One turn of the loop of [get_user_ratings], on the ratings
    gathered so far. *)
Definition ask (row : Movie) (user_ratings : list Rating) : io (list Rating) :=
  try_except_ValueError
    (line ← input ("Rating for '" +:+ title row +:+ "': ");
     rating ← py_float line;
     if float_ge rating (Finite 0.5) then
       mret (user_ratings ++
               [{| userId := 9999; r_movieId := movieId row; rating := rating |}])
     else mret user_ratings)
    (_ ← print "Invalid input. Skipping."; mret user_ratings).

Fixpoint for_each_row (rows : DataFrame Movie) (user_ratings : list Rating)
  : io (list Rating) :=
  match rows with
  | [] => mret user_ratings
  | (_, row) :: rest =>
      user_ratings' ← ask row user_ratings; for_each_row rest user_ratings'
  end.

(** Ask the user to rate movies and return as a DataFrame. *)
Definition get_user_ratings (movie_sample : DataFrame Movie) : io (DataFrame Rating) :=
  _ ← print (newline +:+ "Please rate at least 5 movies (0.5 to 5). Enter 0 to skip.");
  user_ratings ← for_each_row movie_sample [];
  mret (range_index user_ratings).

End Collector.

(** ** The rating-prediction library *)

(** A raw identifier is whatever value the caller supplies: the library
    compares raw identifiers as Python values, and the integer [1] is
    not the string ["1"]. *)
Inductive raw_id : Type :=
| IntId (z : Z)
| StrId (s : string).

#[global] Instance raw_id_eq_dec : EqDecision raw_id.
Proof. solve_decision. Defined.

Definition trainset : Type := list (raw_id * raw_id * pyfloat).

(** [Dataset.load_from_df(df[['userId', 'movieId', 'rating']], reader)
    .build_full_trainset()]: the raw identifiers are the cells of the
    frame. *)
Definition build_full_trainset (df : DataFrame Rating) : trainset :=
  map (fun r => (IntId (userId r), IntId (r_movieId r), rating r)) (values df).

(** What [predict] returns. *)
Record Prediction : Type := {
  uid : raw_id;
  iid : raw_id;
  est : Q
}.

(** A prediction algorithm: [fit] stands for one run of the training,
    [estimate] for the estimate that [predict] reports, already clipped
    to the rating scale (hence a finite number). *)
Class Algo : Type := {
  model : Type;
  fit : trainset -> model;
  estimate : model -> raw_id -> raw_id -> Q
}.

Definition predict `{Algo} (m : model) (u i : raw_id) : Prediction :=
  {| uid := u; iid := i; est := estimate m u i |}.

(** The prediction rule of [surprise]'s [SVD] (biased), given the
    parameters the training arrived at. Sums are exact here; the
    library rounds them. *)
Module SVD.

Record fitted : Type := {
  raw_users : list raw_id;        (* users of the trainset *)
  raw_items : list raw_id;        (* items of the trainset *)
  global_mean : Q;
  bu : raw_id -> Q;
  bi : raw_id -> Q;
  qi_pu : raw_id -> raw_id -> Q   (* dot product of the factors *)
}.

Definition knows (ids : list raw_id) (x : raw_id) : bool := bool_decide (x ∈ ids).

Definition estimate (m : fitted) (u i : raw_id) : Q :=
  let known_user := knows (raw_users m) u in
  let known_item := knows (raw_items m) i in
  let est := global_mean m in
  let est := if known_user then (est + bu m u)%Q else est in
  let est := if known_item then (est + bi m i)%Q else est in
  if known_user && known_item then (est + qi_pu m u i)%Q else est.

(** [est = min(higher_bound, est); est = max(lower_bound, est)] for the
    scale [(0.5, 5.0)] *)
Definition clip (x : Q) : Q :=
  let x := if Qlt_bool x 5 then x else 5%Q in
  if Qlt_bool 0.5 x then x else 0.5%Q.

Definition predict_est (m : fitted) (u i : raw_id) : Q := clip (estimate m u i).

(** The users and items a training run knows are those of the trainset;
    [learn] supplies everything else. *)
Definition fit (learn : trainset -> fitted) (ts : trainset) : fitted :=
  {| raw_users := map (fun r => r.1.1) ts;
     raw_items := map (fun r => r.1.2) ts;
     global_mean := global_mean (learn ts);
     bu := bu (learn ts);
     bi := bi (learn ts);
     qi_pu := qi_pu (learn ts) |}.

Definition algo (learn : trainset -> fitted) : Algo :=
  Build_Algo fitted (fit learn) predict_est.

End SVD.

(** ** The recommender *)

(** [sorted(l, key=lambda x: x.est, reverse=True)]. Python's sort is
    stable, also with [reverse=True]: elements with equal keys keep
    their order. That fixes the result, which is computed here by
    insertion. *)
Fixpoint insert_desc (x : Prediction) (l : list Prediction) : list Prediction :=
  match l with
  | [] => [x]
  | y :: l' =>
      if Qlt_bool (est x) (est y) then y :: insert_desc x l' else x :: y :: l'
  end.

Definition sorted_desc (l : list Prediction) : list Prediction :=
  foldr insert_desc [] l.

(** [l[:n]]: a negative [n] counts from the end. *)
Definition slice_to {A} (l : list A) (n : Z) : list A :=
  if (0 <=? n)%Z then take (Z.to_nat n) l
  else take (length l - Z.to_nat (- n)) l.

(** [int(x)] for a raw identifier. *)
Definition int_of_raw (x : raw_id) : outcome Z :=
  match x with
  | IntId z => Return z
  | StrId s => py_int s
  end.

(** [movies[movies['movieId'] == id]['title'].values[0]] *)
Definition title_of (movies : DataFrame Movie) (id : Z) : outcome string :=
  match values (select (fun m => (movieId m =? id)%Z) movies) with
  | m :: _ => Return (title m)
  | [] => Raise IndexError
  end.

(** The steps of [train_and_recommend], under the names of its local
    variables. *)

(** [seen = set(all_ratings[all_ratings['userId'] == user_id]['movieId'])] *)
Definition seen_by (all_ratings : DataFrame Rating) (user_id : Z) : gset Z :=
  list_to_set
    (map r_movieId (values (select (fun r => (userId r =? user_id)%Z) all_ratings))).

(** [unseen_movies = movies[~movies['movieId'].isin(seen)]] *)
Definition unseen_movies (movies : DataFrame Movie) (seen : gset Z) : DataFrame Movie :=
  select (fun m => negb (bool_decide (movieId m ∈ seen))) movies.

(** [filtered]: the unseen movies of the genre, after [min_year] *)
Definition filtered (unseen : DataFrame Movie) (re : Re.regex) (min_year : Z)
  : DataFrame Movie :=
  select (fun m => str_contains re false (genres m) && year_gt (year m) min_year)
         unseen.

(** [top_predictions], before and after sorting and cutting *)
Definition above_3 (predictions : list Prediction) : list Prediction :=
  List.filter (fun pred => Qlt_bool 3 (est pred)) predictions.

Definition top (predictions : list Prediction) (top_n : Z) : list Prediction :=
  slice_to (sorted_desc (above_3 predictions)) top_n.

Section Recommender.

Context `{Algo}.

(** [predictions]: one call of [model.predict(str(user_id),
    str(row['movieId']))] per row of [filtered], in the order of the
    frame *)
Definition predictions (m : model) (user_id : Z) (rows : DataFrame Movie)
  : list Prediction :=
  map (fun row => predict m (StrId (py_str user_id)) (StrId (py_str (movieId row))))
      (values rows).

(** [results]: title and score of each prediction kept *)
Definition results (movies : DataFrame Movie) (preds : list Prediction)
  : outcome (list (string * Q)) :=
  traverse (fun pred =>
              id ← int_of_raw (iid pred);
              t ← title_of movies id;
              Return (t, est pred))
           preds.

(** Train a recommender using SVD and recommend top N unseen movies. *)
Definition train_and_recommend (movies : DataFrame Movie)
    (all_ratings : DataFrame Rating) (genre_filter : string)
    (min_year : Z) (user_id : Z) (top_n : Z) : io (list (string * Q)) :=
  let model := fit (build_full_trainset all_ratings) in
  let seen := seen_by all_ratings user_id in
  let unseen := unseen_movies movies seen in
  _ ← lift (str_accessor (map genres (values movies)));
  re ← lift (compile_pattern genre_filter);
  let filtered := filtered unseen re min_year in
  if empty filtered then
    _ ← print "❌ No unseen movies found for that genre/year.";
    mret []
  else
    lift (results movies (top (predictions model user_id filtered) top_n)).

End Recommender.

(** * Vocabulary of the specification *)

(** ** Decimal numerals *)

(** [w] writes one decimal digit, of value [v]. *)
Definition digit (w : string) (v : Z) : Prop :=
  decimal_digit w = Some (v, w, EmptyString).

(** The numerals that [str] and the format [.2f] write have the digits
    0 to 9 of ASCII. *)
Definition is_ascii_digit (c : ascii) : bool :=
  let n := N_of_ascii c in ((48 <=? n) && (n <=? 57))%N.

Definition digit_value (c : ascii) : Z := Z.of_N (N_of_ascii c) - 48.

(** The number a string of such digits denotes, read from the left. *)
Definition digits_value (s : string) : Z :=
  fold_left (fun acc c => 10 * acc + digit_value c)%Z (list_ascii_of_string s) 0%Z.

Definition all_digits (s : string) : Prop :=
  Forall (fun c => is_ascii_digit c = true) (list_ascii_of_string s).

(** The value of a [Decimal.uint] that follows the digits [acc]. *)
Fixpoint uint_value (u : Decimal.uint) (acc : Z) : Z :=
  match u with
  | Decimal.Nil => acc
  | Decimal.D0 u => uint_value u (10 * acc)
  | Decimal.D1 u => uint_value u (10 * acc + 1)
  | Decimal.D2 u => uint_value u (10 * acc + 2)
  | Decimal.D3 u => uint_value u (10 * acc + 3)
  | Decimal.D4 u => uint_value u (10 * acc + 4)
  | Decimal.D5 u => uint_value u (10 * acc + 5)
  | Decimal.D6 u => uint_value u (10 * acc + 6)
  | Decimal.D7 u => uint_value u (10 * acc + 7)
  | Decimal.D8 u => uint_value u (10 * acc + 8)
  | Decimal.D9 u => uint_value u (10 * acc + 9)
  end%Z.

(** ** Regular expressions *)

(** What a pattern means: an atom matches the texts of one character
    that it accepts; a word is matched by a sequence of atoms when it
    is made of texts that they match one by one, by a pattern when one
    of its alternatives matches it; a pattern occurs in a subject at
    offset [i] when it matches a word that starts there. *)
Definition atom_denotes (icase : bool) (a : Re.atom) (w : string) : Prop :=
  Re.step icase a w = Some (w, EmptyString).

Inductive seq_denotes (icase : bool) : list Re.atom -> string -> Prop :=
| denotes_nil : seq_denotes icase [] EmptyString
| denotes_cons (a : Re.atom) (r : list Re.atom) (w ws : string) :
    atom_denotes icase a w -> seq_denotes icase r ws ->
    seq_denotes icase (a :: r) (w +:+ ws).

Definition denotes (icase : bool) (re : Re.regex) (w : string) : Prop :=
  exists r, In r re /\ seq_denotes icase r w.

Definition occurs_at (icase : bool) (re : Re.regex) (s : string) (i : nat) : Prop :=
  exists pre w post,
    s = pre +:+ w +:+ post /\ String.length pre = i /\ denotes icase re w.

Definition occurs (icase : bool) (re : Re.regex) (s : string) : Prop :=
  exists i, occurs_at icase re s i.

(** The characters with a meaning in patterns; a [plain] pattern has
    none, and compiles to the [literal] sequence of its characters. *)
Definition metachar (c : ascii) : bool :=
  Re.uninterpreted c || Ascii.eqb c "." || Ascii.eqb c "|".

Definition plain (pat : string) : Prop :=
  Forall (fun c => metachar c = false) (list_ascii_of_string pat).

Definition literal (pat : string) : Re.regex :=
  [map Re.Lit (list_ascii_of_string pat)].

(** [needle] is in [hay], letter case apart. *)
Definition isubstring (needle hay : string) : Prop :=
  exists pre post, casefold hay = pre +:+ casefold needle +:+ post.

(** ** Movies *)

(** [title] has, at offset [i], four decimal digits in parentheses,
    and they write the number [y]. *)
Definition year_at (title : string) (i : nat) (y : Z) : Prop :=
  exists pre post d1 d2 d3 d4 v1 v2 v3 v4,
    title = pre +:+ "(" +:+ d1 +:+ d2 +:+ d3 +:+ d4 +:+ ")" +:+ post /\
    String.length pre = i /\
    digit d1 v1 /\ digit d2 v2 /\ digit d3 v3 /\ digit d4 v4 /\
    y = (1000 * v1 + 100 * v2 + 10 * v3 + v4)%Z.

(** The column [genres] of the catalog is one of text: the catalog has
    no row, or some row has a string there. *)
Definition genres_are_text (movies : DataFrame Movie) : Prop :=
  movies = [] \/ exists row g, In row movies /\ genres row.2 = Some g.

(** [row] is the first row of the catalog with the identifier [id]. *)
Definition first_with_id (movies : DataFrame Movie) (id : Z) (row : nat * Movie)
  : Prop :=
  exists pre post,
    movies = pre ++ row :: post /\ movieId row.2 = id /\
    Forall (fun r => movieId r.2 <> id) pre.

(** What [load_movies] guarantees of the frame [movies]: the default
    index, and a column [year] that holds the year of each title. *)
Record loaded (movies : DataFrame Movie) : Prop := {
  loaded_index : index movies = seq 0 (length movies);
  loaded_year : forall row, In row movies ->
                  extract_year (title row.2) = Return (year row.2)
}.

(** The genre cell matches [genre] read as a regular expression,
    letter case apart; this is what [str.contains] computes. *)
Definition genre_matches (genre : string) (m : Movie) : Prop :=
  exists re g, Re.compile genre = Some re /\ genres m = Some g /\ occurs true re g.

(** The genre cell contains [genre] as a substring, letter case apart. *)
Definition genre_substring (genre : string) (m : Movie) : Prop :=
  exists g, genres m = Some g /\ isubstring genre g.

(** The year parsed from the title is defined, and [min_year] or later;
    and later than [min_year]. *)
Definition year_from (min_year : Z) (m : Movie) : Prop :=
  exists y, extract_year (title m) = Return (Some y) /\ (min_year <= y)%Z.

Definition year_after (min_year : Z) (m : Movie) : Prop :=
  exists y, extract_year (title m) = Return (Some y) /\ (min_year < y)%Z.

(** The rows of [movies] that the sampler draws from. *)
Definition pool_of (movies : DataFrame Movie) (re : Re.regex) (min_year : Z)
  : DataFrame Movie :=
  select (fun m => str_contains re false (genres m) && year_ge (year m) min_year)
         movies.

(** [userId] has a rating of the movie [id] in the table. *)
Definition rated (all_ratings : DataFrame Rating) (user_id id : Z) : Prop :=
  exists r, In r (values all_ratings) /\ userId r = user_id /\ r_movieId r = id.

(** Two columns of integers that [pd.concat] puts together as they
    are: they have the same dtype. *)
Definition same_dtype (a b : list Z) : Prop := dtype_of a = dtype_of b.

(** A row with its identifiers cast to float64 where asked. *)
Definition cast_row (cast_users cast_items : bool) (r : Rating) : Rating :=
  {| userId := if cast_users then float64_of_int (userId r) else userId r;
     r_movieId := if cast_items then float64_of_int (r_movieId r) else r_movieId r;
     rating := rating r |}.

(** ** Replies to the collector *)

Section Replies.

Variable float_of_string : string -> option pyfloat.

Definition prompt_for (row : Movie) : string :=
  "Rating for '" +:+ title row +:+ "': ".

(** What a reply adds to the ratings: a numeral from 0.5 on is
    recorded; a smaller one, or a reply that is no numeral, is not. *)
Definition recorded (row : Movie) (line : string) : list Rating :=
  match float_of_string line with
  | Some x =>
      if float_ge x (Finite 0.5)
      then [{| userId := 9999; r_movieId := movieId row; rating := x |}]
      else []
  | None => []
  end.

(** What a turn writes: the prompt, and a warning when the reply is no
    numeral. *)
Definition written (row : Movie) (line : string) : list string :=
  prompt_for row ::
  match float_of_string line with
  | Some _ => []
  | None => ["Invalid input. Skipping." +:+ newline]
  end.

End Replies.

Definition banner : string :=
  (newline +:+ "Please rate at least 5 movies (0.5 to 5). Enter 0 to skip.")
  +:+ newline.

(** ** Recommendations *)

(** Elements that stand for predictions, tagged with positions: their
    scores, and the predictions they stand for. *)
Definition score_of {A} (g : A -> Prediction) (a : A) : Q := est (g a).

Definition untag {A} (g : A -> Prediction) (t : list (nat * A)) : list Prediction :=
  map (fun y => g y.2) t.

(** The order of the recommendations on candidates tagged with their
    position: a higher score comes first, and of two equal scores the
    earlier position. *)
Definition before {A} (score : A -> Q) (a b : nat * A) : Prop :=
  (score b.2 < score a.2)%Q \/ ((score b.2 == score a.2)%Q /\ a.1 < b.1).

Definition ascending {A} (a b : nat * A) : Prop := a.1 < b.1.

Section Candidates.

Context `{Algo}.

(** The candidates, in the order in which they are scored. *)
Definition candidates (movies : DataFrame Movie) (all_ratings : DataFrame Rating)
    (re : Re.regex) (min_year : Z) (user_id : Z) : list Movie :=
  values (filtered (unseen_movies movies (seen_by all_ratings user_id)) re min_year).

(** The prediction asked of the model for a candidate, and its score. *)
Definition prediction_for (all_ratings : DataFrame Rating) (user_id : Z) (m : Movie)
  : Prediction :=
  predict (fit (build_full_trainset all_ratings))
          (StrId (py_str user_id)) (StrId (py_str (movieId m))).

Definition score (all_ratings : DataFrame Rating) (user_id : Z) (m : Movie) : Q :=
  est (prediction_for all_ratings user_id m).

End Candidates.

(** * Inputs of the examples *)

(** A reader of plain decimal numerals ([7], [4.5], [-0.25]), each read
    as the number it writes. It stands for [float] in the examples,
    whose numerals are all floats exactly; [float] itself reads more
    spellings and rounds. *)
Fixpoint split_point (s : string) : string * option string :=
  match s with
  | EmptyString => (EmptyString, None)
  | String c s' =>
      if Ascii.eqb c "." then (EmptyString, Some s')
      else let (a, b) := split_point s' in (String c a, b)
  end.

Definition read_decimal (s : string) : option pyfloat :=
  let (neg, body) :=
    match s with
    | String c s' => if Ascii.eqb c "-" then (true, s') else (false, s)
    | EmptyString => (false, s)
    end in
  let (whole, frac) := split_point body in
  let frac := default EmptyString frac in
  match whole +:+ frac with
  | EmptyString => None
  | digits =>
      match NilEmpty.uint_of_string digits with
      | Some u =>
          let n := Z.of_uint u in
          Some (Finite ((if neg : bool then - n else n)
                        # Z.to_pos (10 ^ Z.of_nat (String.length frac))))
      | None => None
      end
  end.

Definition demo_csv : list MovieRow :=
  [ {| csv_movieId := 1; csv_title := Some "Toy Story (1995)";
       csv_genres := Some "Adventure|Animation|Children|Comedy|Fantasy" |};
    {| csv_movieId := 2; csv_title := Some "Heat (1995)";
       csv_genres := Some "Action|Crime|Thriller" |};
    {| csv_movieId := 3; csv_title := Some "Bad Boys (1995)";
       csv_genres := Some "Action|Comedy|Crime|Drama|Thriller" |};
    {| csv_movieId := 4; csv_title := Some "Up (2009)";
       csv_genres := Some "Adventure|Animation|Children|Drama" |};
    {| csv_movieId := 5; csv_title := Some "Untitled";
       csv_genres := Some "Comedy" |} ].

Definition toy_story : Movie :=
  {| movieId := 1; title := "Toy Story (1995)";
     genres := Some "Adventure|Animation|Children|Comedy|Fantasy";
     year := Some 1995%Z |}.

Definition heat : Movie :=
  {| movieId := 2; title := "Heat (1995)";
     genres := Some "Action|Crime|Thriller"; year := Some 1995%Z |}.

Definition bad_boys : Movie :=
  {| movieId := 3; title := "Bad Boys (1995)";
     genres := Some "Action|Comedy|Crime|Drama|Thriller"; year := Some 1995%Z |}.

Definition up : Movie :=
  {| movieId := 4; title := "Up (2009)";
     genres := Some "Adventure|Animation|Children|Drama"; year := Some 2009%Z |}.

Definition untitled : Movie :=
  {| movieId := 5; title := "Untitled"; genres := Some "Comedy"; year := None |}.

(** The frame that [load_movies] makes of [demo_csv]. *)
Definition demo_movies : DataFrame Movie :=
  [(0, toy_story); (1, heat); (2, bad_boys); (3, up); (4, untitled)].

(** Ratings of two earlier users, and one of the session's user 9999,
    who has rated Toy Story. *)
Definition demo_ratings : DataFrame Rating :=
  range_index
    [ {| userId := 1; r_movieId := 2; rating := Finite 5 |};
      {| userId := 1; r_movieId := 3; rating := Finite 1 |};
      {| userId := 2; r_movieId := 4; rating := Finite 4 |};
      {| userId := 9999; r_movieId := 1; rating := Finite 4 |} ].

(** The outcome of a training on [demo_ratings]: the mean of the
    ratings, a bias for user 9999 and for the movies 2 and 3. *)
Definition demo_learn (ts : trainset) : SVD.fitted :=
  {| SVD.raw_users := []; SVD.raw_items := [];
     SVD.global_mean := 3.5;
     SVD.bu := fun u => if decide (u = IntId 9999) then 0.25%Q else 0%Q;
     SVD.bi := fun i => if decide (i = IntId 2) then 1%Q
                        else if decide (i = IntId 3) then (-1.5)%Q else 0%Q;
     SVD.qi_pu := fun _ _ => 0%Q |}.

Definition demo_model : SVD.fitted :=
  SVD.fit demo_learn (build_full_trainset demo_ratings).

Definition quiet : console := {| stdin := []; stdout := [] |}.

(** A catalog without a genre: [read_csv] reads a column of missing
    cells as float64. *)
Definition no_genres : DataFrame Movie :=
  [(0, {| movieId := 1; title := "Toy Story (1995)"; genres := None;
          year := Some 1995%Z |})].

(** A catalog in which two rows have the identifier 2. *)
Definition twice_2 : DataFrame Movie :=
  [(0, {| movieId := 2; title := "Sabrina (1954)"; genres := Some "Comedy";
          year := Some 1954%Z |});
   (1, heat)].

(** A table with a user identifier that needs uint64, and a rating of
    the session, whose identifiers are int64. *)
Definition uint64_base : DataFrame Rating :=
  range_index [ {| userId := 2 ^ 63 + 1; r_movieId := 1; rating := Finite 4 |} ].

Definition int64_addition : DataFrame Rating :=
  range_index [ {| userId := 9999; r_movieId := 2; rating := Finite 5 |} ].

(** * 3. Main program *)

(** [f"{score:.2f}"]: the decimal numeral with two fraction digits
    nearest to the value, a tie going to the even last digit; the sign
    is that of the value. *)
Definition round_half_even (q : Q) : Z :=
  let n := Qnum q in
  let d := Z.pos (Qden q) in
  match (2 * (n mod d) ?= d)%Z with
  | Lt => (n / d)%Z
  | Gt => (n / d + 1)%Z
  | Eq => if Z.even (n / d) then (n / d)%Z else (n / d + 1)%Z
  end.

Definition two_digits (n : Z) : string :=
  if (n <? 10)%Z then "0" +:+ py_str n else py_str n.

Definition format_2f (q : Q) : string :=
  let c := round_half_even ((Z.abs (Qnum q) # Qden q) * 100) in
  (if Qlt_bool q 0 then "-" else EmptyString)
  +:+ py_str (c / 100) +:+ "." +:+ two_digits (c mod 100).

(** How a run of the program ends when no exception escapes: at the end
    of the script, or by [raise SystemExit]. *)
Inductive ending : Type :=
| Finished
| SystemExit.

Definition rec_line (r : string * Q) : string :=
  "  • " +:+ r.1 +:+ "  —  predicted rating: " +:+ format_2f r.2.

(** [for title, score in recs: print(...)] *)
Fixpoint print_recs (recs : list (string * Q)) : io unit :=
  match recs with
  | [] => mret tt
  | r :: rest => _ ← print (rec_line r); print_recs rest
  end.

Section Main.

Variable float_of_string : string -> option pyfloat.
Context `{Algo}.

(** The globals [movies] and [ratings], and the random generator. *)
Variable movies : DataFrame Movie.
Variable ratings : DataFrame Rating.
Variable rng : list nat.

(** What follows the sampling: rate, merge, recommend, print. *)
Definition rate_and_recommend (genre : string) (min_year : Z)
    (sample : DataFrame Movie) : io ending :=
  user_df ← get_user_ratings float_of_string sample;
  if empty user_df then
    _ ← print (newline +:+ "No ratings given — exiting.");
    mret SystemExit
  else
    let all_ratings := append_user_data ratings user_df in
    recs ← train_and_recommend movies all_ratings genre min_year 9999 5;
    _ ← print (newline +:+ "🎬  Top recommendations just for you:");
    _ ← print_recs recs;
    mret Finished.

Definition main : io ending :=
  genre ← input "Enter a genre (e.g., Comedy): ";
  line ← input "Enter a minimum year (e.g., 2010): ";
  min_year ← lift (py_int line);
  match get_movies_by_genre_and_year movies rng genre min_year 15 with
  | Raise (ValueError err) => _ ← print (newline +:+ err); mret SystemExit
  | Raise e => lift (Raise e)
  | Unsupported => lift Unsupported
  | Return sample => rate_and_recommend genre min_year sample
  end.

End Main.

(** What is written by the two questions of the program. *)
Definition asked (c : console) : list string :=
  stdout c ++ ["Enter a genre (e.g., Comedy): "; "Enter a minimum year (e.g., 2010): "].

(** An atom with its letter in lower case. *)
Definition fold_atom (a : Re.atom) : Re.atom :=
  match a with
  | Re.Lit c => Re.Lit (lower c)
  | a => a
  end.

(** A session on the demo catalog: the genre Action from 1990 on, Heat
    rated 4.5 and Bad Boys skipped. *)
Definition demo_session : console :=
  {| stdin := ["Action"; "1990"; "4.5"; "0"]; stdout := [] |}.

Definition demo_sample : DataFrame Movie := [(1, heat); (2, bad_boys)].

Definition demo_user_df : DataFrame Rating :=
  [(0, {| userId := 9999; r_movieId := 2; rating := Finite 4.5 |})].

Definition demo_end : console :=
  (main read_decimal (H := SVD.algo demo_learn) demo_movies demo_ratings [2; 0]
        demo_session).2.

(** * Properties *)

(** ** Strings *)

Lemma append_empty (s : string) : EmptyString +:+ s = s.
Proof. reflexivity. Qed.

Lemma append_cons (c : ascii) (a b : string) :
  String c a +:+ b = String c (a +:+ b).
Proof. reflexivity. Qed.

(** [simpl] leaves [+:+] alone; [sapp] pushes it under the constructors. *)
Ltac sapp := simpl; rewrite ?append_empty, ?append_cons; simpl.

Lemma append_nil_r (s : string) : s +:+ EmptyString = s.
Proof. induction s; sapp; congruence. Qed.

Lemma append_assoc (a b c : string) : (a +:+ b) +:+ c = a +:+ (b +:+ c).
Proof. induction a; sapp; congruence. Qed.

Lemma length_append (a b : string) :
  String.length (a +:+ b) = String.length a + String.length b.
Proof. induction a; sapp; congruence. Qed.

Lemma casefold_append (a b : string) :
  casefold (a +:+ b) = casefold a +:+ casefold b.
Proof. induction a; sapp; congruence. Qed.

Lemma length_casefold (s : string) : String.length (casefold s) = String.length s.
Proof. induction s; simpl; congruence. Qed.

(** A string splits wherever its case-folded form does. *)
Lemma casefold_split (s x y : string) :
  casefold s = x +:+ y ->
  exists a b, s = a +:+ b /\ casefold a = x /\ casefold b = y.
Proof.
  revert s. induction x as [|c x IH]; intros s Hs.
  - exists EmptyString, s. auto.
  - destruct s as [|d s]; [discriminate|]. simpl in Hs.
    injection Hs as Hc Hs. destruct (IH _ Hs) as (a & b & -> & Ha & Hb).
    exists (String d a), b. sapp. rewrite Ha, Hc. auto.
Qed.

Lemma substring_skip (pre s : string) (i n : nat) :
  substring (String.length pre + i) n (pre +:+ s) = substring i n s.
Proof. induction pre; sapp; auto. Qed.

Lemma substring_prefix (d s : string) :
  substring 0 (String.length d) (d +:+ s) = d.
Proof.
  induction d; sapp.
  - destruct s; reflexivity.
  - congruence.
Qed.

(** ** Code points and decimal digits *)

(** A code point is read off the front of a text, whatever follows. *)
Lemma code_point_spec (s : string) (cp : N) (w rest : string) :
  code_point s = Some (cp, w, rest) ->
  s = w +:+ rest /\ w <> EmptyString /\
  forall post, code_point (w +:+ post) = Some (cp, w, post).
Proof.
  unfold code_point. destruct s as [|b0 s1]; [discriminate|].
  set (n0 := N_of_ascii b0). cbv zeta.
  destruct (n0 <? 128)%N eqn:E1.
  { intros [= <- <- <-]. repeat split; [discriminate|]. intros post.
    rewrite append_cons, append_empty. fold n0. rewrite E1. reflexivity. }
  destruct (n0 <? 194)%N eqn:E2; [discriminate|].
  destruct (n0 <? 224)%N eqn:E3.
  { destruct s1 as [|b1 s2]; [discriminate|].
    destruct (continuation b1) as [x1|] eqn:C1; [|discriminate].
    cbn [mbind option_bind]. intros [= <- <- <-].
    repeat split; [discriminate|]. intros post.
    rewrite !append_cons, append_empty. fold n0. rewrite E1, E2, E3, C1.
    reflexivity. }
  destruct (n0 <? 240)%N eqn:E4.
  { destruct s1 as [|b1 [|b2 s3]]; try discriminate.
    destruct (continuation b1) as [x1|] eqn:C1; [|discriminate].
    destruct (continuation b2) as [x2|] eqn:C2; [|discriminate].
    cbn [mbind option_bind].
    destruct (_ && _) eqn:E; [|discriminate]. intros [= <- <- <-].
    repeat split; [discriminate|]. intros post.
    rewrite !append_cons, append_empty. fold n0. rewrite E1, E2, E3, E4, C1, C2.
    cbn [mbind option_bind]. rewrite E. reflexivity. }
  destruct (n0 <? 245)%N eqn:E5; [|discriminate].
  destruct s1 as [|b1 [|b2 [|b3 s4]]]; try discriminate.
  destruct (continuation b1) as [x1|] eqn:C1; [|discriminate].
  destruct (continuation b2) as [x2|] eqn:C2; [|discriminate].
  destruct (continuation b3) as [x3|] eqn:C3; [|discriminate].
  cbn [mbind option_bind].
  destruct (_ && _) eqn:E; [|discriminate]. intros [= <- <- <-].
  repeat split; [discriminate|]. intros post.
  rewrite !append_cons, append_empty. fold n0.
  rewrite E1, E2, E3, E4, E5, C1, C2, C3.
  cbn [mbind option_bind]. rewrite E. reflexivity.
Qed.

Lemma decimal_range (cp : N) (v : Z) : decimal cp = Some v -> (0 <= v <= 9)%Z.
Proof.
  unfold decimal. destruct (List.find _ _) as [zero|] eqn:Hf; [|discriminate].
  apply find_some in Hf as [_ Hz]. apply andb_true_iff in Hz as [H1 H2].
  apply N.leb_le in H1. apply N.ltb_lt in H2. intros [= <-]. lia.
Qed.

Lemma decimal_digit_spec (s : string) (v : Z) (w rest : string) :
  decimal_digit s = Some (v, w, rest) ->
  s = w +:+ rest /\ w <> EmptyString /\ (0 <= v <= 9)%Z /\
  forall post, decimal_digit (w +:+ post) = Some (v, w, post).
Proof.
  unfold decimal_digit.
  destruct (code_point s) as [[[cp w'] rest']|] eqn:Hs; [|discriminate].
  destruct (decimal cp) as [v'|] eqn:Hv; [|discriminate]. intros [= <- <- <-].
  destruct (code_point_spec _ _ _ _ Hs) as (H1 & H2 & H3).
  repeat split; try assumption; try (apply (decimal_range cp v' Hv)).
  intros post. rewrite H3, Hv. reflexivity.
Qed.

Lemma decimal_digit_digit (s : string) (v : Z) (w rest : string) :
  decimal_digit s = Some (v, w, rest) -> digit w v.
Proof.
  intros H. apply decimal_digit_spec in H as (_ & _ & _ & H).
  unfold digit. rewrite <- (append_nil_r w) at 1. apply H.
Qed.

Lemma digit_spec (w : string) (v : Z) :
  digit w v ->
  w <> EmptyString /\ (0 <= v <= 9)%Z /\
  forall post, decimal_digit (w +:+ post) = Some (v, w, post).
Proof. intros H. apply decimal_digit_spec in H as (_ & H). exact H. Qed.

(** ** Decimal numerals *)

Lemma is_ascii_digit_cases (c : ascii) :
  is_ascii_digit c = true ->
  In c ["0"; "1"; "2"; "3"; "4"; "5"; "6"; "7"; "8"; "9"]%char.
Proof.
  destruct c as [[] [] [] [] [] [] [] []]; vm_compute; intros Hd;
    try discriminate Hd; tauto.
Qed.

(** The digits of ASCII are decimal digits, of one byte. *)
Lemma decimal_digit_ascii (c : ascii) (s : string) :
  is_ascii_digit c = true ->
  decimal_digit (String c s) = Some (digit_value c, String c EmptyString, s).
Proof.
  intros Hc. apply is_ascii_digit_cases in Hc. simpl in Hc.
  repeat (destruct Hc as [<- | Hc]; [reflexivity|]). destruct Hc.
Qed.

Lemma decimal_digit_not_minus (s : string) :
  decimal_digit (String "-" s) = None.
Proof. reflexivity. Qed.

Lemma digit_first (w : string) (v : Z) :
  digit w v -> exists c w', w = String c w' /\ Ascii.eqb c "-" = false.
Proof.
  unfold digit. destruct w as [|c w']; [discriminate|]. intros H.
  exists c, w'. split; [reflexivity|]. apply Ascii.eqb_neq. intros ->.
  rewrite decimal_digit_not_minus in H. discriminate H.
Qed.

Lemma of_uint_acc_value (u : Decimal.uint) (acc : positive) :
  Z.pos (Pos.of_uint_acc u acc) = uint_value u (Z.pos acc).
Proof.
  revert acc. induction u; intros acc; simpl; try reflexivity;
    rewrite IHu; f_equal; lia.
Qed.

Lemma of_uint_value (u : Decimal.uint) : Z.of_uint u = uint_value u 0.
Proof.
  unfold Z.of_uint. induction u; simpl; try reflexivity;
    try (rewrite of_uint_acc_value; reflexivity).
  exact IHu.
Qed.

Lemma uint_of_digits (s : string) :
  all_digits s ->
  exists u, NilEmpty.uint_of_string s = Some u /\
            forall acc, uint_value u acc =
              fold_left (fun acc c => 10 * acc + digit_value c)%Z
                        (list_ascii_of_string s) acc.
Proof.
  unfold all_digits. induction s as [|c s IH]; simpl; intros Hs.
  - exists Decimal.Nil. auto.
  - inversion Hs as [|? ? Hc Hs']; subst.
    destruct (IH Hs') as (u & -> & Hu).
    apply is_ascii_digit_cases in Hc. simpl in Hc.
    repeat (destruct Hc as [<- | Hc];
            [eexists; split; [reflexivity|]; intros acc; simpl;
             rewrite Hu; f_equal; unfold digit_value; simpl; lia |]).
    destruct Hc.
Qed.

Lemma read_digits_cons (fuel : nat) (s : string) (v : Z) (w rest : string) (acc : Z) :
  decimal_digit s = Some (v, w, rest) ->
  read_digits (S fuel) s acc = read_digits fuel rest (10 * acc + v).
Proof.
  intros H. destruct s as [|c s]; [discriminate H|].
  cbn [read_digits]. rewrite H. reflexivity.
Qed.

Lemma read_digits_digit (fuel : nat) (w : string) (v : Z) (rest : string) (acc : Z) :
  digit w v ->
  read_digits (S fuel) (w +:+ rest) acc = read_digits fuel rest (10 * acc + v).
Proof.
  intros H. apply (read_digits_cons _ _ _ w). apply (digit_spec _ _ H).
Qed.

Lemma read_digits_ascii (s : string) (fuel : nat) (acc : Z) :
  all_digits s -> String.length s <= fuel ->
  read_digits fuel s acc
  = Some (fold_left (fun acc c => 10 * acc + digit_value c)%Z
                    (list_ascii_of_string s) acc).
Proof.
  unfold all_digits. revert fuel acc.
  induction s as [|c s IH]; intros fuel acc Hs Hlen.
  - destruct fuel; reflexivity.
  - inversion Hs as [|? ? Hc Hs']; subst.
    destruct fuel as [|fuel]; [simpl in Hlen; lia|].
    rewrite (read_digits_cons _ _ _ _ _ _ (decimal_digit_ascii c s Hc)).
    cbn [list_ascii_of_string fold_left]. apply IH; [assumption|].
    simpl in Hlen. lia.
Qed.

(** [int] reads a non-empty string of ASCII digits as its decimal value. *)
Lemma py_int_digits (s : string) :
  all_digits s -> s <> EmptyString -> py_int s = Return (digits_value s).
Proof.
  intros Hs Hne. unfold py_int. destruct s as [|c s]; [congruence|].
  assert (Hc : Ascii.eqb c "-" = false).
  { inversion Hs as [|? ? Hc _]; subst. apply is_ascii_digit_cases in Hc.
    simpl in Hc. intuition (subst; reflexivity). }
  rewrite Hc. rewrite (read_digits_ascii _ _ _ Hs (le_n _)). reflexivity.
Qed.

Lemma string_of_uint_digits (d : Decimal.uint) :
  all_digits (NilEmpty.string_of_uint d).
Proof.
  unfold all_digits. induction d; simpl; constructor; auto.
Qed.

Lemma digits_value_string_of_uint (d : Decimal.uint) :
  digits_value (NilEmpty.string_of_uint d) = Z.of_uint d.
Proof.
  destruct (uint_of_digits _ (string_of_uint_digits d)) as (u & Hu & Hv).
  rewrite NilEmpty.usu in Hu. injection Hu as <-.
  unfold digits_value. rewrite <- Hv. symmetry. apply of_uint_value.
Qed.

Lemma py_str_pos (p : positive) :
  NilZero.string_of_uint (Pos.to_uint p) = NilEmpty.string_of_uint (Pos.to_uint p) /\
  NilEmpty.string_of_uint (Pos.to_uint p) <> EmptyString /\
  digits_value (NilEmpty.string_of_uint (Pos.to_uint p)) = Z.pos p.
Proof.
  pose proof (DecimalPos.Unsigned.to_uint_nonnil p) as Hnil.
  split; [|split].
  - destruct (Pos.to_uint p); [congruence | reflexivity..].
  - destruct (Pos.to_uint p); [congruence | discriminate..].
  - rewrite digits_value_string_of_uint. unfold Z.of_uint.
    rewrite DecimalPos.Unsigned.of_to. reflexivity.
Qed.

Lemma py_str_digits (a : Z) :
  (0 <= a)%Z -> all_digits (py_str a) /\ py_str a <> EmptyString.
Proof.
  intros Ha. unfold py_str. destruct a as [|p|p]; [| |lia].
  - split; [repeat constructor | discriminate].
  - cbn [Z.to_int NilZero.string_of_int].
    destruct (py_str_pos p) as (-> & Hne & _).
    split; [apply string_of_uint_digits | exact Hne].
Qed.

Lemma digits_value_py_str (a : Z) : (0 <= a)%Z -> digits_value (py_str a) = a.
Proof.
  intros Ha. unfold py_str. destruct a as [|p|p]; [reflexivity| |lia].
  cbn [Z.to_int NilZero.string_of_int].
  destruct (py_str_pos p) as (-> & _ & Hv). exact Hv.
Qed.

(** [int(str(z)) = z] *)
Lemma py_int_str (z : Z) : py_int (py_str z) = Return z.
Proof.
  destruct (Z_lt_le_dec z 0) as [Hneg | Hpos].
  - destruct z as [|p|p]; try lia. unfold py_str.
    cbn [Z.to_int NilZero.string_of_int].
    destruct (py_str_pos p) as (-> & Hne & Hv).
    unfold py_int. change (Ascii.eqb "-" "-") with true. cbv beta iota.
    pose proof (read_digits_ascii _ _ 0%Z (string_of_uint_digits (Pos.to_uint p))
                  (le_n _)) as Hr.
    fold (digits_value (NilEmpty.string_of_uint (Pos.to_uint p))) in Hr.
    rewrite Hv in Hr.
    destruct (NilEmpty.string_of_uint (Pos.to_uint p)) as [|c s];
      [congruence|].
    rewrite Hr. reflexivity.
  - destruct (py_str_digits z Hpos) as [Hd Hne].
    rewrite (py_int_digits _ Hd Hne), (digits_value_py_str z Hpos). reflexivity.
Qed.

(** ** Regular expressions *)

(** An atom reads its text off the front of the subject, whatever
    follows. *)
Lemma step_spec icase a s w rest :
  Re.step icase a s = Some (w, rest) ->
  s = w +:+ rest /\ w <> EmptyString /\
  forall post, Re.step icase a (w +:+ post) = Some (w, post).
Proof.
  destruct a as [x| |]; cbn [Re.step].
  - destruct s as [|c s']; [discriminate|].
    destruct (if icase then _ else _) eqn:Hc; [|discriminate].
    intros [= <- <-]. repeat split; [discriminate|]. intros post.
    rewrite append_cons, append_empty, Hc. reflexivity.
  - destruct (code_point s) as [[[cp w'] rest']|] eqn:Hs; [|discriminate].
    destruct (cp =? 10)%N eqn:Hn; [discriminate|]. intros [= <- <-].
    destruct (code_point_spec _ _ _ _ Hs) as (H1 & H2 & H3).
    repeat split; try assumption. intros post. rewrite H3, Hn. reflexivity.
  - destruct (decimal_digit s) as [[[v w'] rest']|] eqn:Hs; [|discriminate].
    intros [= <- <-].
    destruct (decimal_digit_spec _ _ _ _ Hs) as (H1 & H2 & _ & H3).
    repeat split; try assumption. intros post. rewrite H3. reflexivity.
Qed.

Lemma step_denotes icase a s w rest :
  Re.step icase a s = Some (w, rest) -> atom_denotes icase a w.
Proof.
  intros H. apply step_spec in H as (_ & _ & H). unfold atom_denotes.
  rewrite <- (append_nil_r w) at 1. apply H.
Qed.

Lemma atom_denotes_step icase a w post :
  atom_denotes icase a w -> Re.step icase a (w +:+ post) = Some (w, post).
Proof. intros H. apply step_spec in H as (_ & _ & H). apply H. Qed.

Lemma atom_denotes_Lit (x : ascii) (w : string) :
  atom_denotes false (Re.Lit x) w <-> w = String x EmptyString.
Proof.
  unfold atom_denotes. cbn [Re.step]. split.
  - destruct w as [|c w']; [discriminate|].
    destruct (Ascii.eqb_spec x c) as [->|]; [|discriminate].
    intros [= H]. rewrite H. reflexivity.
  - intros ->. rewrite Ascii.eqb_refl. reflexivity.
Qed.

Lemma atom_denotes_Digit icase (w : string) :
  atom_denotes icase Re.Digit w <-> exists v, digit w v.
Proof.
  unfold atom_denotes, digit. cbn [Re.step]. split.
  - destruct (decimal_digit w) as [[[v w'] rest']|]; [|discriminate].
    intros [= -> ->]. eauto.
  - intros [v ->]. reflexivity.
Qed.

Lemma match_here_Some icase r s w :
  Re.match_here icase r s = Some w ->
  seq_denotes icase r w /\ exists post, s = w +:+ post.
Proof.
  revert s w. induction r as [|a r IH]; intros s w; cbn [Re.match_here].
  - intros [= <-]. split; [constructor|]. exists s. reflexivity.
  - destruct (Re.step icase a s) as [[w1 s']|] eqn:Hs; [|discriminate].
    destruct (Re.match_here icase r s') as [ws|] eqn:Hm; [|discriminate].
    intros [= <-]. apply IH in Hm as [Hws [post ->]].
    pose proof (step_denotes _ _ _ _ _ Hs) as Ha.
    apply step_spec in Hs as (-> & _).
    split; [constructor; assumption|]. exists post. apply eq_sym, append_assoc.
Qed.

Lemma match_here_denotes icase r w post :
  seq_denotes icase r w -> Re.match_here icase r (w +:+ post) = Some w.
Proof.
  induction 1 as [|a r w ws Ha _ IH]; cbn [Re.match_here]; [reflexivity|].
  rewrite append_assoc, (atom_denotes_step _ _ _ _ Ha), IH. reflexivity.
Qed.

Lemma match_at_Some icase re s w :
  Re.match_at icase re s = Some w ->
  denotes icase re w /\ exists post, s = w +:+ post.
Proof.
  unfold denotes. induction re as [|r re IH]; cbn [Re.match_at]; [discriminate|].
  destruct (Re.match_here icase r s) as [w'|] eqn:Hm.
  - intros [= <-]. apply match_here_Some in Hm as [Hw Hpost].
    split; [|assumption]. exists r. split; [left; reflexivity | assumption].
  - intros H. apply IH in H as [(r' & Hr' & Hw) Hpost].
    split; [|assumption]. exists r'. split; [right|]; assumption.
Qed.

Lemma match_at_spec icase re s :
  is_Some (Re.match_at icase re s) <->
  exists w post, s = w +:+ post /\ denotes icase re w.
Proof.
  split.
  - intros [w Hw]. apply match_at_Some in Hw as [Hw [post ->]]. eauto.
  - intros (w & post & -> & r & Hr & Hw).
    induction re as [|r' re IH]; [destruct Hr|]. cbn [Re.match_at].
    destruct (Re.match_here icase r' (w +:+ post)) as [w'|] eqn:Hm; [eauto|].
    destruct Hr as [-> | Hr]; [|auto].
    rewrite (match_here_denotes _ _ _ _ Hw) in Hm. discriminate Hm.
Qed.

Lemma occurs_at_suffix icase re s i :
  occurs_at icase re s i <->
  exists pre suf, s = pre +:+ suf /\ String.length pre = i /\
                  is_Some (Re.match_at icase re suf).
Proof.
  unfold occurs_at. split.
  - intros (pre & w & post & -> & Hi & Hw). exists pre, (w +:+ post).
    repeat split; [assumption|]. apply match_at_spec. eauto.
  - intros (pre & suf & -> & Hi & Hm).
    apply match_at_spec in Hm as (w & post & -> & Hw). eauto 6.
Qed.

Lemma occurs_at_0 icase re s :
  occurs_at icase re s 0 <-> is_Some (Re.match_at icase re s).
Proof.
  rewrite occurs_at_suffix. split.
  - intros (pre & suf & -> & Hi & Hm). destruct pre; [assumption | discriminate].
  - intros Hm. exists EmptyString, s. auto.
Qed.

Lemma occurs_at_S icase re c s i :
  occurs_at icase re (String c s) (S i) <-> occurs_at icase re s i.
Proof.
  rewrite !occurs_at_suffix. split.
  - intros (pre & suf & Hs & Hi & Hm). destruct pre as [|c' pre]; [discriminate|].
    rewrite append_cons in Hs. injection Hs as <- ->. injection Hi as Hi. eauto.
  - intros (pre & suf & -> & Hi & Hm). exists (String c pre), suf.
    simpl. rewrite Hi. auto.
Qed.

Lemma occurs_at_empty icase re i :
  occurs_at icase re EmptyString i -> i = 0.
Proof.
  rewrite occurs_at_suffix. intros (pre & suf & Hs & Hi & _).
  destruct pre; [auto | discriminate].
Qed.

(** [search] returns the least offset at which the pattern occurs, and
    what the pattern matches there. *)
Lemma search_from_Some icase re s i j m :
  Re.search_from icase re s i = Some (j, m) ->
  exists k pre suf,
    j = i + k /\ s = pre +:+ suf /\ String.length pre = k /\
    Re.match_at icase re suf = Some m /\
    forall k', occurs_at icase re s k' -> k <= k'.
Proof.
  revert i. induction s as [|c s IH]; intros i; cbn [Re.search_from];
    destruct (Re.match_at icase re _) as [w|] eqn:Hm.
  - intros [= <- <-]. exists 0, EmptyString, EmptyString.
    repeat split; [lia | assumption | lia].
  - discriminate.
  - intros [= <- <-]. exists 0, EmptyString, (String c s).
    repeat split; [lia | assumption | lia].
  - intros Hs. apply IH in Hs as (k & pre & suf & -> & -> & Hk & Hsuf & Hmin).
    exists (S k), (String c pre), suf.
    repeat split; [lia | simpl; congruence | assumption |].
    intros [|k'] Hk'.
    + apply occurs_at_0 in Hk' as [w Hw]. congruence.
    + apply occurs_at_S in Hk'. apply Hmin in Hk'. lia.
Qed.

Lemma search_from_None icase re s i :
  Re.search_from icase re s i = None -> forall k, ~ occurs_at icase re s k.
Proof.
  revert i. induction s as [|c s IH]; intros i; cbn [Re.search_from];
    destruct (Re.match_at icase re _) as [w|] eqn:Hm; try discriminate.
  - intros _ k Hk. pose proof (occurs_at_empty _ _ _ Hk) as ->.
    apply occurs_at_0 in Hk as [w Hw]. congruence.
  - intros Hs [|k] Hk.
    + apply occurs_at_0 in Hk as [w Hw]. congruence.
    + apply occurs_at_S in Hk. exact (IH _ Hs _ Hk).
Qed.

Lemma search_Some icase re s j m :
  Re.search icase re s = Some (j, m) ->
  occurs_at icase re s j /\
  (forall k, occurs_at icase re s k -> j <= k) /\
  exists pre suf, s = pre +:+ suf /\ String.length pre = j /\
                  Re.match_at icase re suf = Some m.
Proof.
  intros Hs. apply search_from_Some in Hs
    as (k & pre & suf & -> & -> & Hk & Hsuf & Hmin).
  split; [|split; [exact Hmin | eauto]].
  apply occurs_at_suffix. exists pre, suf. repeat split; eauto.
Qed.

Lemma search_occurs icase re s :
  is_Some (Re.search icase re s) <-> occurs icase re s.
Proof.
  split.
  - intros [[j m] Hj]. exists j. apply (search_Some _ _ _ _ _ Hj).
  - intros [k Hk]. destruct (Re.search icase re s) eqn:Hs; [eauto|].
    exfalso. exact (search_from_None _ _ _ _ Hs _ Hk).
Qed.

(** *** Patterns without metacharacters *)

Lemma compile_plain pat : plain pat -> Re.compile pat = Some (literal pat).
Proof.
  unfold plain, literal. induction pat as [|c pat IH]; simpl; intros Hp.
  - reflexivity.
  - inversion Hp as [|? ? Hc Hp']; subst. rewrite (IH Hp').
    unfold metachar in Hc. apply orb_false_iff in Hc as [Hc Hbar].
    apply orb_false_iff in Hc as [Hun Hdot].
    rewrite Hbar, Hdot, Hun. reflexivity.
Qed.

Lemma match_here_literal pat s :
  is_Some (Re.match_here true (map Re.Lit (list_ascii_of_string pat)) s) <->
  exists post, casefold s = casefold pat +:+ post.
Proof.
  revert s. induction pat as [|c pat IH]; intros s;
    cbn [list_ascii_of_string map Re.match_here casefold].
  - split; eauto.
  - cbn [Re.step]. destruct s as [|d s]; cbn [casefold].
    + split; [intros [? [=]] | intros [post Hp]; discriminate Hp].
    + specialize (IH s). destruct (Ascii.eqb_spec (lower c) (lower d)) as [Hc|Hc].
      * destruct (Re.match_here true _ s) as [ws|].
        -- split; [intros _ | eauto].
           destruct (proj1 IH) as [post Hp]; [eauto|]. exists post.
           rewrite append_cons, Hc, Hp. reflexivity.
        -- split; [intros [? [=]]|]. intros [post Hp].
           rewrite append_cons in Hp. injection Hp as _ Hp.
           destruct (proj2 IH) as [? [=]]. eauto.
      * split; [intros [? [=]]|]. intros [post Hp].
        rewrite append_cons in Hp. injection Hp as Hd _. congruence.
Qed.

Lemma match_at_single icase r s :
  is_Some (Re.match_at icase [r] s) <-> is_Some (Re.match_here icase r s).
Proof.
  cbn [Re.match_at]. destruct (Re.match_here icase r s); split; auto;
    intros [? [=]].
Qed.

Lemma occurs_literal pat s : occurs true (literal pat) s <-> isubstring pat s.
Proof.
  unfold occurs, isubstring. split.
  - intros (i & Hi). apply occurs_at_suffix in Hi as (pre & suf & -> & _ & Hm).
    unfold literal in Hm. apply match_at_single, match_here_literal in Hm
      as (post & Hp).
    exists (casefold pre), post. rewrite casefold_append, Hp. reflexivity.
  - intros (pre & post & Hs). apply casefold_split in Hs as (a & b & -> & _ & Hb).
    exists (String.length a). apply occurs_at_suffix. exists a, b.
    repeat split. unfold literal. apply match_at_single, match_here_literal. eauto.
Qed.

(** For a pattern without metacharacters, searching is looking for a
    substring. *)
Lemma search_plain pat s :
  plain pat ->
  exists re, Re.compile pat = Some re /\
             (is_Some (Re.search true re s) <-> isubstring pat s).
Proof.
  intros Hp. exists (literal pat). split; [apply compile_plain; assumption|].
  rewrite search_occurs. apply occurs_literal.
Qed.

(** ** The year of a title *)

(** What the pattern of the year matches at the front of a text. *)
Lemma match_year suf m :
  Re.match_at false year_re suf = Some m <->
  exists d1 d2 d3 d4 v1 v2 v3 v4 post,
    suf = "(" +:+ d1 +:+ d2 +:+ d3 +:+ d4 +:+ ")" +:+ post /\
    m = "(" +:+ d1 +:+ d2 +:+ d3 +:+ d4 +:+ ")" /\
    digit d1 v1 /\ digit d2 v2 /\ digit d3 v3 /\ digit d4 v4.
Proof.
  unfold year_re. cbn [Re.match_at]. split.
  - destruct (Re.match_here false _ suf) as [w|] eqn:Hm; [|discriminate].
    intros [= <-]. apply match_here_Some in Hm as [Hw [post ->]].
    inversion Hw as [|a0 r0 w0 ws0 H0 Hw0]; subst.
    inversion Hw0 as [|a1 r1 w1 ws1 H1 Hw1]; subst.
    inversion Hw1 as [|a2 r2 w2 ws2 H2 Hw2]; subst.
    inversion Hw2 as [|a3 r3 w3 ws3 H3 Hw3]; subst.
    inversion Hw3 as [|a4 r4 w4 ws4 H4 Hw4]; subst.
    inversion Hw4 as [|a5 r5 w5 ws5 H5 Hw5]; subst.
    inversion Hw5; subst.
    apply atom_denotes_Lit in H0, H5. subst.
    apply atom_denotes_Digit in H1 as [v1 H1], H2 as [v2 H2],
                                H3 as [v3 H3], H4 as [v4 H4].
    exists w1, w2, w3, w4, v1, v2, v3, v4, post.
    rewrite append_nil_r, !append_assoc. auto 10.
  - intros (d1 & d2 & d3 & d4 & v1 & v2 & v3 & v4 & post & -> & -> & H1 & H2 & H3 & H4).
    assert (Hw : seq_denotes false
                   [Re.Lit "("; Re.Digit; Re.Digit; Re.Digit; Re.Digit; Re.Lit ")"]%char
                   ("(" +:+ d1 +:+ d2 +:+ d3 +:+ d4 +:+ ")" +:+ EmptyString)).
    { repeat constructor;
        first [apply atom_denotes_Lit; reflexivity
              | apply atom_denotes_Digit; eauto]. }
    rewrite append_nil_r in Hw.
    replace ("(" +:+ d1 +:+ d2 +:+ d3 +:+ d4 +:+ ")" +:+ post)
      with (("(" +:+ d1 +:+ d2 +:+ d3 +:+ d4 +:+ ")") +:+ post)
      by (rewrite !append_assoc; reflexivity).
    rewrite (match_here_denotes _ _ _ _ Hw). reflexivity.
Qed.

Lemma year_at_occurs title i :
  (exists y, year_at title i y) <-> occurs_at false year_re title i.
Proof.
  rewrite occurs_at_suffix. unfold year_at. split.
  - intros (y & pre & post & d1 & d2 & d3 & d4 & v1 & v2 & v3 & v4 &
            -> & Hi & H1 & H2 & H3 & H4 & _).
    exists pre. eexists. split; [reflexivity|]. split; [assumption|].
    eexists. apply match_year. eauto 15.
  - intros (pre & suf & -> & Hi & [m Hm]).
    apply match_year in Hm
      as (d1 & d2 & d3 & d4 & v1 & v2 & v3 & v4 & post & -> & _ & H1 & H2 & H3 & H4).
    eexists. exists pre, post, d1, d2, d3, d4, v1, v2, v3, v4. eauto 10.
Qed.

(** Group 1 of a match is what is between its parentheses. *)
Lemma group_1_spec (d : string) : group_1 ("(" +:+ d +:+ ")") = d.
Proof.
  unfold group_1. rewrite append_cons, append_empty.
  cbn [String.length substring]. rewrite length_append. cbn [String.length].
  replace (S (String.length d + 1) - 2) with (String.length d) by lia.
  apply substring_prefix.
Qed.

Lemma digit_length (w : string) (v : Z) : digit w v -> 1 <= String.length w.
Proof.
  intros H. apply digit_spec in H as [Hne _]. destruct w; [congruence|].
  simpl. lia.
Qed.

(** [int] reads four decimal digits as the number they write. *)
Lemma py_int_year d1 d2 d3 d4 v1 v2 v3 v4 :
  digit d1 v1 -> digit d2 v2 -> digit d3 v3 -> digit d4 v4 ->
  py_int (d1 +:+ d2 +:+ d3 +:+ d4)
  = Return (1000 * v1 + 100 * v2 + 10 * v3 + v4)%Z.
Proof.
  intros H1 H2 H3 H4. unfold py_int.
  destruct (digit_first _ _ H1) as (c & w' & Hw & Hc).
  assert (Hlen : 4 <= String.length (d1 +:+ d2 +:+ d3 +:+ d4)).
  { rewrite !length_append.
    pose proof (digit_length _ _ H1). pose proof (digit_length _ _ H2).
    pose proof (digit_length _ _ H3). pose proof (digit_length _ _ H4). lia. }
  assert (Hr : forall fuel, 4 <= fuel ->
             read_digits fuel (d1 +:+ d2 +:+ d3 +:+ d4) 0
             = Some (1000 * v1 + 100 * v2 + 10 * v3 + v4)%Z).
  { intros [|[|[|[|fuel]]]] Hf; try lia.
    rewrite (read_digits_digit _ _ _ _ _ H1), (read_digits_digit _ _ _ _ _ H2),
      (read_digits_digit _ _ _ _ _ H3).
    rewrite <- (append_nil_r d4), (read_digits_digit _ _ _ _ _ H4).
    destruct fuel; cbn [read_digits]; f_equal; lia. }
  specialize (Hr _ Hlen).
  destruct (d1 +:+ d2 +:+ d3 +:+ d4) as [|c' s'] eqn:Hd.
  { simpl in Hlen. lia. }
  assert (Hc' : Ascii.eqb c' "-" = false).
  { rewrite Hw, append_cons in Hd. injection Hd as <- _. exact Hc. }
  rewrite Hc', Hr. reflexivity.
Qed.

Lemma extract_year_core (title : string) :
  exists y, extract_year title = Return y /\
    match y with
    | Some v =>
        exists i, year_at title i v /\ forall j v', year_at title j v' -> i <= j
    | None => forall j v', ~ year_at title j v'
    end.
Proof.
  unfold extract_year.
  destruct (Re.search false year_re title) as [[i m]|] eqn:Hs.
  - apply search_Some in Hs as (_ & Hmin & pre & suf & -> & Hi & Hm).
    apply match_year in Hm
      as (d1 & d2 & d3 & d4 & v1 & v2 & v3 & v4 & post & -> & -> & H1 & H2 & H3 & H4).
    replace ("(" +:+ d1 +:+ d2 +:+ d3 +:+ d4 +:+ ")")
      with ("(" +:+ (d1 +:+ d2 +:+ d3 +:+ d4) +:+ ")")
      by (rewrite !append_assoc; reflexivity).
    rewrite group_1_spec, (py_int_year _ _ _ _ _ _ _ _ H1 H2 H3 H4).
    eexists. split; [reflexivity|]. exists i. split.
    + exists pre, post, d1, d2, d3, d4, v1, v2, v3, v4. auto 10.
    + intros j v' Hj. apply Hmin, year_at_occurs. eauto.
  - exists None. split; [reflexivity|]. intros j v' Hj.
    apply (search_from_None _ _ _ _ Hs j), year_at_occurs. eauto.
Qed.

(** C10. [extract_year] always returns. When the title contains four
    decimal digits in parentheses, anywhere, it returns the number that
    the leftmost such digits write; when it contains none, it returns
    [None]. A decimal digit is any digit of Unicode, among them 0 to 9:
    these are what [\d] matches and [int] reads. *)
Theorem extract_year_spec (title : string) :
  (exists i y,
      year_at title i y /\
      (forall j y', year_at title j y' -> i <= j) /\
      extract_year title = Return (Some y))
  \/ ((forall j y', ~ year_at title j y') /\ extract_year title = Return None).
Proof.
  destruct (extract_year_core title) as ([v|] & Hy & Hspec).
  - left. destruct Hspec as (i & Hd & Hmin). eauto.
  - right. auto.
Qed.

(** [extract_year] never raises on a string. *)
Lemma extract_year_total (title : string) :
  exists y, extract_year title = Return y.
Proof.
  destruct (extract_year_core title) as (y & Hy & _). exists y. exact Hy.
Qed.

(** A year read from a title has four digits. *)
Lemma extract_year_bounds (title : string) (y : Z) :
  extract_year title = Return (Some y) -> (0 <= y <= 9999)%Z.
Proof.
  intros Hy. destruct (extract_year_core title) as (v & Hv & Hspec).
  rewrite Hy in Hv. injection Hv as <-.
  destruct Hspec as (i & (pre & post & d1 & d2 & d3 & d4 & v1 & v2 & v3 & v4 &
                          _ & _ & H1 & H2 & H3 & H4 & ->) & _).
  apply digit_spec in H1 as (_ & H1 & _), H2 as (_ & H2 & _),
                      H3 as (_ & H3 & _), H4 as (_ & H4 & _).
  lia.
Qed.

(** ** Outcomes and frames *)

Lemma traverse_Return {A B} (f : A -> outcome B) (l : list A) (l' : list B) :
  traverse f l = Return l' -> Forall2 (fun a b => f a = Return b) l l'.
Proof.
  revert l'. induction l as [|a l IH]; intros l'; simpl.
  - intros [= <-]. constructor.
  - destruct (f a) as [b| |] eqn:Hb; try discriminate. simpl.
    destruct (traverse f l) as [bs| |]; try discriminate. simpl.
    intros [= <-]. constructor; auto.
Qed.

Lemma traverse_total {A B} (f : A -> outcome B) (l : list A) :
  (forall a, In a l -> exists b, f a = Return b) ->
  exists l', traverse f l = Return l'.
Proof.
  induction l as [|a l IH]; intros Hf; simpl.
  - eauto.
  - destruct (Hf a) as [b ->]; [left; reflexivity|].
    destruct IH as [bs ->]; [intros; apply Hf; right; assumption|].
    simpl. eauto.
Qed.

Lemma index_range_index {A} (rows : list A) :
  index (range_index rows) = seq 0 (length rows).
Proof.
  unfold index, range_index. generalize 0.
  induction rows as [|r rows IH]; intros n; simpl; [reflexivity|].
  f_equal. apply IH.
Qed.

Lemma values_range_index {A} (rows : list A) : values (range_index rows) = rows.
Proof.
  unfold values, range_index. generalize 0.
  induction rows as [|r rows IH]; intros n; simpl; [reflexivity|].
  f_equal. apply IH.
Qed.

Lemma length_range_index {A} (rows : list A) :
  length (range_index rows) = length rows.
Proof. rewrite <- (length_map snd). fold (values (range_index rows)). now rewrite values_range_index. Qed.

(** A frame with the default index is determined by its rows. *)
Lemma range_index_values {A} (df : DataFrame A) :
  index df = seq 0 (length df) -> range_index (values df) = df.
Proof.
  unfold index, values, range_index. rewrite length_map. generalize 0.
  induction df as [|[i r] df IH]; intros n; simpl; [reflexivity|].
  intros [= -> Hdf]. f_equal. apply IH. assumption.
Qed.

Lemma In_select {A} (p : A -> bool) (df : DataFrame A) (row : nat * A) :
  In row (select p df) <-> In row df /\ p row.2 = true.
Proof. unfold select. apply filter_In. Qed.

Lemma NoDup_index_select {A} (p : A -> bool) (df : DataFrame A) :
  NoDup (index df) -> NoDup (index (select p df)).
Proof.
  unfold index, select. induction df as [|r df IH]; simpl; intros Hd.
  - constructor.
  - apply NoDup_cons in Hd as [Hr Hd]. destruct (p r.2); simpl; auto.
    apply NoDup_cons. split; auto.
    rewrite list_elem_of_In in *. rewrite in_map_iff in *.
    intros (r' & Hr' & Hin). apply filter_In in Hin as [Hin _]. eauto.
Qed.

Lemma NoDup_index {A} (df : DataFrame A) : NoDup (index df) -> NoDup df.
Proof. unfold index. apply NoDup_fmap_1. Qed.

Lemma empty_nil {A} (df : DataFrame A) : empty df = true <-> df = [].
Proof. destruct df; simpl; split; congruence. Qed.

(** *** Drawing without replacement *)

Lemma length_draw {A} (rng : list nat) (k : nat) (pool : list A) :
  length (draw rng k pool) = Nat.min k (length pool).
Proof.
  revert rng pool. induction k as [|k IH]; intros rng pool; simpl; [reflexivity|].
  destruct pool as [|x pool]; [reflexivity|].
  set (i := hd 0 rng mod length (x :: pool)).
  assert (Hi : i < length (x :: pool)) by (apply Nat.mod_upper_bound; discriminate).
  destruct (lookup_lt_is_Some_2 _ _ Hi) as [y Hy]. rewrite Hy. simpl.
  rewrite IH, length_delete by eauto. simpl. lia.
Qed.

(** The rows drawn are rows of the pool, each taken once. *)
Lemma draw_Permutation {A} (rng : list nat) (k : nat) (pool : list A) :
  exists rest, Permutation pool (draw rng k pool ++ rest).
Proof.
  revert rng pool. induction k as [|k IH]; intros rng pool; simpl.
  - exists pool. reflexivity.
  - destruct (pool !! _) as [x|] eqn:Hx.
    + destruct (IH (tl rng) (delete (hd 0 rng mod length pool) pool)) as [rest Hrest].
      exists rest. simpl. rewrite <- Hrest. apply delete_Permutation. assumption.
    + exists pool. reflexivity.
Qed.

Lemma In_draw {A} (rng : list nat) (k : nat) (pool : list A) (x : A) :
  In x (draw rng k pool) -> In x pool.
Proof.
  destruct (draw_Permutation rng k pool) as [rest Hp]. intros Hx.
  apply (Permutation_in _ (Permutation_sym Hp)), in_or_app. left. assumption.
Qed.

Lemma NoDup_index_draw {A} (rng : list nat) (k : nat) (pool : DataFrame A) :
  NoDup (index pool) -> NoDup (index (draw rng k pool)).
Proof.
  destruct (draw_Permutation rng k pool) as [rest Hp]. unfold index.
  intros Hd. rewrite Hp, map_app in Hd. apply NoDup_app in Hd as [Hd _].
  assumption.
Qed.

(** ** The catalog *)

Lemma add_year_Return (r : nat * MovieRow) (row : nat * Movie) :
  add_year r = Return row ->
  r.1 = row.1 /\ csv_title r.2 = Some (title row.2) /\
  extract_year (title row.2) = Return (year row.2).
Proof.
  unfold add_year. destruct (csv_title r.2) as [t|]; [|discriminate].
  destruct (extract_year t) as [y| |] eqn:Hy; try discriminate.
  simpl. intros [= <-]. simpl. auto.
Qed.

(** A row loads when its title is a string, and raises [TypeError]
    when it is not. *)
Lemma add_year_cases (r : nat * MovieRow) :
  (is_Some (csv_title r.2) /\ exists row, add_year r = Return row) \/
  (csv_title r.2 = None /\ add_year r = Raise TypeError).
Proof.
  unfold add_year. destruct (csv_title r.2) as [t|]; [left | right; auto].
  split; [eauto|]. destruct (extract_year_total t) as [y ->]. simpl. eauto.
Qed.

Lemma load_movies_loaded (csv : list MovieRow) (movies : DataFrame Movie) :
  load_movies csv = Return movies -> loaded movies.
Proof.
  unfold load_movies, read_csv. intros Hl. apply traverse_Return in Hl.
  assert (Hrel : Forall2 (fun r row => r.1 = row.1 /\
                   extract_year (title row.2) = Return (year row.2))
                   (range_index csv) movies).
  { eapply Forall2_impl; [exact Hl|]. intros r row Hr.
    apply add_year_Return in Hr as (H1 & _ & H2). auto. }
  split.
  - rewrite <- (Forall2_length _ _ _ Hrel), length_range_index.
    rewrite <- index_range_index. unfold index.
    clear Hl. induction Hrel as [|r row l l' [Hi _] _ IH]; simpl; [reflexivity|].
    rewrite Hi, IH. reflexivity.
  - intros row Hrow. clear Hl.
    induction Hrel as [|r row' l l' [_ Hy] _ IH]; [destruct Hrow|].
    destruct Hrow as [<- | Hrow]; auto.
Qed.

Lemma loaded_NoDup (movies : DataFrame Movie) : loaded movies -> NoDup (index movies).
Proof. intros [Hi _]. rewrite Hi. apply NoDup_seq. Qed.

(** ** Genre and year of a movie *)

Lemma genre_matches_plain genre m :
  plain genre -> (genre_matches genre m <-> genre_substring genre m).
Proof.
  intros Hp. unfold genre_matches, genre_substring.
  rewrite (compile_plain _ Hp). split.
  - intros (re & g & [= <-] & Hg & Ho). exists g. split; [assumption|].
    apply occurs_literal. assumption.
  - intros (g & Hg & Hs). exists (literal genre), g.
    repeat split; [assumption|]. apply occurs_literal. assumption.
Qed.

Lemma str_contains_spec genre re m :
  Re.compile genre = Some re ->
  str_contains re false (genres m) = true <-> genre_matches genre m.
Proof.
  intros Hre. unfold str_contains, genre_matches. split.
  - destruct (genres m) as [g|]; [|discriminate].
    destruct (Re.search true re g) eqn:Hs; [|discriminate]. intros _.
    exists re, g. repeat split; [assumption|]. apply search_occurs. eauto.
  - intros (re' & g & Hre' & -> & Ho). rewrite Hre in Hre'. injection Hre' as <-.
    apply search_occurs in Ho as [j ->]. reflexivity.
Qed.

Lemma year_ge_spec movies row min_year :
  loaded movies -> In row movies ->
  year_ge (year row.2) min_year = true <-> year_from min_year row.2.
Proof.
  intros [_ Hy] Hrow. unfold year_ge, year_from. rewrite (Hy _ Hrow). split.
  - destruct (year row.2) as [y|]; [|discriminate]. intros Hle.
    exists y. split; [reflexivity | lia].
  - intros (y & [= ->] & Hle). apply Z.leb_le. assumption.
Qed.

Lemma year_gt_spec movies row min_year :
  loaded movies -> In row movies ->
  year_gt (year row.2) min_year = true <-> year_after min_year row.2.
Proof.
  intros [_ Hy] Hrow. unfold year_gt, year_after. rewrite (Hy _ Hrow). split.
  - destruct (year row.2) as [y|]; [|discriminate]. intros Hlt.
    exists y. split; [reflexivity | lia].
  - intros (y & [= ->] & Hlt). apply Z.ltb_lt. assumption.
Qed.

(** ** The accessor [.str] *)

Lemma str_accessor_cases (movies : DataFrame Movie) :
  (genres_are_text movies /\
   str_accessor (map genres (values movies)) = Return tt) \/
  (~ genres_are_text movies /\
   str_accessor (map genres (values movies)) = Raise AttributeError).
Proof.
  unfold genres_are_text, str_accessor.
  destruct movies as [|r0 movies]; [left; auto|].
  set (l := r0 :: movies). change (map genres (values l))
    with (genres r0.2 :: map genres (values movies)).
  change (genres r0.2 :: map genres (values movies)) with (map genres (values l)).
  destruct (existsb _ (map genres (values l))) eqn:He.
  - left. split; [|reflexivity]. right.
    apply existsb_exists in He as (cell & Hin & Hc).
    destruct cell as [g|]; [|discriminate].
    unfold values in Hin. rewrite map_map in Hin.
    apply in_map_iff in Hin as (row & Hg & Hrow). eauto.
  - right. split; [|reflexivity]. intros [Hnil | (row & g & Hrow & Hg)];
      [discriminate Hnil|].
    assert (Ht : existsb (fun cell : option string =>
                            match cell with Some _ => true | None => false end)
                         (map genres (values l)) = true).
    { apply existsb_exists. exists (Some g). split; [|reflexivity].
      unfold values. rewrite map_map. apply in_map_iff. exists row. auto. }
    congruence.
Qed.

Lemma str_accessor_text (movies : DataFrame Movie) :
  genres_are_text movies -> str_accessor (map genres (values movies)) = Return tt.
Proof.
  intros Ht. destruct (str_accessor_cases movies) as [[_ H] | [Hn _]]; [exact H|].
  destruct (Hn Ht).
Qed.

Lemma str_accessor_no_text (movies : DataFrame Movie) :
  ~ genres_are_text movies ->
  str_accessor (map genres (values movies)) = Raise AttributeError.
Proof.
  intros Hn. destruct (str_accessor_cases movies) as [[Ht _] | [_ H]]; [|exact H].
  destruct (Hn Ht).
Qed.

Lemma genre_matches_text movies row genre :
  In row movies -> genre_matches genre row.2 -> genres_are_text movies.
Proof. intros Hrow (re & g & _ & Hg & _). right. eauto. Qed.

Lemma str_contains_text movies row re :
  In row movies -> str_contains re false (genres row.2) = true ->
  genres_are_text movies.
Proof.
  intros Hrow Hc. right. unfold str_contains in Hc.
  destruct (genres row.2) as [g|] eqn:Hg; [eauto | discriminate].
Qed.

(** ** The candidate sampler *)

Lemma In_pool_of movies genre re min_year row :
  loaded movies -> Re.compile genre = Some re ->
  In row (pool_of movies re min_year) <->
  In row movies /\ genre_matches genre row.2 /\ year_from min_year row.2.
Proof.
  intros Hl Hre. unfold pool_of. rewrite In_select, andb_true_iff.
  rewrite (str_contains_spec _ _ _ Hre). split.
  - intros (Hrow & Hg & Hy). rewrite (year_ge_spec _ _ _ Hl Hrow) in Hy. auto.
  - intros (Hrow & Hg & Hy). rewrite (year_ge_spec _ _ _ Hl Hrow). auto.
Qed.

Lemma sampler_unfold movies rng genre re min_year n :
  Re.compile genre = Some re ->
  genres_are_text movies ->
  get_movies_by_genre_and_year movies rng genre min_year n =
  if empty (pool_of movies re min_year) then
    Raise (ValueError "No movies match that genre/year combination.")
  else sample rng (pool_of movies re min_year)
              (Z.min n (Z.of_nat (length (pool_of movies re min_year)))).
Proof.
  intros Hre Ht. unfold get_movies_by_genre_and_year, compile_pattern.
  rewrite (str_accessor_text _ Ht), Hre. reflexivity.
Qed.

(** On a column [genres] without a string the accessor raises, whatever
    the genre asked for. *)
Lemma sampler_no_text movies rng genre min_year n :
  ~ genres_are_text movies ->
  get_movies_by_genre_and_year movies rng genre min_year n = Raise AttributeError.
Proof.
  intros Hn. unfold get_movies_by_genre_and_year.
  rewrite (str_accessor_no_text _ Hn). reflexivity.
Qed.

Lemma pool_of_text movies re min_year :
  pool_of movies re min_year <> [] -> genres_are_text movies.
Proof.
  destruct (pool_of movies re min_year) as [|row pool] eqn:Hp; [congruence|].
  intros _. assert (Hrow : In row (pool_of movies re min_year))
    by (rewrite Hp; left; reflexivity).
  unfold pool_of in Hrow. apply In_select in Hrow as [Hrow Hc].
  apply andb_true_iff in Hc as [Hc _]. exact (str_contains_text _ _ _ Hrow Hc).
Qed.


Lemma sampler_empty_pool movies rng genre re min_year n :
  loaded movies -> Re.compile genre = Some re ->
  genres_are_text movies ->
  (forall row, In row movies ->
     ~ (genre_matches genre row.2 /\ year_from min_year row.2)) ->
  get_movies_by_genre_and_year movies rng genre min_year n =
  Raise (ValueError "No movies match that genre/year combination.").
Proof.
  intros Hl Hre Ht Hnone. rewrite (sampler_unfold _ _ _ _ _ _ Hre Ht).
  destruct (pool_of movies re min_year) as [|row pool] eqn:Hp; [reflexivity|].
  exfalso. assert (Hrow : In row (pool_of movies re min_year))
    by (rewrite Hp; left; reflexivity).
  apply (In_pool_of _ _ _ _ _ Hl Hre) in Hrow as (Hrow & Hg & Hy).
  exact (Hnone row Hrow (conj Hg Hy)).
Qed.


(** ** The dataset merger *)

(** A number below 2^53 is a float64. *)
Lemma float64_of_int_small (z : Z) :
  (Z.abs z < 2 ^ 53)%Z -> float64_of_int z = z.
Proof.
  intros Hz. unfold float64_of_int.
  destruct (Z.ltb_spec (Z.abs z) (2 ^ 53)); [reflexivity | lia].
Qed.

Lemma same_dtype_no_cast (a b : list Z) :
  same_dtype a b -> cast_to_float64 a b = false.
Proof.
  unfold same_dtype, cast_to_float64. intros ->.
  destruct a, b; try reflexivity. destruct (dtype_of _); reflexivity.
Qed.

Lemma cast_to_float64_nil_r (a : list Z) : cast_to_float64 a [] = false.
Proof. destruct a; reflexivity. Qed.

Lemma cast_row_none (r : Rating) : cast_row false false r = r.
Proof. destruct r. reflexivity. Qed.

Lemma values_astype_float64 cu cm (df : DataFrame Rating) :
  values (astype_float64 cu cm df) = map (cast_row cu cm) (values df).
Proof. unfold values, astype_float64. rewrite !map_map. reflexivity. Qed.

(** The merged table: the rows of the two tables, with the identifiers
    that [pd.concat] casts. *)
Lemma values_append_user_data (existing user : DataFrame Rating) :
  values (append_user_data existing user)
  = map (cast_row (cast_to_float64 (users existing) (users user))
                  (cast_to_float64 (items existing) (items user)))
        (values existing ++ values user).
Proof.
  unfold append_user_data, concat_ignore_index. rewrite values_range_index.
  cbn [flat_map]. rewrite app_nil_r, !values_astype_float64, map_app.
  reflexivity.
Qed.

Lemma values_append_same_dtype (existing user : DataFrame Rating) :
  same_dtype (users existing) (users user) ->
  same_dtype (items existing) (items user) ->
  values (append_user_data existing user) = values existing ++ values user.
Proof.
  intros Hu Hm. rewrite values_append_user_data.
  rewrite (same_dtype_no_cast _ _ Hu), (same_dtype_no_cast _ _ Hm).
  rewrite (map_ext _ id cast_row_none). apply map_id.
Qed.

Lemma values_append_nil (existing : DataFrame Rating) :
  values (append_user_data existing []) = values existing.
Proof.
  rewrite values_append_user_data. unfold users, items. cbn [values map].
  rewrite !cast_to_float64_nil_r, app_nil_r.
  rewrite (map_ext _ id cast_row_none). apply map_id.
Qed.

Lemma length_append_user_data (existing user : DataFrame Rating) :
  length (append_user_data existing user) = length existing + length user.
Proof.
  rewrite <- (length_map snd). fold (values (append_user_data existing user)).
  rewrite values_append_user_data, length_map, length_app.
  unfold values. rewrite !length_map. reflexivity.
Qed.

Lemma append_user_data_range_index (existing user : DataFrame Rating) :
  append_user_data existing user
  = range_index (values (append_user_data existing user)).
Proof.
  unfold append_user_data, concat_ignore_index. rewrite values_range_index.
  reflexivity.
Qed.

(** C7, as amended. The merged table has as many rows as the two
    tables together. When each column of identifiers has the same
    dtype in the two tables, its rows are the rows of the base table in
    their order, then the additions in theirs. Merging no addition
    leaves the rows as they are, and the whole frame when it has the
    default index, as every frame read by [read_csv] has. *)
Theorem append_user_data_spec (base additions : DataFrame Rating) :
  length (append_user_data base additions) = length base + length additions /\
  (same_dtype (users base) (users additions) ->
   same_dtype (items base) (items additions) ->
   values (append_user_data base additions) = values base ++ values additions) /\
  values (append_user_data base []) = values base /\
  (index base = seq 0 (length base) -> append_user_data base [] = base).
Proof.
  split; [apply length_append_user_data|].
  split; [apply values_append_same_dtype|].
  split; [apply values_append_nil|].
  intros Hi. rewrite append_user_data_range_index, values_append_nil.
  apply range_index_values. exact Hi.
Qed.

(** ** The rating collector *)

Section CollectorFacts.

Variable float_of_string : string -> option pyfloat.

Lemma ask_spec row acc c line rest :
  stdin c = line :: rest ->
  ask float_of_string row acc c =
  (Return (acc ++ recorded float_of_string row line),
   {| stdin := rest; stdout := stdout c ++ written float_of_string row line |}).
Proof.
  intros Hin. unfold ask, try_except_ValueError, recorded, written.
  unfold mbind, io_bind, input, py_float, lift. rewrite Hin.
  fold (prompt_for row).
  destruct (float_of_string line) as [x|]; simpl.
  - destruct (float_ge x (Finite 0.5)); simpl; rewrite ?app_nil_r; reflexivity.
  - unfold print, write. simpl. rewrite app_nil_r, <- app_assoc. reflexivity.
Qed.

Lemma for_each_row_spec (rows : DataFrame Movie) acc c :
  length rows <= length (stdin c) ->
  for_each_row float_of_string rows acc c =
  (Return (acc ++ flat_map (fun rl => recorded float_of_string rl.1 rl.2)
                           (zip (values rows) (stdin c))),
   {| stdin := drop (length rows) (stdin c);
      stdout := stdout c ++ flat_map (fun rl => written float_of_string rl.1 rl.2)
                                     (zip (values rows) (stdin c)) |}).
Proof.
  revert acc c. induction rows as [|[i row] rows IH]; intros acc c Hlen.
  - simpl. rewrite !app_nil_r. destruct c; reflexivity.
  - destruct (stdin c) as [|line rest] eqn:Hin; [simpl in Hlen; lia|].
    cbn [for_each_row]. unfold mbind at 1, io_bind at 1.
    rewrite (ask_spec _ _ _ _ _ Hin).
    rewrite IH by (simpl in *; lia). simpl. rewrite <- !app_assoc. reflexivity.
Qed.

(** C9. Given a reply for every candidate, the collector returns
    normally, having read one reply per candidate. The ratings it
    returns are what the replies record, candidate by candidate in
    order: a reply that is no numeral records nothing and has a warning
    written after its prompt, and the candidates after it are asked as
    usual. *)
Theorem collector_skips_invalid (sample : DataFrame Movie) (c : console) :
  length sample <= length (stdin c) ->
  exists df c',
    get_user_ratings float_of_string sample c = (Return df, c') /\
    stdin c' = drop (length sample) (stdin c) /\
    values df = flat_map (fun rl => recorded float_of_string rl.1 rl.2)
                         (zip (values sample) (stdin c)) /\
    stdout c' = stdout c ++ banner ::
                flat_map (fun rl => written float_of_string rl.1 rl.2)
                         (zip (values sample) (stdin c)) /\
    (forall row line, float_of_string line = None ->
       recorded float_of_string row line = [] /\
       written float_of_string row line = [prompt_for row; "Invalid input. Skipping." +:+ newline]).
Proof.
  intros Hlen. unfold get_user_ratings.
  unfold mbind at 1, io_bind at 1. unfold print, write. cbn [stdin stdout].
  unfold mbind at 1, io_bind at 1.
  rewrite for_each_row_spec by (simpl; assumption). cbn [stdin stdout].
  eexists _, _. split; [reflexivity|]. cbn [stdin stdout].
  split; [reflexivity|]. split; [apply values_range_index|].
  split; [rewrite <- app_assoc; reflexivity|].
  intros row line Hnone. unfold recorded, written. rewrite Hnone. auto.
Qed.

(** A reply is recorded exactly when it reads as a number from 0.5 on,
    however large. *)
Lemma recorded_iff row line :
  recorded float_of_string row line <> [] <->
  exists x, float_of_string line = Some x /\ float_ge x (Finite 0.5) = true.
Proof.
  unfold recorded. destruct (float_of_string line) as [x|].
  - destruct (float_ge x (Finite 0.5)) eqn:Hx.
    + split; [intros _; exists x; auto | intros _; discriminate].
    + split; [congruence|]. intros (y & Hy & Hge).
      injection Hy as <-. congruence.
  - split; [congruence | intros (x & Hx & _); discriminate].
Qed.

End CollectorFacts.

(** ** Sorting by score *)

Lemma Qlt_bool_iff (a b : Q) : Qlt_bool a b = true <-> (a < b)%Q.
Proof.
  unfold Qlt_bool. rewrite negb_true_iff. split.
  - intros Hle. apply Qnot_le_lt. intros Hba.
    apply Qle_bool_iff in Hba. congruence.
  - intros Hlt. destruct (Qle_bool b a) eqn:Hba; [|reflexivity].
    apply Qle_bool_iff in Hba. exfalso. exact (Qlt_not_le _ _ Hlt Hba).
Qed.

Lemma Qlt_bool_false (a b : Q) : Qlt_bool a b = false <-> (b <= a)%Q.
Proof.
  unfold Qlt_bool. rewrite negb_false_iff. apply Qle_bool_iff.
Qed.

Lemma StronglySorted_take {A} (R : A -> A -> Prop) (l : list A) (k : nat) :
  StronglySorted R l -> StronglySorted R (take k l).
Proof.
  intros Hl. revert k. induction Hl as [|x l Hl IH Hx]; intros [|k]; simpl;
    try constructor; auto.
  apply Forall_take. assumption.
Qed.

Lemma StronglySorted_filter {A} (R : A -> A -> Prop) (p : A -> bool) (l : list A) :
  StronglySorted R l -> StronglySorted R (List.filter p l).
Proof.
  induction 1 as [|x l Hl IH Hx]; simpl; [constructor|].
  destruct (p x); [|assumption]. constructor; [assumption|].
  rewrite List.Forall_forall in *. intros y Hy. apply filter_In in Hy as [Hy _]. auto.
Qed.

Lemma StronglySorted_Forall2 {A B} (R : A -> A -> Prop) (R' : B -> B -> Prop)
    (P : A -> B -> Prop) (l : list A) (l' : list B) :
  (forall x y x' y', P x x' -> P y y' -> R x y -> R' x' y') ->
  Forall2 P l l' -> StronglySorted R l -> StronglySorted R' l'.
Proof.
  intros HR HP. induction HP as [|x x' l l' Hx HP IH]; intros Hs.
  - constructor.
  - apply StronglySorted_inv in Hs as [Hs Hall]. constructor; [auto|].
    clear IH Hs. induction HP as [|y y' l l' Hy HP IH]; [constructor|].
    apply Forall_cons in Hall as [Hxy Hall]. constructor; eauto.
Qed.

Lemma ascending_range_index {A} (rows : list A) :
  StronglySorted ascending (range_index rows).
Proof.
  unfold range_index. generalize 0.
  induction rows as [|r rows IH]; intros n; simpl; constructor; [apply IH|].
  apply List.Forall_forall. intros [i x] Hin. apply in_combine_l in Hin.
  apply in_seq in Hin. unfold ascending. simpl. lia.
Qed.

Lemma lookup_range_index {A} (rows : list A) (i : nat) (x : A) :
  In (i, x) (range_index rows) -> rows !! i = Some x.
Proof.
  unfold range_index. intros Hin.
  assert (Hgen : forall n, In (i, x) (combine (seq n (length rows)) rows) ->
                           n <= i /\ rows !! (i - n) = Some x).
  { clear Hin. induction rows as [|r rows IH]; intros n; simpl; [tauto|].
    intros [[= <- <-] | Hin].
    - rewrite Nat.sub_diag. auto.
    - apply IH in Hin as [Hle Hl]. split; [lia|].
      replace (i - n) with (S (i - S n)) by lia. exact Hl. }
  apply Hgen in Hin as [_ Hl]. rewrite Nat.sub_0_r in Hl. exact Hl.
Qed.

Section Tagged.

Context {A : Type} (g : A -> Prediction).

Lemma insert_tagged (a : nat * A) (t : list (nat * A)) :
  StronglySorted (before (score_of g)) t ->
  Forall (ascending a) t ->
  exists t', untag g t' = insert_desc (g a.2) (untag g t) /\
             StronglySorted (before (score_of g)) t' /\ Permutation t' (a :: t).
Proof.
  induction t as [|y t IH]; intros Hs Hasc.
  - exists [a]. repeat split; repeat constructor.
  - apply StronglySorted_inv in Hs as [Hs Hy].
    apply Forall_cons in Hasc as [Hay Hasc]. simpl.
    destruct (Qlt_bool (est (g a.2)) (est (g y.2))) eqn:Hlt.
    + apply Qlt_bool_iff in Hlt.
      destruct (IH Hs Hasc) as (t' & Hun & Hs' & Hp).
      exists (y :: t'). split; [simpl; f_equal; exact Hun|]. split.
      * constructor; [assumption|]. rewrite Hp. constructor; [|assumption].
        left. exact Hlt.
      * rewrite Hp. apply perm_swap.
    + apply Qlt_bool_false in Hlt.
      exists (a :: y :: t). split; [reflexivity|]. split; [|reflexivity].
      assert (Hbelow : Forall (fun z => (score_of g z.2 <= score_of g a.2)%Q) (y :: t)).
      { constructor; [exact Hlt|]. eapply Forall_impl; [exact Hy|].
        intros z [Hz | [Hz _]]; simpl in *.
        - apply Qlt_le_weak. eapply Qlt_le_trans; eassumption.
        - unfold score_of in *. rewrite Hz. exact Hlt. }
      constructor; [constructor; assumption|].
      apply List.Forall_forall. intros z Hz.
      pose proof (proj1 (List.Forall_forall _ _) Hbelow z Hz) as Hle.
      assert (Hall : Forall (ascending a) (y :: t)) by (constructor; assumption).
      pose proof (proj1 (List.Forall_forall _ _) Hall z Hz) as Htag.
      apply Qle_lt_or_eq in Hle as [Hle | Heq]; [left | right]; auto.
Qed.

(** Sorting a list whose tags ascend leaves it ordered by score, equal
    scores in the order of the tags. *)
Lemma sort_tagged (t0 : list (nat * A)) :
  StronglySorted ascending t0 ->
  exists t, untag g t = sorted_desc (untag g t0) /\
            StronglySorted (before (score_of g)) t /\ Permutation t t0.
Proof.
  induction 1 as [|a t0 Hs IH Ha].
  - exists []. repeat split; constructor.
  - destruct IH as (t & Hun & Hsorted & Hp).
    destruct (insert_tagged a t Hsorted) as (t' & Hun' & Hs' & Hp').
    { rewrite Hp. exact Ha. }
    exists t'. split; [|split; [assumption|]].
    + rewrite Hun', Hun. reflexivity.
    + rewrite Hp'. constructor. exact Hp.
Qed.

Lemma untag_filter (p : Prediction -> bool) (t : list (nat * A)) :
  untag g (List.filter (fun y => p (g y.2)) t) = List.filter p (untag g t).
Proof.
  unfold untag. induction t as [|y t IH]; simpl; [reflexivity|].
  destruct (p (g y.2)); simpl; congruence.
Qed.

(** The predictions kept, as tagged elements: above 3, at most [k] of
    them, in the order of the recommendations. *)
Lemma top_tagged (l : list A) (k : nat) :
  exists t,
    untag g t = take k (sorted_desc (above_3 (map g l))) /\
    StronglySorted (before (score_of g)) t /\
    Forall (fun y => l !! y.1 = Some y.2 /\ (3 < score_of g y.2)%Q) t.
Proof.
  set (t0 := List.filter (fun y => Qlt_bool 3 (est (g y.2))) (range_index l)).
  assert (H0 : untag g t0 = above_3 (map g l)).
  { unfold t0. rewrite (untag_filter (fun pred => Qlt_bool 3 (est pred))).
    unfold above_3, untag. f_equal.
    rewrite <- (values_range_index l) at 2.
    unfold values. rewrite map_map. reflexivity. }
  destruct (sort_tagged t0) as (t & Hun & Hs & Hp).
  { apply StronglySorted_filter, ascending_range_index. }
  exists (take k t). split; [|split].
  - rewrite <- H0, <- Hun. unfold untag. symmetry. apply firstn_map.
  - apply StronglySorted_take. assumption.
  - apply Forall_take. rewrite Hp. apply List.Forall_forall. intros [i x] Hin.
    apply filter_In in Hin as [Hin Hgt]. simpl in *.
    split; [apply lookup_range_index; assumption|].
    apply Qlt_bool_iff. exact Hgt.
Qed.

End Tagged.

(** The three facts that specify a stable sort in descending order:
    the result is a rearrangement of the input, in descending order of
    score, and the predictions of any one score keep their order. *)
Lemma insert_desc_Permutation (x : Prediction) (l : list Prediction) :
  Permutation (insert_desc x l) (x :: l).
Proof.
  induction l as [|y l IH]; simpl; [reflexivity|].
  destruct (Qlt_bool (est x) (est y)); [|reflexivity].
  rewrite IH. apply perm_swap.
Qed.

Lemma sorted_desc_Permutation (l : list Prediction) : Permutation (sorted_desc l) l.
Proof.
  induction l as [|x l IH]; simpl; [reflexivity|].
  rewrite insert_desc_Permutation, IH. reflexivity.
Qed.

Lemma sorted_desc_sorted (l : list Prediction) :
  StronglySorted (fun a b => (est b <= est a)%Q) (sorted_desc l).
Proof.
  induction l as [|x l IH]; simpl; [constructor|].
  induction IH as [|y t Ht IHt Hy]; simpl; [repeat constructor|].
  destruct (Qlt_bool (est x) (est y)) eqn:Hlt.
  - apply Qlt_bool_iff in Hlt. constructor; [exact IHt|].
    rewrite insert_desc_Permutation. constructor; [|exact Hy].
    apply Qlt_le_weak. exact Hlt.
  - apply Qlt_bool_false in Hlt. constructor; [constructor; assumption|].
    constructor; [exact Hlt|]. eapply Forall_impl; [exact Hy|].
    intros z Hz. simpl in Hz. eapply Qle_trans; eassumption.
Qed.

Lemma insert_desc_filter (q : Q) (x : Prediction) (l : list Prediction) :
  List.filter (fun p => Qeq_bool (est p) q) (insert_desc x l)
  = List.filter (fun p => Qeq_bool (est p) q) (x :: l).
Proof.
  induction l as [|y l IH]; [reflexivity|]. cbn [insert_desc].
  destruct (Qlt_bool (est x) (est y)) eqn:Hlt; [|reflexivity].
  apply Qlt_bool_iff in Hlt. cbn [List.filter] in *. rewrite IH.
  destruct (Qeq_bool (est x) q) eqn:Hx; [|reflexivity].
  destruct (Qeq_bool (est y) q) eqn:Hy; [|reflexivity].
  apply Qeq_bool_iff in Hx, Hy. rewrite Hx, Hy in Hlt.
  destruct (Qlt_irrefl _ Hlt).
Qed.

Lemma sorted_desc_stable (q : Q) (l : list Prediction) :
  List.filter (fun p => Qeq_bool (est p) q) (sorted_desc l)
  = List.filter (fun p => Qeq_bool (est p) q) l.
Proof.
  induction l as [|x l IH]; [reflexivity|].
  cbn [sorted_desc foldr]. fold (sorted_desc l).
  rewrite insert_desc_filter. cbn [List.filter]. rewrite IH. reflexivity.
Qed.

(** ** The recommender *)

Lemma slice_to_take {A} (l : list A) (n : Z) :
  exists k, slice_to l n = take k l /\ ((0 <= n)%Z -> k = Z.to_nat n).
Proof.
  unfold slice_to. destruct (Z.leb_spec 0 n).
  - eauto.
  - eexists. split; [reflexivity | lia].
Qed.

Lemma seen_by_spec (all_ratings : DataFrame Rating) (user_id id : Z) :
  id ∈ seen_by all_ratings user_id <-> rated all_ratings user_id id.
Proof.
  unfold seen_by, rated. rewrite elem_of_list_to_set, list_elem_of_In, in_map_iff.
  unfold values. split.
  - intros (r & <- & Hr). apply in_map_iff in Hr as ([i r'] & <- & Hr).
    apply In_select in Hr as [Hr Hu]. apply Z.eqb_eq in Hu.
    exists r'. repeat split; [|assumption]. apply in_map_iff. exists (i, r'). auto.
  - intros (r & Hr & Hu & Hid). apply in_map_iff in Hr as ([i r'] & <- & Hr).
    exists r'. split; [assumption|]. apply in_map_iff. exists (i, r').
    split; [reflexivity|]. apply In_select. split; [assumption|].
    apply Z.eqb_eq. assumption.
Qed.

Lemma title_of_total (movies : DataFrame Movie) (row : nat * Movie) :
  In row movies -> exists t, title_of movies (movieId row.2) = Return t.
Proof.
  intros Hrow. unfold title_of.
  assert (Hsel : In row (select (fun m => (movieId m =? movieId row.2)%Z) movies))
    by (apply In_select; split; [assumption | apply Z.eqb_refl]).
  destruct (select _ movies) as [|r sel]; [destruct Hsel|]. simpl. eauto.
Qed.

Lemma title_of_cons (r : nat * Movie) (movies : DataFrame Movie) (id : Z) :
  title_of (r :: movies) id
  = if (movieId r.2 =? id)%Z then Return (title r.2) else title_of movies id.
Proof.
  unfold title_of, select, values. cbn [List.filter].
  destruct (movieId r.2 =? id)%Z; reflexivity.
Qed.

(** The title looked up is that of the first row with the identifier. *)
Lemma title_of_spec (movies : DataFrame Movie) (id : Z) (t : string) :
  title_of movies id = Return t <->
  exists row, first_with_id movies id row /\ title row.2 = t.
Proof.
  unfold first_with_id. induction movies as [|r movies IH].
  - split; [discriminate|]. intros (row & (pre & post & Hm & _) & _).
    destruct pre; discriminate Hm.
  - rewrite title_of_cons. destruct (Z.eqb_spec (movieId r.2) id) as [Hid|Hid].
    + split.
      * intros [= <-]. exists r. split; [|reflexivity].
        exists [], movies. repeat split; [assumption | constructor].
      * intros (row & (pre & post & Hm & Hrow & Hpre) & <-).
        destruct pre as [|r' pre]; [injection Hm as -> _; reflexivity|].
        injection Hm as <- _. apply Forall_cons in Hpre as [Hr' _]. congruence.
    + rewrite IH. split.
      * intros (row & (pre & post & -> & Hrow & Hpre) & Ht). exists row.
        split; [|exact Ht]. exists (r :: pre), post.
        repeat split; [assumption | constructor; assumption].
      * intros (row & (pre & post & Hm & Hrow & Hpre) & Ht). exists row.
        split; [|exact Ht]. destruct pre as [|r' pre].
        -- injection Hm as -> _. congruence.
        -- injection Hm as _ ->. apply Forall_cons in Hpre as [_ Hpre]. eauto.
Qed.

(** With distinct identifiers, the first row with the identifier of a
    row is that row. *)
Lemma first_with_id_NoDup (movies : DataFrame Movie) (row first : nat * Movie) :
  NoDup (map movieId (values movies)) -> In row movies ->
  first_with_id movies (movieId row.2) first -> first = row.
Proof.
  intros Hd Hrow (pre & post & -> & Hid & Hpre).
  apply in_app_or in Hrow as [Hrow | [Hrow | Hrow]].
  - exfalso. exact (proj1 (List.Forall_forall _ _) Hpre row Hrow eq_refl).
  - exact Hrow.
  - exfalso. unfold values in Hd. rewrite map_map, map_app in Hd.
    apply NoDup_app in Hd as (_ & _ & Hd). cbn [map] in Hd.
    apply NoDup_cons in Hd as [Hd _]. apply Hd. rewrite Hid.
    apply list_elem_of_In, in_map_iff. exists row. auto.
Qed.

Section RecommenderFacts.

Context `{Algo}.

(** On a column [genres] without a string the accessor raises. *)
Lemma recommend_no_text movies all_ratings genre min_year user_id top_n c :
  ~ genres_are_text movies ->
  train_and_recommend movies all_ratings genre min_year user_id top_n c
  = (Raise AttributeError, c).
Proof.
  intros Hn. unfold train_and_recommend.
  unfold mbind at 1, io_bind at 1, lift.
  rewrite (str_accessor_no_text _ Hn). reflexivity.
Qed.

Lemma recommend_returns_text movies all_ratings genre min_year user_id top_n
    c res c' :
  train_and_recommend movies all_ratings genre min_year user_id top_n c
  = (Return res, c') ->
  genres_are_text movies.
Proof.
  intros Hrun. destruct (str_accessor_cases movies) as [[Ht _] | [Hn _]];
    [exact Ht|].
  rewrite (recommend_no_text _ _ _ _ _ _ _ Hn) in Hrun. discriminate Hrun.
Qed.

Lemma recommend_unfold movies all_ratings genre min_year user_id top_n c :
  genres_are_text movies ->
  train_and_recommend movies all_ratings genre min_year user_id top_n c =
  match Re.compile genre with
  | None => (Unsupported, c)
  | Some re =>
      let rows := filtered (unseen_movies movies (seen_by all_ratings user_id))
                           re min_year in
      if empty rows then
        (Return [],
         {| stdin := stdin c;
            stdout := stdout c ++ ["❌ No unseen movies found for that genre/year." +:+ newline] |})
      else
        (results movies
           (top (map (prediction_for all_ratings user_id) (values rows)) top_n), c)
  end.
Proof.
  intros Ht. unfold train_and_recommend, compile_pattern.
  unfold mbind at 1, io_bind at 1, lift.
  rewrite (str_accessor_text _ Ht).
  unfold mbind at 1, io_bind at 1.
  destruct (Re.compile genre) as [re|]; [|reflexivity]. cbv zeta.
  destruct (empty _); reflexivity.
Qed.

Lemma In_candidates movies all_ratings genre re min_year user_id m :
  loaded movies -> Re.compile genre = Some re ->
  In m (candidates movies all_ratings re min_year user_id) <->
  exists row, In row movies /\ row.2 = m /\
              ~ rated all_ratings user_id (movieId m) /\
              genre_matches genre m /\ year_after min_year m.
Proof.
  intros Hl Hre. unfold candidates, values, filtered, unseen_movies.
  rewrite in_map_iff. split.
  - intros (row & <- & Hrow). apply In_select in Hrow as [Hrow Hp].
    apply In_select in Hrow as [Hrow Hseen].
    apply andb_true_iff in Hp as [Hg Hy].
    exists row. repeat split; try assumption.
    + rewrite <- seen_by_spec. apply negb_true_iff, bool_decide_eq_false in Hseen.
      exact Hseen.
    + apply (str_contains_spec _ _ _ Hre). assumption.
    + apply (year_gt_spec _ _ _ Hl Hrow). assumption.
  - intros (row & Hrow & <- & Hseen & Hg & Hy). exists row. split; [reflexivity|].
    apply In_select. split.
    + apply In_select. split; [assumption|].
      apply negb_true_iff, bool_decide_eq_false. rewrite seen_by_spec. assumption.
    + apply andb_true_iff. split.
      * apply (str_contains_spec _ _ _ Hre). assumption.
      * apply (year_gt_spec _ _ _ Hl Hrow). assumption.
Qed.

Lemma candidates_in_catalog movies all_ratings re min_year user_id m :
  In m (candidates movies all_ratings re min_year user_id) ->
  exists row, In row movies /\ row.2 = m.
Proof.
  unfold candidates, values, filtered, unseen_movies. rewrite in_map_iff.
  intros (row & <- & Hrow). apply In_select in Hrow as [Hrow _].
  apply In_select in Hrow as [Hrow _]. eauto.
Qed.

(** The results list the candidates kept, each with the title found for
    its identifier and its score. *)
Lemma results_tagged movies all_ratings user_id (t : list (nat * Movie)) res :
  results movies (untag (prediction_for all_ratings user_id) t) = Return res ->
  Forall2 (fun y r => title_of movies (movieId y.2) = Return r.1 /\
                      r.2 = score all_ratings user_id y.2) t res.
Proof.
  unfold results, untag. revert res. induction t as [|y t IH]; intros res; simpl.
  - intros [= <-]. constructor.
  - rewrite py_int_str. simpl.
    destruct (title_of movies (movieId y.2)) as [ti| |] eqn:Ht; try discriminate.
    simpl. destruct (traverse _ _) as [rs| |]; try discriminate. simpl.
    intros [= <-]. constructor; [auto | apply IH; reflexivity].
Qed.

Lemma results_total movies all_ratings user_id (t : list (nat * Movie)) :
  Forall (fun y => exists row, In row movies /\ row.2 = y.2) t ->
  exists res,
    results movies (untag (prediction_for all_ratings user_id) t) = Return res.
Proof.
  unfold results, untag. induction 1 as [|y t (row & Hrow & Hy) _ [res IH]]; simpl.
  - eauto.
  - rewrite py_int_str. simpl. rewrite <- Hy.
    destruct (title_of_total movies row Hrow) as [ti ->]. simpl.
    rewrite IH. simpl. eauto.
Qed.

(** What a call that returns has computed: the candidates kept, tagged
    with their positions among the candidates, in the order of the
    result. *)
Lemma recommend_tagged movies all_ratings genre min_year user_id top_n c res c' :
  train_and_recommend movies all_ratings genre min_year user_id top_n c
  = (Return res, c') ->
  exists re (t : list (nat * Movie)),
    Re.compile genre = Some re /\
    StronglySorted (before (score all_ratings user_id)) t /\
    Forall (fun y => candidates movies all_ratings re min_year user_id !! y.1
                     = Some y.2 /\
                     (3 < score all_ratings user_id y.2)%Q) t /\
    Forall2 (fun y r => title_of movies (movieId y.2) = Return r.1 /\
                        r.2 = score all_ratings user_id y.2) t res /\
    ((0 <= top_n)%Z -> length t <= Z.to_nat top_n).
Proof.
  intros Hrun. pose proof (recommend_returns_text _ _ _ _ _ _ _ _ _ Hrun) as Ht.
  revert Hrun. rewrite (recommend_unfold _ _ _ _ _ _ _ Ht).
  destruct (Re.compile genre) as [re|]; [|discriminate].
  cbv zeta. fold (candidates movies all_ratings re min_year user_id).
  destruct (empty _).
  - intros [= <- _]. exists re, []. repeat split; try constructor. simpl. lia.
  - intros [= Hres _]. exists re. unfold top in Hres.
    destruct (slice_to_take
                (sorted_desc (above_3 (map (prediction_for all_ratings user_id)
                   (candidates movies all_ratings re min_year user_id)))) top_n)
      as (k & Hk & Hkn).
    rewrite Hk in Hres.
    destruct (top_tagged (prediction_for all_ratings user_id)
                (candidates movies all_ratings re min_year user_id) k)
      as (t & Hun & Hs & Hall).
    rewrite <- Hun in Hres. exists t. split; [reflexivity|].
    split; [exact Hs|]. split; [exact Hall|].
    split; [apply results_tagged; exact Hres|].
    intros Hn. rewrite <- (Hkn Hn).
    rewrite <- (length_map (fun y => prediction_for all_ratings user_id y.2)).
    change (length (untag (prediction_for all_ratings user_id) t) <= k).
    rewrite Hun, length_take. lia.
Qed.

(** For a pattern of the fragment and a column [genres] of text the
    call returns. *)
Lemma recommend_total movies all_ratings genre min_year user_id top_n c :
  is_Some (Re.compile genre) ->
  genres_are_text movies ->
  exists res c',
    train_and_recommend movies all_ratings genre min_year user_id top_n c
    = (Return res, c').
Proof.
  intros [re Hre] Ht. rewrite (recommend_unfold _ _ _ _ _ _ _ Ht), Hre. cbv zeta.
  fold (candidates movies all_ratings re min_year user_id).
  destruct (empty _); [eauto|]. unfold top.
  destruct (slice_to_take
              (sorted_desc (above_3 (map (prediction_for all_ratings user_id)
                 (candidates movies all_ratings re min_year user_id)))) top_n)
    as (k & -> & _).
  destruct (top_tagged (prediction_for all_ratings user_id)
              (candidates movies all_ratings re min_year user_id) k)
    as (t & <- & _ & Hall).
  destruct (results_total movies all_ratings user_id t) as [res ->]; [|eauto].
  eapply Forall_impl; [exact Hall|]. intros y [Hy _].
  apply (candidates_in_catalog movies all_ratings re min_year user_id).
  apply list_elem_of_In, list_elem_of_lookup. eauto.
Qed.

End RecommenderFacts.

Lemma Forall2_In_r {A B} (P : A -> B -> Prop) (l : list A) (l' : list B) (r : B) :
  Forall2 P l l' -> In r l' -> exists y, In y l /\ P y r.
Proof.
  induction 1 as [|x x' l l' Hx _ IH]; intros Hin; [destruct Hin|].
  destruct Hin as [<- | Hin].
  - exists x. split; [left; reflexivity | assumption].
  - destruct (IH Hin) as (y & Hy & HP). exists y. split; [right|]; assumption.
Qed.

Section RecommenderClaims.

Context `{Algo}.


(** C2. Every entry of a result is the title of a candidate with the
    estimate that the fitted model gave for it, and that estimate is
    greater than 3: no prediction estimated at 3 or less is returned. *)
Theorem recommend_scores_above_3 movies all_ratings genre min_year user_id
    top_n c res c' :
  train_and_recommend movies all_ratings genre min_year user_id top_n c
  = (Return res, c') ->
  exists re,
    Re.compile genre = Some re /\
    forall t s, In (t, s) res ->
      exists m,
        In m (candidates movies all_ratings re min_year user_id) /\
        title_of movies (movieId m) = Return t /\
        s = estimate (fit (build_full_trainset all_ratings))
                     (StrId (py_str user_id)) (StrId (py_str (movieId m))) /\
        (3 < estimate (fit (build_full_trainset all_ratings))
                      (StrId (py_str user_id)) (StrId (py_str (movieId m))))%Q.
Proof.
  intros Hrun.
  apply recommend_tagged in Hrun as (re & tg & Hre & _ & Hall & Hres & _).
  exists re. split; [exact Hre|]. intros t s Hin.
  destruct (Forall2_In_r _ _ _ _ Hres Hin) as (y & Hy & Ht & Hs). simpl in Ht, Hs.
  pose proof (proj1 (List.Forall_forall _ _) Hall y Hy) as [Hc Hgt].
  exists y.2. split; [apply list_elem_of_In, list_elem_of_lookup; eauto|].
  split; [exact Ht|]. split; [exact Hs | exact Hgt].
Qed.

(** C3, as amended. A result is in descending order of score. Its
    entries are the titles and scores of candidates which, tagged with
    their positions in the order of scoring, come in the order
    [before]: a higher score first, and of two equal scores the
    candidate scored earlier. [l[:top_n]] drops entries from the end
    when [top_n] is negative, so the bound on the length needs
    [top_n >= 0]: then a result has at most [top_n] entries. *)
Theorem recommend_sorted_stable movies all_ratings genre min_year user_id
    top_n c res c' :
  train_and_recommend movies all_ratings genre min_year user_id top_n c
  = (Return res, c') ->
  ((0 <= top_n)%Z -> (Z.of_nat (length res) <= top_n)%Z) /\
  StronglySorted (fun a b => (b.2 <= a.2)%Q) res /\
  exists re (tagged : list (nat * Movie)),
    Re.compile genre = Some re /\
    Forall2 (fun y r =>
               candidates movies all_ratings re min_year user_id !! y.1 = Some y.2 /\
               title_of movies (movieId y.2) = Return r.1 /\
               r.2 = score all_ratings user_id y.2) tagged res /\
    StronglySorted (before (score all_ratings user_id)) tagged.
Proof.
  intros Hrun.
  apply recommend_tagged in Hrun as (re & tg & Hre & Hs & Hall & Hres & Hlen).
  split; [|split].
  - intros Hn. rewrite <- (Forall2_length _ _ _ Hres). specialize (Hlen Hn). lia.
  - eapply StronglySorted_Forall2; [|exact Hres|exact Hs].
    intros x y x' y' [_ Hx] [_ Hy] Hb. rewrite Hx, Hy.
    destruct Hb as [Hlt | [Heq _]].
    + apply Qlt_le_weak. exact Hlt.
    + rewrite Heq. apply Qle_refl.
  - exists re, tg. split; [exact Hre|]. split; [|exact Hs].
    clear Hs Hlen. induction Hres as [|y r tg res [Ht Hsc] _ IH]; [constructor|].
    apply Forall_cons in Hall as [[Hc _] Hall]. constructor; auto.
Qed.

End RecommenderClaims.

(** ** Identifiers as the model sees them *)

(** No raw identifier of a trainset built from a frame is a string. *)
Lemma trainset_ids_not_str (df : DataFrame Rating) (s : string) :
  SVD.knows (map (fun r => r.1.1) (build_full_trainset df)) (StrId s) = false /\
  SVD.knows (map (fun r => r.1.2) (build_full_trainset df)) (StrId s) = false.
Proof.
  unfold SVD.knows, build_full_trainset. rewrite !map_map. simpl.
  split; apply bool_decide_eq_false; rewrite list_elem_of_In, in_map_iff;
    intros (r & Hr & _); discriminate Hr.
Qed.

(** With the prediction rule of [SVD], every candidate is scored with
    the global mean of the ratings, clipped to the scale: neither the
    user nor the movie is known to the model under the string that
    the recommender passes. *)
Lemma svd_score_is_global_mean (learn : trainset -> SVD.fitted)
    (all_ratings : DataFrame Rating) (user_id : Z) (m : Movie) :
  score (H := SVD.algo learn) all_ratings user_id m
  = SVD.clip (SVD.global_mean (learn (build_full_trainset all_ratings))).
Proof.
  unfold score, prediction_for, predict. simpl.
  unfold SVD.predict_est, SVD.estimate, SVD.fit. simpl.
  destruct (trainset_ids_not_str all_ratings (py_str user_id)) as [-> _].
  destruct (trainset_ids_not_str all_ratings (py_str (movieId m))) as [_ ->].
  reflexivity.
Qed.

(** * Examples *)

Lemma isubstring_search (needle hay : string) :
  isubstring needle hay <-> is_Some (Re.search true (literal needle) hay).
Proof. rewrite search_occurs. symmetry. apply occurs_literal. Qed.

Lemma load_demo : load_movies demo_csv = Return demo_movies.
Proof. vm_compute. reflexivity. Qed.

Example extract_year_suffix : extract_year "Toy Story (1995)" = Return (Some 1995%Z).
Proof. vm_compute. reflexivity. Qed.

Example extract_year_leftmost :
  extract_year "Blade Runner (12345) (1982) (2007)" = Return (Some 1982%Z).
Proof. vm_compute. reflexivity. Qed.

Example extract_year_none : extract_year "Untitled" = Return None.
Proof. vm_compute. reflexivity. Qed.

(** Digits of other scripts are read as well. *)
Example extract_year_arabic_indic : extract_year "Film (١٩٩٥)" = Return (Some 1995%Z).
Proof. vm_compute. reflexivity. Qed.

Example extract_year_fullwidth : extract_year "映画 (２００１)" = Return (Some 2001%Z).
Proof. vm_compute. reflexivity. Qed.

(** The scenario of the specification: one comedy of 1995, sampled from
    1990 on. *)
Example sample_toy_story :
  get_movies_by_genre_and_year [(0, toy_story)] [] "Comedy" 1990 15
  = Return [(0, toy_story)].
Proof. vm_compute. reflexivity. Qed.

Example sample_negative_size :
  get_movies_by_genre_and_year demo_movies [2; 0] "Comedy" 1990 (-1)
  = Raise (ValueError "A negative number of rows requested. Please provide `n` >= 0.").
Proof. vm_compute. reflexivity. Qed.

(** ** The sampler *)



Lemma demo_movies_text : genres_are_text demo_movies.
Proof. right. exists (0, toy_story). eexists. split; [left|]; reflexivity. Qed.

Lemma no_genres_no_text : ~ genres_are_text no_genres.
Proof.
  intros [Hnil | (row & g & [<- | []] & Hg)]; [discriminate Hnil | discriminate Hg].
Qed.


(** On a catalog without a genre the sampler raises [AttributeError],
    and so does the recommender. *)
Example sample_no_genres :
  get_movies_by_genre_and_year no_genres [] "Comedy" 1990 15 = Raise AttributeError.
Proof. vm_compute. reflexivity. Qed.


(** ** The merger *)

(** The scenario of the specification: one base rating and one
    addition give two rows in that order. *)
Example merge_two_rows :
  values (append_user_data
            (range_index [{| userId := 9999; r_movieId := 1; rating := Finite 4 |}])
            (range_index [{| userId := 9999; r_movieId := 2; rating := Finite 5 |}]))
  = [{| userId := 9999; r_movieId := 1; rating := Finite 4 |};
     {| userId := 9999; r_movieId := 2; rating := Finite 5 |}].
Proof. reflexivity. Qed.

Lemma append_user_data_spec_witness :
  values (append_user_data demo_ratings demo_user_df)
  = values demo_ratings ++ values demo_user_df.
Proof.
  apply (proj1 (proj2 (append_user_data_spec demo_ratings demo_user_df)));
    vm_compute; reflexivity.
Defined.

Example merge_nothing : append_user_data demo_ratings [] = demo_ratings.
Proof. vm_compute. reflexivity. Qed.

(** C7 as stated fails. The base table has the user 2^63 + 1, so that
    its column of users is uint64; the addition has int64 there.
    [pd.concat] casts both to float64, in which 2^63 + 1 is 2^63: the
    first row of the merged table is not the row of the base table. *)
Lemma append_user_data_float64_counterexample :
  values (append_user_data uint64_base int64_addition)
  = [ {| userId := 2 ^ 63; r_movieId := 1; rating := Finite 4 |};
      {| userId := 9999; r_movieId := 2; rating := Finite 5 |} ] /\
  values (append_user_data uint64_base int64_addition)
  <> values uint64_base ++ values int64_addition.
Proof.
  split; [vm_compute; reflexivity|]. vm_compute. intros H. discriminate H.
Qed.

(** ** The collector *)

Lemma collector_skips_invalid_witness :
  exists df c',
    get_user_ratings read_decimal (take 3 demo_movies)
      {| stdin := ["4.5"; "five"; "0"; "x"]; stdout := [] |} = (Return df, c') /\
    stdin c' = drop (length (take 3 demo_movies)) ["4.5"; "five"; "0"; "x"] /\
    values df = flat_map (fun rl => recorded read_decimal rl.1 rl.2)
                  (zip (values (take 3 demo_movies)) ["4.5"; "five"; "0"; "x"]) /\
    stdout c' = [] ++ banner ::
                flat_map (fun rl => written read_decimal rl.1 rl.2)
                  (zip (values (take 3 demo_movies)) ["4.5"; "five"; "0"; "x"]) /\
    (forall row line, read_decimal line = None ->
       recorded read_decimal row line = [] /\
       written read_decimal row line = [prompt_for row; "Invalid input. Skipping." +:+ newline]).
Proof.
  apply (collector_skips_invalid read_decimal (take 3 demo_movies)
           {| stdin := ["4.5"; "five"; "0"; "x"]; stdout := [] |}).
  simpl. lia.
Defined.

Example collector_run :
  get_user_ratings read_decimal (take 3 demo_movies)
    {| stdin := ["4.5"; "five"; "0"; "x"]; stdout := [] |}
  = (Return [(0, {| userId := 9999; r_movieId := 1; rating := Finite 4.5 |})],
     {| stdin := ["x"];
        stdout := [banner; "Rating for 'Toy Story (1995)': ";
                   "Rating for 'Heat (1995)': "; "Invalid input. Skipping." +:+ newline;
                   "Rating for 'Bad Boys (1995)': "] |}).
Proof. vm_compute. reflexivity. Qed.

(** C8: the collector has no upper bound. The prompt announces the
    scale 0.5 to 5 and the model is given that scale, yet the reply 7
    is recorded as a rating of 7. *)
Theorem collector_records_above_scale :
  (get_user_ratings read_decimal [(0, toy_story)] {| stdin := ["7"]; stdout := [] |}).1
  = Return [(0, {| userId := 9999; r_movieId := 1; rating := Finite 7 |})].
Proof. vm_compute. reflexivity. Qed.

(** ** The recommender *)


(** With an identifier that two rows share, the title returned for the
    second row is that of the first: Heat is recommended under the
    title of Sabrina, which is not of the genre. *)
Example recommend_first_title :
  (train_and_recommend (H := SVD.algo demo_learn) twice_2 demo_ratings
     "Action" 1990 9999 5 quiet).1
  = Return [("Sabrina (1954)", 3.5%Q)].
Proof. vm_compute. reflexivity. Qed.

Example recommend_no_genres :
  train_and_recommend (H := SVD.algo demo_learn) no_genres demo_ratings
    "Comedy" 1990 1 5 quiet
  = (Raise AttributeError, quiet).
Proof. vm_compute. reflexivity. Qed.


Lemma recommend_scores_above_3_witness :
  exists re,
    Re.compile "Action" = Some re /\
    forall t s, In (t, s) [("Heat (1995)", 3.5%Q); ("Bad Boys (1995)", 3.5%Q)] ->
      exists m,
        In m (candidates demo_movies demo_ratings re 1990 9999) /\
        title_of demo_movies (movieId m) = Return t /\
        s = @estimate (SVD.algo demo_learn)
              (@fit (SVD.algo demo_learn) (build_full_trainset demo_ratings))
              (StrId (py_str 9999)) (StrId (py_str (movieId m))) /\
        (3 < @estimate (SVD.algo demo_learn)
               (@fit (SVD.algo demo_learn) (build_full_trainset demo_ratings))
               (StrId (py_str 9999)) (StrId (py_str (movieId m))))%Q.
Proof.
  apply (recommend_scores_above_3 (H := SVD.algo demo_learn) demo_movies demo_ratings
           "Action" 1990 9999 5 quiet
           [("Heat (1995)", 3.5%Q); ("Bad Boys (1995)", 3.5%Q)] quiet).
  vm_compute. reflexivity.
Defined.

Lemma recommend_sorted_stable_witness :
  ((0 <= 5)%Z ->
   (Z.of_nat (length [("Heat (1995)", 3.5%Q); ("Bad Boys (1995)", 3.5%Q)]) <= 5)%Z) /\
  StronglySorted (fun a b => (b.2 <= a.2)%Q)
                 [("Heat (1995)", 3.5%Q); ("Bad Boys (1995)", 3.5%Q)] /\
  exists re (tagged : list (nat * Movie)),
    Re.compile "Action" = Some re /\
    Forall2 (fun y r =>
               candidates demo_movies demo_ratings re 1990 9999 !! y.1 = Some y.2 /\
               title_of demo_movies (movieId y.2) = Return r.1 /\
               r.2 = score (H := SVD.algo demo_learn) demo_ratings 9999 y.2)
            tagged [("Heat (1995)", 3.5%Q); ("Bad Boys (1995)", 3.5%Q)] /\
    StronglySorted (before (score (H := SVD.algo demo_learn) demo_ratings 9999)) tagged.
Proof.
  apply (recommend_sorted_stable (H := SVD.algo demo_learn) demo_movies demo_ratings
           "Action" 1990 9999 5 quiet
           [("Heat (1995)", 3.5%Q); ("Bad Boys (1995)", 3.5%Q)] quiet).
  vm_compute. reflexivity.
Defined.

(** The scenario of the specification: Heat and Bad Boys have the same
    score, and Heat, scored first, comes first. *)
Example recommend_tie_keeps_order :
  (train_and_recommend (H := SVD.algo demo_learn) demo_movies demo_ratings
     "Action" 1990 9999 5 quiet).1
  = Return [("Heat (1995)", 3.5%Q); ("Bad Boys (1995)", 3.5%Q)].
Proof. vm_compute. reflexivity. Qed.

(** The scenario of the specification: every movie seen, an empty
    result and no error. *)
Example recommend_all_seen :
  (train_and_recommend (H := SVD.algo demo_learn) [(0, toy_story)] demo_ratings
     "Comedy" 1990 9999 5 quiet).1 = Return [].
Proof. vm_compute. reflexivity. Qed.

(** C3 as stated fails. With [top_n = -1] the slice drops the last of
    the two predictions kept and returns one entry, which is more than
    [top_n]. *)
Lemma recommend_negative_top_n_counterexample :
  train_and_recommend (H := SVD.algo demo_learn) demo_movies demo_ratings
    "Action" 1990 9999 (-1) quiet
  = (Return [("Heat (1995)", 3.5%Q)], quiet) /\
  ~ (Z.of_nat (length [("Heat (1995)", 3.5%Q)]) <= -1)%Z.
Proof. split; [vm_compute; reflexivity | simpl; lia]. Qed.

(** C4: the model is not asked about the user and the movie of the
    ratings table. The trainset has the integers 9999 and 2; the
    recommender asks for the strings ["9999"] and ["2"], which the
    model does not know, and gets the global mean 3.5 for every
    candidate. Asked with the identifiers of the table, the model
    scores Heat 4.75 and Bad Boys 2.25, which is below the threshold. *)
Theorem recommend_asks_with_strings :
  prediction_for (H := SVD.algo demo_learn) demo_ratings 9999 heat
  = predict (H := SVD.algo demo_learn) demo_model (StrId "9999") (StrId "2") /\
  (train_and_recommend (H := SVD.algo demo_learn) demo_movies demo_ratings
     "Action" 1990 9999 5 quiet).1
  = Return [("Heat (1995)", 3.5%Q); ("Bad Boys (1995)", 3.5%Q)] /\
  (est (predict (H := SVD.algo demo_learn) demo_model (IntId 9999) (IntId 2))
   == 4.75)%Q /\
  (est (predict (H := SVD.algo demo_learn) demo_model (IntId 9999) (IntId 3))
   == 2.25)%Q.
Proof. repeat split; vm_compute; reflexivity. Qed.

(** * Further properties *)

(** ** The loader *)

Lemma length_list_ascii (s : string) :
  length (list_ascii_of_string s) = String.length s.
Proof. induction s; simpl; congruence. Qed.

(** X1. A year read from a title lies between 0 and 9999, whatever the
    script of its digits. *)
Theorem extract_year_range (title : string) (y : Z) :
  extract_year title = Return (Some y) -> (0 <= y <= 9999)%Z.
Proof. apply extract_year_bounds. Qed.

Lemma traverse_add_year (l : list (nat * MovieRow)) :
  (Forall (fun r => is_Some (csv_title r.2)) l /\
   exists movies, traverse add_year l = Return movies) \/
  (Exists (fun r => csv_title r.2 = None) l /\
   traverse add_year l = Raise TypeError).
Proof.
  induction l as [|r l IH].
  - left. split; [constructor | eauto].
  - cbn [traverse].
    destruct (add_year_cases r) as [[Hr [row ->]] | [Hr ->]].
    + destruct IH as [[Hl [movies ->]] | [Hl ->]].
      * left. split; [constructor; assumption | eauto].
      * right. split; [apply Exists_cons_tl; assumption | reflexivity].
    + right. split; [apply Exists_cons_hd; assumption | reflexivity].
Qed.


(** ** Letter case of the genre *)

Lemma lower_facts (c : ascii) :
  lower (lower c) = lower c /\
  Ascii.eqb (lower c) "|" = Ascii.eqb c "|" /\
  Ascii.eqb (lower c) "." = Ascii.eqb c "." /\
  Re.uninterpreted (lower c) = Re.uninterpreted c.
Proof. destruct c as [[] [] [] [] [] [] [] []]; vm_compute; auto. Qed.

Lemma compile_casefold (pat : string) :
  Re.compile (casefold pat) = option_map (map (map fold_atom)) (Re.compile pat).
Proof.
  induction pat as [|c pat IH]; [reflexivity|]. cbn [casefold Re.compile].
  rewrite IH. destruct (Re.compile pat) as [alts|]; [|reflexivity].
  cbn [option_map]. destruct (lower_facts c) as (_ & -> & -> & ->).
  destruct (Ascii.eqb c "|"); [reflexivity|].
  destruct (Ascii.eqb c "."); [destruct alts; reflexivity|].
  destruct (Re.uninterpreted c); [reflexivity|].
  destruct alts; reflexivity.
Qed.

Lemma step_fold (a : Re.atom) (s : string) :
  Re.step true (fold_atom a) s = Re.step true a s.
Proof.
  destruct a as [x| |]; [|reflexivity..]. cbn [fold_atom Re.step].
  destruct (lower_facts x) as [-> _]. reflexivity.
Qed.

Lemma match_here_fold (r : list Re.atom) (s : string) :
  Re.match_here true (map fold_atom r) s = Re.match_here true r s.
Proof.
  revert s. induction r as [|a r IH]; intros s; [reflexivity|].
  cbn [map Re.match_here]. rewrite step_fold.
  destruct (Re.step true a s) as [[w s']|]; [|reflexivity].
  rewrite IH. reflexivity.
Qed.

Lemma search_from_fold (re : Re.regex) (s : string) (i : nat) :
  Re.search_from true (map (map fold_atom) re) s i = Re.search_from true re s i.
Proof.
  assert (Hm : forall s, Re.match_at true (map (map fold_atom) re) s
                         = Re.match_at true re s).
  { intros s'. induction re as [|r re IH]; [reflexivity|].
    cbn [map Re.match_at]. rewrite match_here_fold, IH. reflexivity. }
  revert i. induction s as [|c s IH]; intros i; cbn [Re.search_from]; rewrite Hm.
  - reflexivity.
  - rewrite IH. reflexivity.
Qed.

Lemma str_contains_fold (re : Re.regex) (na : bool) (cell : option string) :
  str_contains (map (map fold_atom) re) na cell = str_contains re na cell.
Proof.
  destruct cell as [s|]; [|reflexivity]. unfold str_contains, Re.search.
  rewrite search_from_fold. reflexivity.
Qed.

Lemma select_ext {A} (p q : A -> bool) (df : DataFrame A) :
  (forall a, p a = q a) -> select p df = select q df.
Proof. intros Hpq. unfold select. apply filter_ext. intros r. apply Hpq. Qed.

(** X3. For a genre made of ordinary characters, [.] and [|], letter
    case is immaterial: the sampler and the recommender do with the
    genre in lower case what they do with the genre as typed. *)
Theorem genre_case_is_immaterial `{Algo} (movies : DataFrame Movie)
    (all_ratings : DataFrame Rating) (rng : list nat) (genre : string)
    (min_year n user_id top_n : Z) (c : console) :
  is_Some (Re.compile genre) ->
  get_movies_by_genre_and_year movies rng (casefold genre) min_year n
  = get_movies_by_genre_and_year movies rng genre min_year n /\
  train_and_recommend movies all_ratings (casefold genre) min_year user_id top_n c
  = train_and_recommend movies all_ratings genre min_year user_id top_n c.
Proof.
  intros [re Hre].
  assert (Hre' : Re.compile (casefold genre) = Some (map (map fold_atom) re))
    by (rewrite compile_casefold, Hre; reflexivity).
  destruct (str_accessor_cases movies) as [[Ht _] | [Hn _]].
  - split.
    + rewrite (sampler_unfold _ _ _ _ _ _ Hre' Ht), (sampler_unfold _ _ _ _ _ _ Hre Ht).
      unfold pool_of.
      rewrite (select_ext _ (fun m => str_contains re false (genres m)
                                      && year_ge (year m) min_year));
        [reflexivity|].
      intros m. rewrite str_contains_fold. reflexivity.
    + rewrite !(recommend_unfold _ _ _ _ _ _ _ Ht), Hre', Hre.
      cbv zeta. unfold filtered.
      rewrite (select_ext _ (fun m => str_contains re false (genres m)
                                      && year_gt (year m) min_year));
        [reflexivity|].
      intros m. rewrite str_contains_fold. reflexivity.
  - split.
    + rewrite !(sampler_no_text _ _ _ _ _ Hn). reflexivity.
    + rewrite !(recommend_no_text _ _ _ _ _ _ _ Hn). reflexivity.
Qed.

(** ** The sampler *)

Lemma draw_all {A} (rng : list nat) (k : nat) (pool : list A) :
  length pool <= k -> Permutation (draw rng k pool) pool.
Proof.
  intros Hk. destruct (draw_Permutation rng k pool) as [rest Hp].
  assert (Hlen : length rest = 0).
  { apply Permutation_length in Hp. rewrite length_app, length_draw in Hp. lia. }
  destruct rest; [|discriminate]. rewrite app_nil_r in Hp. symmetry. exact Hp.
Qed.

(** X4. When the size asked for is at least the number of movies that
    pass the filter, the sampler returns all of them, each once, in
    some order. *)
Theorem sampler_offers_whole_pool (movies : DataFrame Movie) (rng : list nat)
    (genre : string) (re : Re.regex) (min_year n : Z) :
  Re.compile genre = Some re ->
  pool_of movies re min_year <> [] ->
  (Z.of_nat (length (pool_of movies re min_year)) <= n)%Z ->
  exists out,
    get_movies_by_genre_and_year movies rng genre min_year n = Return out /\
    Permutation out (pool_of movies re min_year).
Proof.
  intros Hre Hne Hn.
  rewrite (sampler_unfold _ _ _ _ _ _ Hre (pool_of_text _ _ _ Hne)).
  destruct (pool_of movies re min_year) as [|row pool] eqn:Hp; [congruence|].
  cbn [empty]. unfold sample.
  destruct (Z.ltb_spec (Z.min n (Z.of_nat (length (row :: pool)))) 0); [lia|].
  destruct (Z.ltb_spec (Z.of_nat (length (row :: pool)))
                       (Z.min n (Z.of_nat (length (row :: pool))))); [lia|].
  eexists. split; [reflexivity|]. apply draw_all. lia.
Qed.

(** X5. A negative size is not clamped: when some movie passes the
    filter, the sampler raises the [ValueError] of [DataFrame.sample],
    not the one that reports no match. *)
Theorem sampler_negative_size (movies : DataFrame Movie) (rng : list nat)
    (genre : string) (re : Re.regex) (min_year n : Z) :
  Re.compile genre = Some re ->
  pool_of movies re min_year <> [] ->
  (n < 0)%Z ->
  get_movies_by_genre_and_year movies rng genre min_year n
  = Raise (ValueError "A negative number of rows requested. Please provide `n` >= 0.").
Proof.
  intros Hre Hne Hn.
  rewrite (sampler_unfold _ _ _ _ _ _ Hre (pool_of_text _ _ _ Hne)).
  destruct (pool_of movies re min_year) as [|row pool] eqn:Hp; [congruence|].
  cbn [empty]. unfold sample.
  destruct (Z.ltb_spec (Z.min n (Z.of_nat (length (row :: pool)))) 0); [reflexivity|lia].
Qed.

(** ** The collector *)

Section CollectorMore.

Variable float_of_string : string -> option pyfloat.

Lemma ask_eof row acc c :
  stdin c = [] ->
  ask float_of_string row acc c
  = (Raise EOFError, {| stdin := []; stdout := stdout c ++ [prompt_for row] |}).
Proof.
  intros Hin. unfold ask, try_except_ValueError.
  unfold mbind, io_bind, input. rewrite Hin. reflexivity.
Qed.

Lemma for_each_row_eof (rows : DataFrame Movie) acc c :
  length (stdin c) < length rows ->
  exists c', for_each_row float_of_string rows acc c = (Raise EOFError, c') /\
             stdin c' = [].
Proof.
  revert acc c. induction rows as [|[i row] rows IH]; intros acc c Hlen.
  - simpl in Hlen. lia.
  - cbn [for_each_row]. unfold mbind at 1, io_bind at 1.
    destruct (stdin c) as [|line rest] eqn:Hin.
    + rewrite (ask_eof _ _ _ Hin). eauto.
    + rewrite (ask_spec _ _ _ _ _ _ Hin). apply IH. simpl in *. lia.
Qed.

Lemma get_user_ratings_eof (sample : DataFrame Movie) (c : console) :
  length (stdin c) < length sample ->
  exists c',
    get_user_ratings float_of_string sample c = (Raise EOFError, c') /\
    stdin c' = [].
Proof.
  intros Hlen. unfold get_user_ratings.
  unfold mbind at 1, io_bind at 1. unfold print, write. cbn [stdin stdout].
  unfold mbind at 1, io_bind at 1.
  destruct (for_each_row_eof sample []
              {| stdin := stdin c;
                 stdout := stdout c ++
                   [(newline +:+ "Please rate at least 5 movies (0.5 to 5). Enter 0 to skip.")
                    +:+ newline] |}) as (c' & -> & Hc'); [exact Hlen|].
  eauto.
Qed.

(** X6. When the replies run out before the candidates, the collector
    does not return: [input] raises [EOFError], which the loop does not
    catch, after all the replies have been read; the ratings gathered
    until then are lost. *)
Theorem collector_runs_out_of_replies (sample : DataFrame Movie) (c : console) :
  length (stdin c) < length sample ->
  exists c',
    get_user_ratings float_of_string sample c = (Raise EOFError, c') /\
    stdin c' = [].
Proof. apply get_user_ratings_eof. Qed.

(** A call that returns has had a reply for every candidate. *)
Lemma collector_Return (sample : DataFrame Movie) (c : console) df c' :
  get_user_ratings float_of_string sample c = (Return df, c') ->
  length sample <= length (stdin c) /\
  df = range_index (flat_map (fun rl => recorded float_of_string rl.1 rl.2)
                             (zip (values sample) (stdin c))).
Proof.
  intros Hrun. destruct (Nat.le_gt_cases (length sample) (length (stdin c)))
    as [Hle | Hgt].
  - split; [exact Hle|]. revert Hrun. unfold get_user_ratings.
    unfold mbind at 1, io_bind at 1. unfold print, write. cbn [stdin stdout].
    unfold mbind at 1, io_bind at 1.
    rewrite for_each_row_spec by (simpl; assumption). cbn [stdin stdout].
    intros [= <- _]. reflexivity.
  - destruct (get_user_ratings_eof sample c Hgt) as (c'' & Heof & _).
    congruence.
Qed.

Lemma recorded_shape (row : Movie) (line : string) (r : Rating) :
  In r (recorded float_of_string row line) ->
  recorded float_of_string row line = [r] /\
  userId r = 9999%Z /\ r_movieId r = movieId row /\
  float_ge (rating r) (Finite 0.5) = true.
Proof.
  unfold recorded. destruct (float_of_string line) as [x|]; [|intros []].
  destruct (float_ge x (Finite 0.5)) eqn:Hx; [|intros []].
  intros [<- | []]. auto.
Qed.

Lemma recorded_sublist (rows : list Movie) (lines : list string) :
  sublist (map r_movieId (flat_map (fun rl => recorded float_of_string rl.1 rl.2)
                                   (zip rows lines)))
          (map movieId rows).
Proof.
  revert lines. induction rows as [|row rows IH]; intros lines; [constructor|].
  destruct lines as [|line lines]; [apply sublist_nil_l|].
  cbn [zip zip_with flat_map map]. rewrite map_app.
  unfold recorded at 1. cbn [fst snd].
  destruct (float_of_string line) as [x|]; [|apply sublist_cons, IH].
  destruct (float_ge x (Finite 0.5)); [|apply sublist_cons, IH].
  cbn [map app r_movieId]. apply sublist_skip, IH.
Qed.

(** X7. The ratings the collector returns are ratings by user 9999 of
    candidates, with a value of 0.5 or more (so never NaN); their
    movies are candidates, in the order of asking, at most one rating
    per candidate asked; and the frame has the labels 0, 1, 2, ... *)
Theorem collector_ratings_are_well_formed (sample : DataFrame Movie) (c : console)
    df c' :
  get_user_ratings float_of_string sample c = (Return df, c') ->
  index df = seq 0 (length df) /\
  sublist (map r_movieId (values df)) (map movieId (values sample)) /\
  Forall (fun r => userId r = 9999%Z /\
                   float_ge (rating r) (Finite 0.5) = true) (values df).
Proof.
  intros Hrun. apply collector_Return in Hrun as [_ ->].
  rewrite values_range_index. split; [|split].
  - rewrite index_range_index, length_range_index. reflexivity.
  - apply recorded_sublist.
  - apply List.Forall_forall. intros r Hr. apply in_flat_map in Hr as ([row line] & _ & Hr).
    apply recorded_shape in Hr as (_ & Hu & _ & Hge). auto.
Qed.

Lemma collector_ratings_well_formed_aux (sample : DataFrame Movie) (c : console)
    df c' :
  get_user_ratings float_of_string sample c = (Return df, c') ->
  Forall (fun r => userId r = 9999%Z) (values df).
Proof.
  intros Hrun. apply collector_Return in Hrun as [_ ->].
  rewrite values_range_index. apply List.Forall_forall. intros r Hr.
  apply in_flat_map in Hr as ([row line] & _ & Hr).
  apply recorded_shape in Hr as (_ & Hu & _). exact Hu.
Qed.

End CollectorMore.

(** ** The merger *)

Lemma rated_append (existing user : DataFrame Rating) (user_id id : Z) :
  same_dtype (users existing) (users user) ->
  same_dtype (items existing) (items user) ->
  rated (append_user_data existing user) user_id id <->
  rated existing user_id id \/ rated user user_id id.
Proof.
  intros Hu Hm. unfold rated. rewrite (values_append_same_dtype _ _ Hu Hm).
  split.
  - intros (r & Hr & Hu' & Hid). apply in_app_or in Hr as [Hr | Hr]; eauto 6.
  - intros [(r & Hr & H1) | (r & Hr & H1)]; exists r;
      (split; [apply in_or_app; auto | exact H1]).
Qed.

(** A rating of the session is in the merged table as it was given,
    when the movies of the two tables have one dtype: the user 9999 is
    the same number in every dtype. *)
Lemma rated_append_session (existing user : DataFrame Rating) (r : Rating) :
  same_dtype (items existing) (items user) ->
  In r (values user) -> userId r = 9999%Z ->
  rated (append_user_data existing user) 9999 (r_movieId r).
Proof.
  intros Hm Hr Hu. unfold rated.
  rewrite values_append_user_data, (same_dtype_no_cast _ _ Hm).
  exists (cast_row (cast_to_float64 (users existing) (users user)) false r).
  split; [apply in_map, in_or_app; right; exact Hr|].
  split; [|reflexivity]. cbn [cast_row userId]. rewrite Hu.
  destruct (cast_to_float64 _ _); reflexivity.
Qed.

(** X9. After the merge of two tables whose identifiers have the same
    dtypes, a user has seen what the user had seen in either table. *)
Theorem seen_by_append_user_data (existing user : DataFrame Rating) (user_id : Z) :
  same_dtype (users existing) (users user) ->
  same_dtype (items existing) (items user) ->
  seen_by (append_user_data existing user) user_id
  = seen_by existing user_id ∪ seen_by user user_id.
Proof.
  intros Hu Hm. apply set_eq. intros id.
  rewrite elem_of_union, !seen_by_spec. apply rated_append; assumption.
Qed.

(** ** A session: collect, merge, recommend *)

Section Session.

Variable float_of_string : string -> option pyfloat.
Context `{Algo}.

Lemma candidates_unrated movies all_ratings re min_year user_id m :
  In m (candidates movies all_ratings re min_year user_id) ->
  ~ rated all_ratings user_id (movieId m) /\
  exists row, In row movies /\ row.2 = m.
Proof.
  unfold candidates, values, filtered, unseen_movies. rewrite in_map_iff.
  intros (row & <- & Hrow). apply In_select in Hrow as [Hrow _].
  apply In_select in Hrow as [Hrow Hseen]. split; [|eauto].
  rewrite <- seen_by_spec. apply negb_true_iff, bool_decide_eq_false in Hseen.
  exact Hseen.
Qed.

Lemma session_unrated (movies sample : DataFrame Movie)
    (base user_df : DataFrame Rating) (re : Re.regex) (min_year : Z)
    (c1 c2 : console) (m : Movie) :
  get_user_ratings float_of_string sample c1 = (Return user_df, c2) ->
  same_dtype (items base) (items user_df) ->
  In m (candidates movies (append_user_data base user_df) re min_year 9999) ->
  exists row,
    In row movies /\ row.2 = m /\
    forall r, In r (values user_df) -> r_movieId r <> movieId row.2.
Proof.
  intros Hcollect Hm Hcand.
  apply (collector_ratings_well_formed_aux float_of_string) in Hcollect.
  apply candidates_unrated in Hcand as (Hunrated & row & Hrow & Hy2).
  exists row. split; [exact Hrow|]. split; [exact Hy2|].
  intros r Hr Hid. apply Hunrated. rewrite <- Hy2, <- Hid.
  apply rated_append_session; [exact Hm | exact Hr|].
  exact (proj1 (List.Forall_forall _ _) Hcollect r Hr).
Qed.

(** X10. No movie rated in the session is recommended: when the
    ratings collected are merged into a table whose movie identifiers
    have the dtype of theirs, and the recommender is run for user 9999,
    as the main program does, every title returned is the title found
    for a movie of the catalog whose identifier is that of none of the
    ratings collected. *)
Theorem session_never_recommends_rated (movies sample : DataFrame Movie)
    (base user_df : DataFrame Rating) (genre : string) (min_year top_n : Z)
    (c1 c2 c3 : console) (res : list (string * Q)) :
  get_user_ratings float_of_string sample c1 = (Return user_df, c2) ->
  same_dtype (items base) (items user_df) ->
  train_and_recommend movies (append_user_data base user_df) genre min_year
    9999 top_n c2 = (Return res, c3) ->
  forall t s, In (t, s) res ->
    exists row,
      In row movies /\ title_of movies (movieId row.2) = Return t /\
      forall r, In r (values user_df) -> r_movieId r <> movieId row.2.
Proof.
  intros Hcollect Hm Hrun t s Hin.
  apply recommend_tagged in Hrun as (re & tg & Hre & _ & Hall & Hres & _).
  destruct (Forall2_In_r _ _ _ _ Hres Hin) as (y & Hy & Ht & _). simpl in Ht.
  pose proof (proj1 (List.Forall_forall _ _) Hall y Hy) as [Hc _].
  assert (Hcand : In y.2 (candidates movies (append_user_data base user_df)
                            re min_year 9999))
    by (apply list_elem_of_In, list_elem_of_lookup; eauto).
  destruct (session_unrated _ _ _ _ _ _ _ _ _ Hcollect Hm Hcand)
    as (row & Hrow & Hy2 & Hnot).
  rewrite <- Hy2 in Ht. exists row. auto.
Qed.

End Session.

(** ** The recommender *)

Lemma traverse_take {A B} (f : A -> outcome B) (l : list A) (bs : list B) (n : nat) :
  traverse f l = Return bs -> traverse f (take n l) = Return (take n bs).
Proof.
  revert bs n. induction l as [|a l IH]; intros bs n; simpl.
  - intros [= <-]. destruct n; reflexivity.
  - destruct (f a) as [b| |] eqn:Hb; try discriminate. simpl.
    destruct (traverse f l) as [bs'| |] eqn:Hl; try discriminate. simpl.
    intros [= <-]. destruct n as [|n]; [reflexivity|]. simpl.
    rewrite Hb. simpl. rewrite (IH bs' n eq_refl). reflexivity.
Qed.

Lemma sorted_desc_const (q : Q) (l : list Prediction) :
  Forall (fun p => est p = q) l -> sorted_desc l = l.
Proof.
  induction 1 as [|x l Hx Hl IH]; [reflexivity|].
  cbn [sorted_desc foldr]. fold (sorted_desc l). rewrite IH.
  destruct Hl as [|y l Hy _]; [reflexivity|]. cbn [insert_desc].
  rewrite Hx, Hy. unfold Qlt_bool.
  assert (Hle : Qle_bool q q = true) by (apply Qle_bool_iff, Qle_refl).
  rewrite Hle. reflexivity.
Qed.

Lemma above_3_const (q : Q) (l : list Prediction) :
  Forall (fun p => est p = q) l ->
  above_3 l = if Qlt_bool 3 q then l else [].
Proof.
  unfold above_3. induction 1 as [|x l Hx _ IH]; simpl.
  - destruct (Qlt_bool 3 q); reflexivity.
  - rewrite Hx, IH. destruct (Qlt_bool 3 q); reflexivity.
Qed.

Section RecommenderMore.

Context `{Algo}.

Lemma results_map movies all_ratings user_id (l : list Movie) :
  Forall (fun m => exists row, In row movies /\ row.2 = m) l ->
  exists res,
    results movies (map (prediction_for all_ratings user_id) l) = Return res /\
    Forall2 (fun m r => title_of movies (movieId m) = Return r.1 /\
                        r.2 = score all_ratings user_id m) l res.
Proof.
  unfold results. induction 1 as [|m l (row & Hrow & Hm) _ (res & IH & Hres)]; simpl.
  - eexists. split; [reflexivity | constructor].
  - rewrite py_int_str. simpl. rewrite <- Hm.
    destruct (title_of_total movies row Hrow) as [ti Hti]. rewrite Hti. simpl.
    rewrite IH. simpl. eexists. split; [reflexivity|].
    constructor; [|exact Hres]. simpl. auto.
Qed.

Lemma candidates_nil movies all_ratings genre re min_year user_id :
  loaded movies -> Re.compile genre = Some re ->
  candidates movies all_ratings re min_year user_id = [] <->
  forall row, In row movies -> genre_matches genre row.2 ->
              year_after min_year row.2 ->
              rated all_ratings user_id (movieId row.2).
Proof.
  intros Hl Hre. split.
  - intros Hnil row Hrow Hg Hy.
    destruct (decide (movieId row.2 ∈ seen_by all_ratings user_id)) as [Hs|Hs];
      [apply seen_by_spec; exact Hs|].
    exfalso. rewrite seen_by_spec in Hs.
    assert (Hin : In row.2 (candidates movies all_ratings re min_year user_id))
      by (apply (In_candidates _ _ _ _ _ _ _ Hl Hre); eauto 7).
    rewrite Hnil in Hin. destruct Hin.
  - intros Hall. destruct (candidates _ _ _ _ _) as [|m l] eqn:Hc; [reflexivity|].
    assert (Hin : In m (candidates movies all_ratings re min_year user_id))
      by (rewrite Hc; left; reflexivity).
    apply (In_candidates _ _ _ _ _ _ _ Hl Hre) in Hin
      as (row & Hrow & <- & Hseen & Hg & Hy).
    destruct (Hseen (Hall row Hrow Hg Hy)).
Qed.

Lemma empty_filtered movies all_ratings re min_year user_id :
  empty (filtered (unseen_movies movies (seen_by all_ratings user_id)) re min_year)
  = true <-> candidates movies all_ratings re min_year user_id = [].
Proof.
  unfold candidates, values.
  destruct (filtered _ _ _); simpl; split; congruence.
Qed.


(** X12. When some movie of the genre and after [min_year] is unrated,
    the recommender writes nothing: it returns with the console as it
    found it. *)
Theorem recommend_is_silent csv movies all_ratings genre min_year user_id top_n c :
  load_movies csv = Return movies ->
  is_Some (Re.compile genre) ->
  (exists row, In row movies /\ genre_matches genre row.2 /\
               year_after min_year row.2 /\
               ~ rated all_ratings user_id (movieId row.2)) ->
  exists res,
    train_and_recommend movies all_ratings genre min_year user_id top_n c
    = (Return res, c).
Proof.
  intros Hload Hsome (row & Hrow & Hg & Hy & Hseen).
  pose proof (genre_matches_text _ _ _ Hrow Hg) as Ht.
  destruct (recommend_total movies all_ratings genre min_year user_id top_n c
              Hsome Ht) as (res & c' & Hrun).
  exists res. rewrite Hrun. f_equal.
  destruct Hsome as [re Hre]. apply load_movies_loaded in Hload.
  rewrite (recommend_unfold _ _ _ _ _ _ _ Ht), Hre in Hrun. cbv zeta in Hrun.
  destruct (empty _) eqn:He.
  - exfalso. apply empty_filtered in He.
    pose proof (proj1 (candidates_nil movies all_ratings genre re min_year user_id
                         Hload Hre) He) as Hall.
    exact (Hseen (Hall row Hrow Hg Hy)).
  - injection Hrun as _ <-. reflexivity.
Qed.

(** X13. Asking for more recommendations only adds to the end of the
    list: for [0 <= k <= k'], the result for [top_n = k] is the first
    [k] entries of the result for [top_n = k']. *)
Theorem recommend_top_n_prefix movies all_ratings genre min_year user_id
    (k k' : Z) c res res' c1 c2 :
  (0 <= k <= k')%Z ->
  train_and_recommend movies all_ratings genre min_year user_id k c
  = (Return res, c1) ->
  train_and_recommend movies all_ratings genre min_year user_id k' c
  = (Return res', c2) ->
  res = take (Z.to_nat k) res'.
Proof.
  intros Hk Hrun. pose proof (recommend_returns_text _ _ _ _ _ _ _ _ _ Hrun) as Ht.
  revert Hrun. rewrite !(recommend_unfold _ _ _ _ _ _ _ Ht).
  destruct (Re.compile genre) as [re|]; [|discriminate]. cbv zeta.
  destruct (empty _).
  - intros [= <- _] [= <- _]. destruct (Z.to_nat k); reflexivity.
  - unfold top, slice_to.
    destruct (Z.leb_spec 0 k); [|lia]. destruct (Z.leb_spec 0 k'); [|lia].
    intros [= Hres _] [= Hres' _].
    apply (traverse_take _ _ _ (Z.to_nat k)) in Hres'.
    unfold results in Hres. rewrite take_take in Hres'.
    replace (Z.to_nat k `min` Z.to_nat k') with (Z.to_nat k) in Hres' by lia.
    congruence.
Qed.



End RecommenderMore.

(** X16. With the prediction rule of [surprise]'s [SVD] the
    recommendations do not depend on what the user rated, beyond the
    seen set and the mean: every score is the global mean of the
    ratings, clipped to the scale. On a catalog whose column [genres]
    is one of text, when that mean is above 3 the result is the first
    [top_n] candidates in the order of the catalog; when it is not, the
    result is empty. *)
Theorem svd_recommends_in_catalog_order (learn : trainset -> SVD.fitted)
    movies all_ratings genre re min_year user_id top_n c :
  Re.compile genre = Some re ->
  (0 <= top_n)%Z ->
  genres_are_text movies ->
  exists res c',
    train_and_recommend (H := SVD.algo learn) movies all_ratings genre min_year
      user_id top_n c = (Return res, c') /\
    Forall2 (fun m r =>
               title_of movies (movieId m) = Return r.1 /\
               r.2 = SVD.clip (SVD.global_mean (learn (build_full_trainset all_ratings))))
            (if Qlt_bool 3 (SVD.clip (SVD.global_mean
                                        (learn (build_full_trainset all_ratings))))
             then take (Z.to_nat top_n)
                       (candidates movies all_ratings re min_year user_id)
             else [])
            res.
Proof.
  intros Hre Hn Htext. rewrite (recommend_unfold _ _ _ _ _ _ _ Htext), Hre.
  cbv zeta. fold (candidates movies all_ratings re min_year user_id).
  set (gm := SVD.clip (SVD.global_mean (learn (build_full_trainset all_ratings)))).
  set (cands := candidates movies all_ratings re min_year user_id).
  destruct (empty _) eqn:He.
  - apply empty_filtered in He. fold cands in He. rewrite He.
    eexists _, _. split; [reflexivity|].
    rewrite take_nil. destruct (Qlt_bool 3 gm); constructor.
  - assert (Hconst : Forall (fun p => est p = gm)
                       (map (prediction_for (H := SVD.algo learn) all_ratings user_id)
                            cands)).
    { apply List.Forall_forall. intros p Hp. apply in_map_iff in Hp as (m & <- & _).
      apply svd_score_is_global_mean. }
    unfold top, slice_to. destruct (Z.leb_spec 0 top_n); [|lia].
    rewrite (above_3_const gm _ Hconst).
    assert (Hin : forall l, (forall m, In m l -> In m cands) ->
              Forall (fun m => exists row, In row movies /\ row.2 = m) l).
    { intros l Hl. apply List.Forall_forall. intros m Hm.
      apply (candidates_in_catalog movies all_ratings re min_year user_id), Hl, Hm. }
    destruct (Qlt_bool 3 gm).
    + rewrite (sorted_desc_const gm _ Hconst), firstn_map.
      destruct (results_map (H := SVD.algo learn) movies all_ratings user_id
                  (take (Z.to_nat top_n) cands)) as (res & Hres & Hrel).
      { apply Hin. intros m Hm. rewrite <- (firstn_skipn (Z.to_nat top_n) cands).
        apply in_or_app. left. exact Hm. }
      exists res, c. split; [rewrite Hres; reflexivity|].
      eapply Forall2_impl; [exact Hrel|]. intros m r [Ht Hs]. split; [exact Ht|].
      rewrite Hs. apply svd_score_is_global_mean.
    + exists [], c. split; [|constructor].
      cbn [sorted_desc foldr]. rewrite take_nil. reflexivity.
Qed.

(** ** Printing a score *)

Lemma round_half_even_near (q : Q) :
  (2 * Z.abs (round_half_even q * Z.pos (Qden q) - Qnum q) <= Z.pos (Qden q))%Z.
Proof.
  unfold round_half_even. destruct q as [n d]. cbn [Qnum Qden].
  pose proof (Z.div_mod n (Z.pos d) ltac:(lia)) as Hdm.
  pose proof (Z.mod_pos_bound n (Z.pos d) ltac:(lia)) as Hm.
  destruct (Z.compare_spec (2 * (n mod Z.pos d)) (Z.pos d)) as [He | Hl | Hg].
  - destruct (Z.even (n / Z.pos d)); nia.
  - nia.
  - nia.
Qed.

Lemma round_half_even_nonneg (q : Q) : (0 <= Qnum q)%Z -> (0 <= round_half_even q)%Z.
Proof.
  unfold round_half_even. intros Hq.
  assert (Hd : (0 <= Qnum q / Z.pos (Qden q))%Z) by (apply Z.div_pos; lia).
  destruct (_ ?= _)%Z; [destruct (Z.even _)|..]; lia.
Qed.

Lemma list_ascii_append (s t : string) :
  list_ascii_of_string (s +:+ t) = list_ascii_of_string s ++ list_ascii_of_string t.
Proof. induction s; sapp; congruence. Qed.

Lemma digits_fold_shift (l : list ascii) (acc : Z) :
  fold_left (fun acc c => 10 * acc + digit_value c)%Z l acc
  = (acc * 10 ^ Z.of_nat (length l)
     + fold_left (fun acc c => 10 * acc + digit_value c) l 0)%Z.
Proof.
  revert acc. induction l as [|c l IH]; intros acc.
  - simpl. lia.
  - cbn [fold_left length]. rewrite IH, (IH (10 * 0 + digit_value c)%Z).
    rewrite Nat2Z.inj_succ, Z.pow_succ_r by lia. ring.
Qed.

Lemma digits_value_append (s t : string) :
  digits_value (s +:+ t)
  = (digits_value s * 10 ^ Z.of_nat (String.length t) + digits_value t)%Z.
Proof.
  unfold digits_value. rewrite list_ascii_append, fold_left_app, digits_fold_shift.
  rewrite length_list_ascii. reflexivity.
Qed.

Lemma all_digits_append (s t : string) :
  all_digits s -> all_digits t -> all_digits (s +:+ t).
Proof. unfold all_digits. rewrite list_ascii_append. apply Forall_app_2. Qed.

Lemma split_point_digits (s t : string) :
  all_digits s -> split_point (s +:+ "." +:+ t) = (s, Some t).
Proof.
  unfold all_digits. induction s as [|c s IH]; intros Hs.
  - reflexivity.
  - inversion Hs as [|? ? Hc Hs']; subst. rewrite append_cons. cbn [split_point].
    assert (Hdot : Ascii.eqb c "." = false).
    { apply is_ascii_digit_cases in Hc. simpl in Hc. intuition (subst; reflexivity). }
    rewrite Hdot, (IH Hs'). reflexivity.
Qed.

Lemma two_digits_spec (b : Z) :
  (0 <= b < 100)%Z ->
  all_digits (two_digits b) /\ String.length (two_digits b) = 2 /\
  digits_value (two_digits b) = b.
Proof.
  intros Hb.
  assert (Hall : forallb (fun n =>
                   forallb is_ascii_digit (list_ascii_of_string (two_digits (Z.of_nat n)))
                   && (String.length (two_digits (Z.of_nat n)) =? 2)
                   && (digits_value (two_digits (Z.of_nat n)) =? Z.of_nat n)%Z)
                 (seq 0 100) = true) by (vm_compute; reflexivity).
  rewrite forallb_forall in Hall. specialize (Hall (Z.to_nat b)).
  rewrite Z2Nat.id in Hall by lia.
  destruct (proj1 (andb_true_iff _ _) (Hall ltac:(apply in_seq; lia))) as [H1 H3].
  apply andb_true_iff in H1 as [H1 H2].
  split; [|split].
  - unfold all_digits. apply List.Forall_forall. rewrite forallb_forall in H1. exact H1.
  - apply Nat.eqb_eq. exact H2.
  - apply Z.eqb_eq. exact H3.
Qed.

(** X17. A score that is not negative is printed as a decimal numeral
    with two fraction digits, and the number printed is within 0.005 of
    the score. *)
Theorem format_2f_reads_back (q : Q) :
  (0 <= q)%Q ->
  exists c : Z,
    read_decimal (format_2f q) = Some (Finite (c # 100)) /\
    (q - (1 # 200) <= c # 100)%Q /\ (c # 100 <= q + (1 # 200))%Q.
Proof.
  intros Hq. assert (Hn : (0 <= Qnum q)%Z).
  { unfold Qle in Hq. simpl in Hq. lia. }
  set (c := round_half_even ((Z.abs (Qnum q) # Qden q) * 100)).
  assert (Hc : (0 <= c)%Z).
  { apply round_half_even_nonneg. simpl. lia. }
  exists c. split.
  - unfold format_2f. fold c.
    assert (Hneg : Qlt_bool q 0 = false) by (apply Qlt_bool_false; exact Hq).
    rewrite Hneg, append_empty.
    pose proof (Z.div_mod c 100 ltac:(lia)) as Hdm.
    pose proof (Z.mod_pos_bound c 100 ltac:(lia)) as Hmod.
    assert (Ha : (0 <= c / 100)%Z) by (apply Z.div_pos; lia).
    destruct (py_str_digits _ Ha) as [Hda Hnea].
    destruct (two_digits_spec _ Hmod) as (Hdb & Hlb & Hvb).
    set (a := py_str (c / 100)) in *. set (b := two_digits (c mod 100)) in *.
    unfold read_decimal.
    assert (Hfirst : match a +:+ "." +:+ b with
                     | String ch s' =>
                         if Ascii.eqb ch "-" then (true, s') else (false, a +:+ "." +:+ b)
                     | EmptyString => (false, a +:+ "." +:+ b)
                     end = (false, a +:+ "." +:+ b)).
    { destruct a as [|ch a']; [congruence|]. rewrite append_cons.
      inversion Hda as [|? ? Hch _]; subst. apply is_ascii_digit_cases in Hch.
      simpl in Hch. intuition (subst; reflexivity). }
    rewrite Hfirst, (split_point_digits a b Hda). cbn [from_option]. unfold id.
    destruct (uint_of_digits (a +:+ b) (all_digits_append _ _ Hda Hdb))
      as (u & Hu & Hv).
    destruct (a +:+ b) as [|ch ab] eqn:Hab.
    { destruct a; [congruence | discriminate Hab]. }
    cbv beta iota. rewrite Hu. rewrite <- Hab in Hv.
    assert (Hval : Z.of_uint u = c).
    { rewrite of_uint_value, Hv. fold (digits_value (a +:+ b)).
      rewrite digits_value_append, Hlb, Hvb. unfold a.
      rewrite digits_value_py_str by exact Ha. change (10 ^ Z.of_nat 2)%Z with 100%Z.
      lia. }
    rewrite Hval, Hlb. reflexivity.
  - pose proof (round_half_even_near ((Z.abs (Qnum q) # Qden q) * 100)) as Hnear.
    fold c in Hnear. cbn [Qmult Qnum Qden] in Hnear.
    rewrite (Z.abs_eq (Qnum q)) in Hnear by exact Hn.
    rewrite Pos.mul_1_r in Hnear.
    destruct q as [n d]. cbn [Qnum Qden] in *.
    unfold Qle, Qminus, Qplus, Qopp. cbn [Qnum Qden]. split; lia.
Qed.

(** ** The main program *)

Lemma print_recs_spec (recs : list (string * Q)) (c : console) :
  print_recs recs c
  = (Return tt,
     {| stdin := stdin c;
        stdout := stdout c ++ map (fun r => rec_line r +:+ newline) recs |}).
Proof.
  revert c. induction recs as [|r recs IH]; intros c.
  - simpl. rewrite app_nil_r. destruct c; reflexivity.
  - cbn [print_recs]. unfold mbind at 1, io_bind at 1. unfold print at 1, write.
    rewrite IH. cbn [stdin stdout map]. rewrite <- app_assoc. reflexivity.
Qed.

Section MainFacts.

Variable float_of_string : string -> option pyfloat.
Context `{Algo}.
Variable movies : DataFrame Movie.
Variable ratings : DataFrame Rating.
Variable rng : list nat.

Lemma main_unfold (c : console) genre line rest min_year :
  stdin c = genre :: line :: rest ->
  py_int line = Return min_year ->
  main float_of_string movies ratings rng c =
  match get_movies_by_genre_and_year movies rng genre min_year 15 with
  | Raise (ValueError err) =>
      (Return SystemExit,
       {| stdin := rest; stdout := asked c ++ [(newline +:+ err) +:+ newline] |})
  | Raise e => (Raise e, {| stdin := rest; stdout := asked c |})
  | Unsupported => (Unsupported, {| stdin := rest; stdout := asked c |})
  | Return sample =>
      rate_and_recommend float_of_string movies ratings genre min_year sample
        {| stdin := rest; stdout := asked c |}
  end.
Proof.
  intros Hin Hy. unfold main, asked.
  unfold mbind at 1, io_bind at 1. unfold input at 1. rewrite Hin.
  unfold mbind at 1, io_bind at 1. unfold input at 1. cbn [stdin stdout].
  unfold mbind at 1, io_bind at 1. unfold lift at 1. rewrite Hy.
  rewrite <- app_assoc. cbn [app].
  destruct (get_movies_by_genre_and_year movies rng genre min_year 15)
    as [sample|[err| | | |]|]; reflexivity.
Qed.


(** X19. When movies are offered and no reply records a rating, the
    program says that no ratings were given and ends by [SystemExit],
    whatever the prediction algorithm: the model is not consulted. *)
Theorem main_exits_without_ratings (c : console) genre line replies min_year sample :
  stdin c = genre :: line :: replies ->
  py_int line = Return min_year ->
  get_movies_by_genre_and_year movies rng genre min_year 15 = Return sample ->
  length sample <= length replies ->
  Forall (fun rl => recorded float_of_string rl.1 rl.2 = [])
         (zip (values sample) replies) ->
  main float_of_string movies ratings rng c
  = (Return SystemExit,
     {| stdin := drop (length sample) replies;
        stdout := (asked c ++ banner ::
                     flat_map (fun rl => written float_of_string rl.1 rl.2)
                              (zip (values sample) replies))
                  ++ [(newline +:+ "No ratings given — exiting.") +:+ newline] |}).
Proof.
  intros Hin Hy Hsample Hlen Hnone.
  rewrite (main_unfold c genre line replies min_year Hin Hy), Hsample.
  unfold rate_and_recommend. unfold mbind at 1, io_bind at 1.
  unfold get_user_ratings.
  unfold mbind at 1, io_bind at 1. unfold print at 1, write. cbn [stdin stdout].
  unfold mbind at 1, io_bind at 1.
  rewrite for_each_row_spec by (simpl; assumption). cbn [stdin stdout].
  assert (Hflat : flat_map (fun rl => recorded float_of_string rl.1 rl.2)
                           (zip (values sample) replies) = []).
  { induction Hnone as [|rl l Hrl _ IH]; [reflexivity|]. simpl. rewrite Hrl, IH.
    reflexivity. }
  rewrite Hflat. cbn [app range_index length seq combine empty mret io_ret].
  unfold mbind at 1, io_bind at 1. unfold print at 1, write.
  cbn [stdin stdout]. rewrite <- !app_assoc. reflexivity.
Qed.

(** X20. When the program runs to its end, it has sampled movies for
    the genre and the year read, collected from the replies that follow
    a table with at least one rating, and run the recommender on the
    ratings merged with that table. What it has printed after that is
    the heading and one line per recommendation returned: at most five
    lines, each for a score above 3 and, when the movie identifiers of
    the ratings and of the session have one dtype, none for a movie
    rated in the session. *)
Theorem main_prints_at_most_five (c c' : console) :
  main float_of_string movies ratings rng c = (Return Finished, c') ->
  exists genre line replies min_year sample user_df c2 recs c3,
    stdin c = genre :: line :: replies /\
    py_int line = Return min_year /\
    get_movies_by_genre_and_year movies rng genre min_year 15 = Return sample /\
    get_user_ratings float_of_string sample {| stdin := replies; stdout := asked c |}
    = (Return user_df, c2) /\
    user_df <> [] /\
    train_and_recommend movies (append_user_data ratings user_df) genre min_year
      9999 5 c2 = (Return recs, c3) /\
    stdin c' = stdin c3 /\
    stdout c' = stdout c3
                ++ ((newline +:+ "🎬  Top recommendations just for you:") +:+ newline)
                :: map (fun r => rec_line r +:+ newline) recs /\
    length recs <= 5 /\
    Forall (fun r => (3 < r.2)%Q) recs /\
    (same_dtype (items ratings) (items user_df) ->
     Forall (fun r =>
               exists row, In row movies /\
                 title_of movies (movieId row.2) = Return r.1 /\
                 forall u, In u (values user_df) -> r_movieId u <> movieId row.2)
            recs).
Proof.
  unfold main. unfold mbind at 1, io_bind at 1. unfold input at 1.
  destruct (stdin c) as [|genre rest] eqn:Hin; [discriminate|].
  unfold mbind at 1, io_bind at 1. unfold input at 1. cbn [stdin stdout].
  destruct rest as [|line rest]; [discriminate|].
  unfold mbind at 1, io_bind at 1. unfold lift at 1.
  destruct (py_int line) as [min_year| |] eqn:Hy; try discriminate.
  destruct (get_movies_by_genre_and_year movies rng genre min_year 15)
    as [sample|[err| | | |]|] eqn:Hsample; try discriminate.
  unfold rate_and_recommend. unfold mbind at 1, io_bind at 1.
  rewrite <- app_assoc. cbn [app]. fold (asked c).
  destruct (get_user_ratings float_of_string sample _) as [[user_df| |] c2] eqn:Hcollect;
    try discriminate.
  destruct (empty user_df) eqn:He.
  { unfold mbind, io_bind, print, write. discriminate. }
  unfold mbind at 1, io_bind at 1.
  destruct (train_and_recommend movies (append_user_data ratings user_df) genre
              min_year 9999 5 c2) as [[recs| |] c3] eqn:Hrun; try discriminate.
  unfold mbind at 1, io_bind at 1. unfold print at 1, write.
  unfold mbind at 1, io_bind at 1. rewrite print_recs_spec. cbn [stdin stdout].
  intros [= <-]. cbn [stdin stdout].
  exists genre, line, rest, min_year, sample, user_df, c2, recs, c3.
  split; [reflexivity|]. split; [exact Hy|]. split; [exact Hsample|].
  split; [exact Hcollect|]. split; [intros ->; discriminate He|].
  split; [exact Hrun|]. split; [reflexivity|].
  split; [rewrite <- app_assoc; reflexivity|].
  pose proof Hrun as Htag.
  apply recommend_tagged in Htag as (re & tg & Hre & _ & Hall & Hres & Hlen).
  split; [|split].
  - rewrite <- (Forall2_length _ _ _ Hres). specialize (Hlen ltac:(lia)). lia.
  - apply List.Forall_forall. intros r Hr.
    destruct (Forall2_In_r _ _ _ _ Hres Hr) as (y & Hy' & _ & Hs).
    pose proof (proj1 (List.Forall_forall _ _) Hall y Hy') as [_ Hgt].
    rewrite Hs. exact Hgt.
  - intros Hm. apply List.Forall_forall. intros [t s] Hr.
    destruct (Forall2_In_r _ _ _ _ Hres Hr) as (y & Hy' & Ht & _). simpl in Ht.
    pose proof (proj1 (List.Forall_forall _ _) Hall y Hy') as [Hc _].
    assert (Hcand : In y.2 (candidates movies (append_user_data ratings user_df)
                              re min_year 9999))
      by (apply list_elem_of_In, list_elem_of_lookup; eauto).
    destruct (session_unrated float_of_string _ _ _ _ _ _ _ _ _ Hcollect Hm Hcand)
      as (row & Hrow & Hy2 & Hnot).
    rewrite <- Hy2 in Ht. exists row. auto.
Qed.

End MainFacts.

(** ** Instances of the further properties *)

Lemma extract_year_range_witness : (0 <= 1995 <= 9999)%Z.
Proof.
  apply (extract_year_range "Toy Story (1995)" 1995). vm_compute. reflexivity.
Defined.

Lemma genre_case_is_immaterial_witness :
  get_movies_by_genre_and_year demo_movies [2; 0] (casefold "ACTION|Comedy") 1990 15
  = get_movies_by_genre_and_year demo_movies [2; 0] "ACTION|Comedy" 1990 15 /\
  train_and_recommend (H := SVD.algo demo_learn) demo_movies demo_ratings
    (casefold "ACTION|Comedy") 1990 9999 5 quiet
  = train_and_recommend (H := SVD.algo demo_learn) demo_movies demo_ratings
      "ACTION|Comedy" 1990 9999 5 quiet.
Proof.
  apply (genre_case_is_immaterial (H := SVD.algo demo_learn) demo_movies
           demo_ratings [2; 0] "ACTION|Comedy" 1990 15 9999 5 quiet).
  eexists. vm_compute. reflexivity.
Defined.

Lemma sampler_offers_whole_pool_witness :
  exists out,
    get_movies_by_genre_and_year demo_movies [2; 0] "Action" 1990 15 = Return out /\
    Permutation out (pool_of demo_movies (literal "Action") 1990).
Proof.
  apply (sampler_offers_whole_pool demo_movies [2; 0] "Action" (literal "Action")
           1990 15).
  - reflexivity.
  - vm_compute. discriminate.
  - vm_compute. discriminate.
Defined.

Lemma sampler_negative_size_witness :
  get_movies_by_genre_and_year demo_movies [2; 0] "Action" 1990 (-1)
  = Raise (ValueError "A negative number of rows requested. Please provide `n` >= 0.").
Proof.
  apply (sampler_negative_size demo_movies [2; 0] "Action" (literal "Action")
           1990 (-1)).
  - reflexivity.
  - vm_compute. discriminate.
  - lia.
Defined.

Lemma collector_runs_out_of_replies_witness :
  exists c',
    get_user_ratings read_decimal demo_sample {| stdin := ["4.5"]; stdout := [] |}
    = (Raise EOFError, c') /\ stdin c' = [].
Proof.
  apply (collector_runs_out_of_replies read_decimal demo_sample
           {| stdin := ["4.5"]; stdout := [] |}).
  simpl. lia.
Defined.

Lemma collector_ratings_are_well_formed_witness :
  index demo_user_df = seq 0 (length demo_user_df) /\
  sublist (map r_movieId (values demo_user_df)) (map movieId (values demo_sample)) /\
  Forall (fun r => userId r = 9999%Z /\
                   float_ge (rating r) (Finite 0.5) = true) (values demo_user_df).
Proof.
  eapply (collector_ratings_are_well_formed read_decimal demo_sample
            {| stdin := ["4.5"; "0"]; stdout := [] |} demo_user_df).
  vm_compute. reflexivity.
Defined.

Lemma session_never_recommends_rated_witness :
  exists row,
    In row demo_movies /\
    title_of demo_movies (movieId row.2) = Return "Bad Boys (1995)" /\
    forall r, In r (values demo_user_df) -> r_movieId r <> movieId row.2.
Proof.
  apply (session_never_recommends_rated read_decimal (H := SVD.algo demo_learn)
           demo_movies demo_sample demo_ratings demo_user_df "Action" 1990 5
           {| stdin := ["4.5"; "0"]; stdout := [] |}
           (get_user_ratings read_decimal demo_sample
              {| stdin := ["4.5"; "0"]; stdout := [] |}).2
           (get_user_ratings read_decimal demo_sample
              {| stdin := ["4.5"; "0"]; stdout := [] |}).2
           [("Bad Boys (1995)", 3.5%Q)]
           ltac:(vm_compute; reflexivity) ltac:(vm_compute; reflexivity)
           ltac:(vm_compute; reflexivity)
           "Bad Boys (1995)" 3.5%Q).
  left. reflexivity.
Defined.

Lemma seen_by_append_user_data_witness :
  seen_by (append_user_data demo_ratings demo_user_df) 9999
  = seen_by demo_ratings 9999 ∪ seen_by demo_user_df 9999.
Proof.
  apply (seen_by_append_user_data demo_ratings demo_user_df 9999);
    vm_compute; reflexivity.
Defined.


Lemma recommend_is_silent_witness :
  exists res,
    train_and_recommend (H := SVD.algo demo_learn) demo_movies demo_ratings
      "Action" 1990 9999 5 quiet = (Return res, quiet).
Proof.
  apply (recommend_is_silent (H := SVD.algo demo_learn) demo_csv demo_movies
           demo_ratings "Action" 1990 9999 5 quiet).
  - vm_compute. reflexivity.
  - eexists. vm_compute. reflexivity.
  - exists (1, heat). split; [right; left; reflexivity|]. split; [|split].
    + apply (str_contains_spec "Action" (literal "Action")); reflexivity.
    + exists 1995%Z. split; [vm_compute; reflexivity | lia].
    + intros (r & Hr & Hu & Hid). vm_compute in Hr.
      destruct Hr as [<- | [<- | [<- | [<- | []]]]]; discriminate.
Defined.

Lemma recommend_top_n_prefix_witness :
  [("Heat (1995)", 3.5%Q)]
  = take (Z.to_nat 1) [("Heat (1995)", 3.5%Q); ("Bad Boys (1995)", 3.5%Q)].
Proof.
  apply (recommend_top_n_prefix (H := SVD.algo demo_learn) demo_movies demo_ratings
           "Action" 1990 9999 1 5 quiet _ _ quiet quiet).
  - lia.
  - vm_compute. reflexivity.
  - vm_compute. reflexivity.
Defined.



Lemma svd_recommends_in_catalog_order_witness :
  exists res c',
    train_and_recommend (H := SVD.algo demo_learn) demo_movies demo_ratings
      "Action" 1990 9999 5 quiet = (Return res, c') /\
    Forall2 (fun m r =>
               title_of demo_movies (movieId m) = Return r.1 /\
               r.2 = SVD.clip (SVD.global_mean
                                 (demo_learn (build_full_trainset demo_ratings))))
            (if Qlt_bool 3 (SVD.clip (SVD.global_mean
                                        (demo_learn (build_full_trainset demo_ratings))))
             then take (Z.to_nat 5)
                       (candidates demo_movies demo_ratings (literal "Action") 1990 9999)
             else [])
            res.
Proof.
  apply (svd_recommends_in_catalog_order demo_learn demo_movies demo_ratings
           "Action" (literal "Action") 1990 9999 5 quiet).
  - reflexivity.
  - lia.
  - exact demo_movies_text.
Defined.

Lemma format_2f_reads_back_witness :
  exists c : Z,
    read_decimal (format_2f 3.5) = Some (Finite (c # 100)) /\
    (3.5 - (1 # 200) <= c # 100)%Q /\ (c # 100 <= 3.5 + (1 # 200))%Q.
Proof.
  apply (format_2f_reads_back 3.5). unfold Qle. simpl. lia.
Defined.


Lemma main_exits_without_ratings_witness :
  main read_decimal (H := SVD.algo demo_learn) demo_movies demo_ratings [2; 0]
    {| stdin := ["Action"; "1990"; "x"; "0"]; stdout := [] |}
  = (Return SystemExit,
     {| stdin := drop (length demo_sample) ["x"; "0"];
        stdout := (asked {| stdin := ["Action"; "1990"; "x"; "0"]; stdout := [] |}
                   ++ banner ::
                     flat_map (fun rl => written read_decimal rl.1 rl.2)
                              (zip (values demo_sample) ["x"; "0"]))
                  ++ [(newline +:+ "No ratings given — exiting.") +:+ newline] |}).
Proof.
  apply (main_exits_without_ratings read_decimal (H := SVD.algo demo_learn)
           demo_movies demo_ratings [2; 0]
           {| stdin := ["Action"; "1990"; "x"; "0"]; stdout := [] |}
           "Action" "1990" ["x"; "0"] 1990 demo_sample).
  - reflexivity.
  - vm_compute. reflexivity.
  - vm_compute. reflexivity.
  - simpl. lia.
  - repeat constructor.
Defined.

Lemma main_prints_at_most_five_witness :
  exists genre line replies min_year sample user_df c2 recs c3,
    stdin demo_session = genre :: line :: replies /\
    py_int line = Return min_year /\
    get_movies_by_genre_and_year demo_movies [2; 0] genre min_year 15
    = Return sample /\
    get_user_ratings read_decimal sample
      {| stdin := replies; stdout := asked demo_session |}
    = (Return user_df, c2) /\
    user_df <> [] /\
    train_and_recommend (H := SVD.algo demo_learn) demo_movies
      (append_user_data demo_ratings user_df) genre min_year 9999 5 c2
    = (Return recs, c3) /\
    stdin demo_end = stdin c3 /\
    stdout demo_end = stdout c3
                ++ ((newline +:+ "🎬  Top recommendations just for you:") +:+ newline)
                :: map (fun r => rec_line r +:+ newline) recs /\
    length recs <= 5 /\
    Forall (fun r => (3 < r.2)%Q) recs /\
    (same_dtype (items demo_ratings) (items user_df) ->
     Forall (fun r =>
               exists row, In row demo_movies /\
                 title_of demo_movies (movieId row.2) = Return r.1 /\
                 forall u, In u (values user_df) -> r_movieId u <> movieId row.2)
            recs).
Proof.
  apply (main_prints_at_most_five read_decimal (H := SVD.algo demo_learn)
           demo_movies demo_ratings [2; 0] demo_session demo_end).
  vm_compute. reflexivity.
Defined.

(** On a catalog without a genre the program ends on the
    [AttributeError] of the sampler, after its two questions. *)
Example main_no_genres :
  (main read_decimal (H := SVD.algo demo_learn) no_genres demo_ratings []
        {| stdin := ["Comedy"; "1990"]; stdout := [] |}).1
  = Raise AttributeError.
Proof. vm_compute. reflexivity. Qed.

Example main_session :
  main read_decimal (H := SVD.algo demo_learn) demo_movies demo_ratings [2; 0]
       demo_session
  = (Return Finished,
     {| stdin := [];
        stdout := ["Enter a genre (e.g., Comedy): ";
                   "Enter a minimum year (e.g., 2010): ";
                   banner;
                   "Rating for 'Heat (1995)': "; "Rating for 'Bad Boys (1995)': ";
                   (newline +:+ "🎬  Top recommendations just for you:") +:+ newline;
                   "  • Bad Boys (1995)  —  predicted rating: 3.50" +:+ newline] |}).
Proof. vm_compute. reflexivity. Qed.
